(** * Build-HFT-Agent: the rolling-window signal and stop-sizing loop

    A shallow embedding of the three scripts of the repository

      - [HFT_1.py]                         (stop = max (2 * stdev, broker minimum))
      - [HFT_2.py]                         (stop = max (variance, 30))
      - [remove30_use_RawCalculatedVar.py] (stop = variance)

    Python floats are modelled as real numbers: every arithmetic step is
    exact, rounding is not modelled.  Where rounding decides what the
    scripts compute, module [Np64] gives [np.var] on binary64 numbers, as
    numpy evaluates it.  Formatted strings ([f"{x:.5f}"], [strftime]) are
    kept symbolic.  Calls to [logging] write to the console only and are
    left out. *)

From Stdlib Require Import Reals Lra Lia ZArith List String.
From Stdlib Require PrimFloat Uint63.
From stdpp Require Import gmap strings list fin_maps.

Open Scope R_scope.

(** ** collections.deque(maxlen=N) *)

Module Deque.

(** [deque.append x] with a [maxlen]: the element is appended on the right
    and, if the length then exceeds [maxlen], one element is popped on the
    left. *)
Definition append (maxlen : nat) (d : list R) (x : R) : list R :=
  let d' := (d ++ [x])%list in
  if (maxlen <? length d')%nat then tail d' else d'.

(** Successive [append]s, left to right. *)
Definition extend (maxlen : nat) (d : list R) (xs : list R) : list R :=
  fold_left (append maxlen) xs d.

End Deque.

(** ** numpy / scipy statistics used by the scripts *)

Module Np.

Definition sum (l : list R) : R := fold_right Rplus 0 l.

(** [np.mean] *)
Definition mean (l : list R) : R := sum l / INR (length l).

(** [np.var] with the default [ddof = 0]: the mean of the squared
    deviations from the mean. *)
Definition var (l : list R) : R :=
  mean (map (fun x => (x - mean l) * (x - mean l)) l).

(** [np.std]: the square root of [np.var]. *)
Definition std (l : list R) : R := sqrt (var l).

(** [np.cov (x, y, bias=1)], off-diagonal entry. *)
Definition cov (xs ys : list R) : R :=
  mean (map (fun xy => (fst xy - mean xs) * (snd xy - mean ys)) (combine xs ys)).

(** The [slope] field of [scipy.stats.linregress (x, y)]:
    [ssxym / ssxm], both taken from [np.cov (x, y, bias=1)]. *)
Definition linregress_slope (xs ys : list R) : R :=
  cov xs ys / cov xs xs.

(** [range (n)] as floats. *)
Definition range (n : nat) : list R := map INR (seq 0 n).

End Np.

(** ** numpy's [np.var] on binary64 numbers *)

Module Np64.

Import PrimFloat.

(** A Python float. *)
Abbreviation float64 := PrimFloat.float.

(** [float (n)] for a length. *)
Definition of_nat (n : nat) : float64 := of_uint63 (Uint63.of_Z (Z.of_nat n)).

(** The eight running sums of numpy's summation loop, after the blocks of
    eight in [a] were added to them one after the other. *)
Fixpoint add_blocks (fuel : nat) (r a : list float64) : list float64 :=
  match fuel, a with
  | S fuel, _ :: _ => add_blocks fuel (zip_with add r (take 8 a)) (drop 8 a)
  | _, _ => r
  end.

(** numpy's pairwise summation of a contiguous float64 array, which
    [np.add.reduce] runs: fewer than 8 numbers are added in order; up to 128
    numbers go into eight running sums, these are added two by two, and what
    is left after the last whole block of eight is added in order; more
    numbers are split in two at a multiple of eight and the two sums are
    added.  [fuel] bounds the splitting; the length is enough. *)
Fixpoint pairwise_sum (fuel : nat) (a : list float64) : float64 :=
  let n := length a in
  if (n <? 8)%nat then fold_left add a 0%float
  else if (n <=? 128)%nat then
    let whole := (n - n mod 8)%nat in
    match add_blocks n (take 8 a) (drop 8 (take whole a)) with
    | [r0; r1; r2; r3; r4; r5; r6; r7] =>
        let res :=
          (((r0 + r1) + (r2 + r3)) + ((r4 + r5) + (r6 + r7)))%float in
        fold_left add (drop whole a) res
    | _ => nan
    end
  else
    match fuel with
    | O => nan
    | S fuel =>
        let n2 := (n / 2)%nat in
        let n2 := (n2 - n2 mod 8)%nat in
        (pairwise_sum fuel (take n2 a) + pairwise_sum fuel (drop n2 a))%float
    end.

(** [np.add.reduce (a)] *)
Definition sum (a : list float64) : float64 := pairwise_sum (length a) a.

(** [np.var (a)] with [ddof = 0]: the sum divided by the count is the mean,
    the deviations from it are squared, and their sum is divided by the
    count. *)
Definition var (a : list float64) : float64 :=
  let rcount := of_nat (length a) in
  let arrmean := (sum a / rcount)%float in
  let x := map (fun y => (y - arrmean) * (y - arrmean))%float a in
  (sum x / rcount)%float.

(** A full window of HFT_2 whose prices are all 0.1, and a full window of
    remove30_use_RawCalculatedVar whose prices are all 2345.67.  As in
    Python, a decimal numeral stands for the binary64 number nearest to
    it. *)
#[warnings="-inexact-float"]
Definition flat_30 : list float64 := repeat 0.1%float 30.

End Np64.

(** ** Symbolic text, CSV files, and the MetaTrader 5 terminal *)

(** Strings the scripts build from numbers and dates.  The digits of a
    formatted number are not computed: the expression is kept. *)
Inductive text : Type :=
| Lit (s : string)                      (* a literal *)
| Fixed (digits : nat) (x : R)          (* f"{x:.<digits>f}" *)
| Float (x : R)                         (* str (x), x a float *)
| Int (z : Z)                           (* str (z), z an int *)
| Strftime (fmt : string) (t : Z)       (* t.strftime (fmt) *)
| DropLast (n : nat) (t : text)         (* t[:-n] *)
| Cat (a b : text).                     (* a + b *)

(** [sep.join (ts)] *)
Fixpoint join (sep : string) (ts : list text) : text :=
  match ts with
  | [] => Lit EmptyString
  | [t] => t
  | t :: rest => Cat t (Cat (Lit sep) (join sep rest))
  end.

Abbreviation row := (list text).

(** The directory the script runs in: file name to rows written so far. *)
Abbreviation fs := (gmap string (list row)).

(** [os.path.exists (file)] *)
Definition path_exists (file : string) (d : fs) : bool :=
  bool_decide (is_Some (d !! file)).

(** [with open (file, 'w') as f: csv.writer (f).writerow (r)]:
    the file is created or truncated, then holds the one row. *)
Definition open_w_writerow (file : string) (r : row) (d : fs) : fs :=
  <[file := [r]]> d.

(** [with open (file, 'a') as f: csv.writer (f).writerow (r)]:
    the file is created if absent, the row goes after what is there. *)
Definition open_a_writerow (file : string) (r : row) (d : fs) : fs :=
  <[file := (default [] (d !! file) ++ [r])%list]> d.

(** A [datetime], in microseconds. *)
Abbreviation datetime := Z.

(** [datetime.datetime.fromtimestamp (secs)] *)
Definition fromtimestamp (secs : Z) : datetime := (secs * 1000000)%Z.

(** [datetime.timedelta (microseconds=n)] *)
Definition timedelta_microseconds (n : Z) : Z := n.

(** One record of [mt5.copy_ticks_from]. *)
Record tick := { time : Z; last : R; bid : R; ask : R }.

(** [mt5.symbol_info]: the two fields that are read. *)
Record SymbolInfo := { trade_stops_level : Z; point : R }.

Inductive ORDER_TYPE := ORDER_TYPE_BUY | ORDER_TYPE_SELL.
Inductive ORDER_FILLING := ORDER_FILLING_FOK | ORDER_FILLING_IOC.
Inductive TRADE_ACTION := TRADE_ACTION_DEAL.
Inductive ORDER_TIME := ORDER_TIME_GTC.

Definition TRADE_RETCODE_DONE : Z := 10009.

(** The [request] dict handed to [mt5.order_send]. *)
Record order_request := {
  action : TRADE_ACTION;
  symbol : string;
  volume : R;
  type : ORDER_TYPE;
  price : R;
  sl : R;
  tp : R;
  deviation : Z;
  type_time : ORDER_TIME;
  type_filling : ORDER_FILLING;
  comment : text
}.

(** What [mt5.order_send] returns when it is not [None].  The [profit]
    attribute may be missing: [HFT_2.py] reads it with [getattr] and a
    default. *)
Record order_result := {
  retcode : Z;
  order : Z;
  deal : Z;
  profit : option R;
  result_comment : string
}.

(** The terminal's answers during one loop iteration. *)
Record terminal := {
  copy_ticks_from : string -> datetime -> nat -> option (list tick);
  order_send : order_request -> option order_result;
  now : nat -> datetime        (* the k-th [datetime.datetime.now ()] whose
                                  value is kept, counted from 0 *)
}.

(** What one iteration does to the outside, CSV files apart. *)
Inductive effect :=
| OrderSend (request : order_request)
| Sleep (seconds : Z).

Inductive exn := AttributeError.
Inductive outcome := Normal | Raised (e : exn).

(** Python's [max (a, b)]: [a] unless [b > a]. *)
Definition py_max (a b : R) : R := if Rlt_dec a b then b else a.

(** [l[-1]] on a non-empty list. *)
Definition last_item (l : list R) : R := List.last l 0.

(** The requests an effect list sends. *)
Definition sent (es : list effect) : list order_request :=
  omap (fun e => match e with OrderSend r => Some r | Sleep _ => None end) es.

(** ** HFT_1.py *)

Module HFT_1.

Definition SYMBOL : string := "BTCUSD".
Definition TICK_BUFFER_SIZE : nat := 30.
Definition TICKS_PER_CALL : nat := 200.
Definition LOOKBACK_MINUTES : Z := 2.
Definition LOOP_ITERATIONS : nat := 100.
Definition SLEEP_BETWEEN_ORDERS : Z := 30.
Definition SLOPE_THRESHOLD : R := 0.0001.
Definition LOT_SIZE : R := 0.01.
Definition STDEV_MULTIPLIER : R := 2.0.
Definition MIN_STOP_DEFAULT : R := 0.0005.
Definition TICK_CSV_FILE : string := "tick_data.csv".
Definition ORDER_CSV_FILE : string := "order_data.csv".

(** The module-level globals [main] works on, and the directory. *)
Record state := {
  tick_buffer : list R;
  previous_slope : R;
  latest_tick_time : datetime;
  files : fs
}.

Definition tick_csv_header : row :=
  [Lit "date"; Lit "time"; Lit "symbol"; Lit "price"; Lit "variance";
   Lit "slope"; Lit "trend"].

Definition order_csv_header : row :=
  [Lit "Ticket"; Lit "Order"; Lit "Time"; Lit "Symbol"; Lit "Type";
   Lit "Volume"; Lit "Price"; Lit "Profit"; Lit "Comment"].

Definition prepare_tick_csv (d : fs) : fs :=
  open_w_writerow TICK_CSV_FILE tick_csv_header d.

(** The three statistics arrive as strings already ([variance_str], ...),
    so the [isinstance (_, float)] tests fail and they are written as they
    are. *)
Definition append_tick_csv_row
    (date_str time_str : text) (symbol : string) (price : R)
    (variance slope trend : text) (d : fs) : fs :=
  open_a_writerow TICK_CSV_FILE
    [date_str; time_str; Lit symbol; Fixed 5 price; variance; slope; trend] d.

Definition prepare_order_csv (d : fs) : fs :=
  open_w_writerow ORDER_CSV_FILE order_csv_header d.

Definition append_order_csv_row
    (ticket order_num : Z) (time_str : text) (symbol order_type : string)
    (volume price profit : R) (comment : text) (d : fs) : fs :=
  open_a_writerow ORDER_CSV_FILE
    [Int ticket; Int order_num; time_str; Lit symbol; Lit order_type;
     Float volume; Fixed 5 price; Fixed 2 profit; comment] d.

(** "Initialize CSVs": the two module-level calls. *)
Definition initialize_csvs (d : fs) : fs :=
  prepare_order_csv (prepare_tick_csv d).

(** [broker_min_stop_price], computed once from [mt5.symbol_info]. *)
Definition broker_min_stop_price (symbol_info : SymbolInfo) : R :=
  let broker_min_stop_points := trade_stops_level symbol_info in
  let broker_min_stop_price := IZR broker_min_stop_points * point symbol_info in
  if Rle_dec broker_min_stop_price 0 then MIN_STOP_DEFAULT
  else broker_min_stop_price.

Definition fetch_new_ticks (mt5 : terminal) (symbol : string)
    (from_time : datetime) : option (list tick) :=
  copy_ticks_from mt5 symbol from_time TICKS_PER_CALL.

(** The [request] dict of [place_market_order]. *)
Definition request (symbol : string) (volume : R) (order_type : string)
    (price stop_dist : R) : order_request :=
  if String.eqb order_type "BUY" then
    let tp := price + stop_dist in
    let sl := price - stop_dist in
    {| action := TRADE_ACTION_DEAL; symbol := symbol; volume := volume;
       type := ORDER_TYPE_BUY; price := price; sl := sl; tp := tp;
       deviation := 20; type_time := ORDER_TIME_GTC;
       type_filling := ORDER_FILLING_IOC;
       comment := Cat (Lit "Slope-based Buy (stop=")
                      (Cat (Fixed 5 stop_dist) (Lit ")")) |}
  else
    let tp := price - stop_dist in
    let sl := price + stop_dist in
    {| action := TRADE_ACTION_DEAL; symbol := symbol; volume := volume;
       type := ORDER_TYPE_SELL; price := price; sl := sl; tp := tp;
       deviation := 20; type_time := ORDER_TIME_GTC;
       type_filling := ORDER_FILLING_IOC;
       comment := Cat (Lit "Slope-based Sell (stop=")
                      (Cat (Fixed 5 stop_dist) (Lit ")")) |}.

(** [place_market_order]: the request sent and the terminal's result. *)
Definition place_market_order (mt5 : terminal) (symbol : string) (volume : R)
    (order_type : string) (price stop_dist : R)
    : list effect * option order_result :=
  let request := request symbol volume order_type price stop_dist in
  let result := order_send mt5 request in
  ([OrderSend request], result).

(** The [if / elif / else] on the slope that names the trend. *)
Definition trend_str (slope_val : R) : string :=
  if Rlt_dec SLOPE_THRESHOLD slope_val then "Bullish"
  else if Rlt_dec slope_val (- SLOPE_THRESHOLD) then "Bearish"
  else "Neutral".

(** The [if / elif / else] on the slope that sets [order_signal]. *)
Definition order_signal (slope_val : R) : option string :=
  if Rlt_dec SLOPE_THRESHOLD slope_val then Some "BUY"
  else if Rlt_dec slope_val (- SLOPE_THRESHOLD) then Some "SELL"
  else None.

(** The body of [for tick in ticks]. *)
Definition for_tick (s : state) (tick : tick) : state :=
  let tick_dt := fromtimestamp (time tick) in
  let latest_tick_time :=
    if (latest_tick_time s <? tick_dt)%Z
    then (tick_dt + timedelta_microseconds 1)%Z
    else latest_tick_time s in
  let price := last tick in
  let price := if Rle_dec price 0 then (bid tick + ask tick) / 2 else price in
  let tick_buffer := Deque.append TICK_BUFFER_SIZE (tick_buffer s) price in
  let '(variance_str, slope_str, trend_str) :=
    if (length tick_buffer <? TICK_BUFFER_SIZE)%nat then
      (Lit "N/A", Lit "N/A", Lit "N/A")
    else
      let prices_list := tick_buffer in
      let variance_val := Np.var prices_list in
      let slope_val :=
        Np.linregress_slope (Np.range TICK_BUFFER_SIZE) prices_list in
      (Fixed 6 variance_val, Fixed 6 slope_val, Lit (trend_str slope_val)) in
  let date_str := Strftime "%Y-%m-%d" tick_dt in
  let time_str := DropLast 3 (Strftime "%H:%M:%S.%f" tick_dt) in
  {| tick_buffer := tick_buffer;
     previous_slope := previous_slope s;
     latest_tick_time := latest_tick_time;
     files := append_tick_csv_row date_str time_str SYMBOL price
                variance_str slope_str trend_str (files s) |}.

(** Step 1 of the loop body: fetch, then feed every tick. *)
Definition fetch_and_update (mt5 : terminal) (s : state) : state :=
  match fetch_new_ticks mt5 SYMBOL (latest_tick_time s) with
  | Some (t :: ts) => fold_left for_tick (t :: ts) s
  | _ => s
  end.

Section WithSymbolInfo.

Variable symbol_info : SymbolInfo.

(** [effective_stop] of step 2. *)
Definition effective_stop (prices_list : list R) : R :=
  let std_val := Np.std prices_list in
  let default_stop_dist := STDEV_MULTIPLIER * std_val in
  py_max default_stop_dist (broker_min_stop_price symbol_info).

(** Step 2 of the loop body: the order attempt. *)
Definition attempt_order (mt5 : terminal) (order_num : Z) (s : state)
    : state * list effect * outcome :=
  if (length (tick_buffer s) =? TICK_BUFFER_SIZE)%nat then
    let prices_list := tick_buffer s in
    let effective_stop := effective_stop prices_list in
    let slope_val :=
      Np.linregress_slope (Np.range TICK_BUFFER_SIZE) prices_list in
    let current_price := last_item prices_list in
    match order_signal slope_val with
    | Some order_signal =>
        let '(es, result) :=
          place_market_order mt5 SYMBOL LOT_SIZE order_signal
            current_price effective_stop in
        let time_now := Strftime "%Y-%m-%d %H:%M:%S" (now mt5 0) in
        match result with
        | Some result =>
            if (retcode result =? TRADE_RETCODE_DONE)%Z then
              match profit result with
              | Some profit =>
                  ({| tick_buffer := tick_buffer s;
                      previous_slope := previous_slope s;
                      latest_tick_time := latest_tick_time s;
                      files :=
                        append_order_csv_row (order result) order_num time_now
                          SYMBOL order_signal LOT_SIZE current_price profit
                          (Cat (Lit "Slope=")
                             (Cat (Fixed 4 slope_val)
                                (Cat (Lit ", stop=") (Fixed 4 effective_stop))))
                          (files s) |},
                   es, Normal)
              | None => (s, es, Raised AttributeError)
              end
            else (s, es, Normal)
        | None => (s, es, Normal)
        end
    | None => (s, [], Normal)
    end
  else (s, [], Normal).

(** One pass through the body of [for order_num in range (1, ...)]. *)
Definition iteration (mt5 : terminal) (order_num : Z) (s : state)
    : state * list effect * outcome :=
  let s := fetch_and_update mt5 s in
  let '(s, es, o) := attempt_order mt5 order_num s in
  match o with
  | Normal => (s, es ++ [Sleep SLEEP_BETWEEN_ORDERS], Normal)
  | Raised e => (s, es, Raised e)
  end.

(** The [for] loop over the given order numbers; [mt5 n] answers during
    iteration [n].  An exception ends the loop. *)
Fixpoint loop (mt5 : nat -> terminal) (order_nums : list nat) (s : state)
    : state * list effect * outcome :=
  match order_nums with
  | [] => (s, [], Normal)
  | n :: rest =>
      let '(s, es, o) := iteration (mt5 n) (Z.of_nat n) s in
      match o with
      | Normal => let '(s, es', o) := loop mt5 rest s in (s, es ++ es', o)
      | Raised e => (s, es, Raised e)
      end
  end.

Definition main (mt5 : nat -> terminal) (s : state)
    : state * list effect * outcome :=
  loop mt5 (seq 1 LOOP_ITERATIONS) s.

End WithSymbolInfo.

End HFT_1.

(** ** HFT_2.py *)

Module HFT_2.

Definition SYMBOL : string := "BTCUSD".
Definition TICK_BUFFER_SIZE : nat := 30.
Definition TICKS_PER_CALL : nat := 200.
Definition LOOKBACK_MINUTES : Z := 2.
Definition LOOP_ITERATIONS : nat := 100.
Definition SLEEP_BETWEEN_ORDERS : Z := 30.
Definition SLOPE_THRESHOLD : R := 0.0001.
Definition LOT_SIZE : R := 0.01.
Definition VARIANCE_FLOOR : R := 30.0.
Definition RAW_TICK_CSV : string := "raw_tick_data.csv".
Definition TICK_CSV : string := "tick_data.csv".
Definition ORDER_CSV : string := "order_data.csv".

Record state := {
  tick_buffer : list R;
  latest_tick_time : datetime;
  previous_slope : R;
  files : fs
}.

Definition raw_tick_csv_header : row :=
  [Lit "date"; Lit "time"; Lit "symbol"; Lit "price"].

Definition tick_csv_header : row :=
  [Lit "date"; Lit "time"; Lit "symbol"; Lit "prices"; Lit "variance";
   Lit "slope"; Lit "trend"].

Definition order_csv_header : row :=
  [Lit "Ticket"; Lit "Order"; Lit "Time"; Lit "Symbol"; Lit "Type";
   Lit "Volume"; Lit "Price"; Lit "Profit"; Lit "Comment"].

Definition prepare_raw_tick_csv (d : fs) : fs :=
  if negb (path_exists RAW_TICK_CSV d)
  then open_w_writerow RAW_TICK_CSV raw_tick_csv_header d
  else d.

Definition append_raw_tick_csv_row
    (date_str time_str : text) (symbol : string) (price : R) (d : fs) : fs :=
  open_a_writerow RAW_TICK_CSV
    [date_str; time_str; Lit symbol; Fixed 5 price] d.

Definition prepare_tick_csv (d : fs) : fs :=
  if negb (path_exists TICK_CSV d)
  then open_w_writerow TICK_CSV tick_csv_header d
  else d.

Definition append_tick_csv_row
    (date_str time_str : text) (symbol : string) (prices_str : text)
    (variance slope trend : text) (d : fs) : fs :=
  open_a_writerow TICK_CSV
    [date_str; time_str; Lit symbol; prices_str; variance; slope; trend] d.

Definition prepare_order_csv (d : fs) : fs :=
  if negb (path_exists ORDER_CSV d)
  then open_w_writerow ORDER_CSV order_csv_header d
  else d.

Definition append_order_csv_row
    (ticket order_num : Z) (time_str : text) (symbol order_type : string)
    (volume price profit : R) (comment : text) (d : fs) : fs :=
  open_a_writerow ORDER_CSV
    [Int ticket; Int order_num; time_str; Lit symbol; Lit order_type;
     Float volume; Fixed 5 price; Fixed 2 profit; comment] d.

(** "Initialize CSVs": the three module-level calls. *)
Definition initialize_csvs (d : fs) : fs :=
  prepare_order_csv (prepare_tick_csv (prepare_raw_tick_csv d)).

Definition fetch_new_ticks (mt5 : terminal) (symbol : string)
    (from_time : datetime) : option (list tick) :=
  copy_ticks_from mt5 symbol from_time TICKS_PER_CALL.

(** [effective_variance] of [place_market_order]. *)
Definition effective_variance (variance : R) : R :=
  if Rge_dec variance VARIANCE_FLOOR then variance else VARIANCE_FLOOR.

(** The [request] dict of [place_market_order]. *)
Definition request (symbol : string) (volume : R) (order_type : string)
    (price variance : R) : order_request :=
  let effective_variance := effective_variance variance in
  if String.eqb order_type "BUY" then
    let tp := price + effective_variance in
    let sl := price - effective_variance in
    {| action := TRADE_ACTION_DEAL; symbol := symbol; volume := volume;
       type := ORDER_TYPE_BUY; price := price; sl := sl; tp := tp;
       deviation := 20; type_time := ORDER_TIME_GTC;
       type_filling := ORDER_FILLING_IOC;
       comment := Cat (Lit "Slope-based Buy (var=")
                      (Cat (Fixed 2 effective_variance) (Lit ")")) |}
  else
    let tp := price - effective_variance in
    let sl := price + effective_variance in
    {| action := TRADE_ACTION_DEAL; symbol := symbol; volume := volume;
       type := ORDER_TYPE_SELL; price := price; sl := sl; tp := tp;
       deviation := 20; type_time := ORDER_TIME_GTC;
       type_filling := ORDER_FILLING_IOC;
       comment := Cat (Lit "Slope-based Sell (var=")
                      (Cat (Fixed 2 effective_variance) (Lit ")")) |}.

Definition place_market_order (mt5 : terminal) (symbol : string) (volume : R)
    (order_type : string) (price variance : R)
    : list effect * option order_result :=
  let request := request symbol volume order_type price variance in
  let result := order_send mt5 request in
  ([OrderSend request], result).

(** The [if / elif / else] on the slope that sets [trend_decision]. *)
Definition trend_decision (slope_val : R) : string :=
  if Rlt_dec SLOPE_THRESHOLD slope_val then "Bullish"
  else if Rlt_dec slope_val (- SLOPE_THRESHOLD) then "Bearish"
  else "Neutral".

(** The [if / elif / else] on [trend_decision] that sets [order_signal]. *)
Definition order_signal (trend_decision : string) : option string :=
  if String.eqb trend_decision "Bullish" then Some "BUY"
  else if String.eqb trend_decision "Bearish" then Some "SELL"
  else None.

(** The body of [for tick in ticks]. *)
Definition for_tick (s : state) (tick : tick) : state :=
  let tick_dt := fromtimestamp (time tick) in
  let latest_tick_time :=
    if (latest_tick_time s <? tick_dt)%Z
    then (tick_dt + timedelta_microseconds 1)%Z
    else latest_tick_time s in
  let price := last tick in
  let price := if Rle_dec price 0 then (bid tick + ask tick) / 2 else price in
  let date_str := Strftime "%Y-%m-%d" tick_dt in
  let time_str := DropLast 3 (Strftime "%H:%M:%S.%f" tick_dt) in
  {| tick_buffer := Deque.append TICK_BUFFER_SIZE (tick_buffer s) price;
     latest_tick_time := latest_tick_time;
     previous_slope := previous_slope s;
     files := append_raw_tick_csv_row date_str time_str SYMBOL price (files s) |}.

(** Step 1 of the loop body: fetch, then feed every tick. *)
Definition fetch_and_update (mt5 : terminal) (s : state) : state :=
  match fetch_new_ticks mt5 SYMBOL (latest_tick_time s) with
  | Some (t :: ts) => fold_left for_tick (t :: ts) s
  | _ => s
  end.

(** Steps 2 and 3 of the loop body: indicators, aggregated row, order. *)
Definition attempt_order (mt5 : terminal) (order_num : Z) (s : state)
    : state * list effect :=
  if (length (tick_buffer s) =? TICK_BUFFER_SIZE)%nat then
    let prices_list := tick_buffer s in
    let variance_val := Np.var prices_list in
    let slope_val :=
      Np.linregress_slope (Np.range TICK_BUFFER_SIZE) prices_list in
    let trend_decision := trend_decision slope_val in
    let prices_str := join ";" (map (Fixed 5) prices_list) in
    let agg_time := now mt5 0 in
    let date_str := Strftime "%Y-%m-%d" agg_time in
    let time_str := Strftime "%H:%M:%S" agg_time in
    let files1 :=
      append_tick_csv_row date_str time_str SYMBOL prices_str
        (Fixed 6 variance_val) (Fixed 6 slope_val) (Lit trend_decision)
        (files s) in
    let order_signal := order_signal trend_decision in
    let previous_slope := slope_val in
    let s1 := {| tick_buffer := tick_buffer s;
                 latest_tick_time := latest_tick_time s;
                 previous_slope := previous_slope;
                 files := files1 |} in
    match order_signal with
    | Some order_signal =>
        let current_price := last_item prices_list in
        let '(es, result) :=
          place_market_order mt5 SYMBOL LOT_SIZE order_signal
            current_price variance_val in
        let time_now := Strftime "%Y-%m-%d %H:%M:%S" (now mt5 1) in
        match result with
        | None => (s1, es)
        | Some result =>
            if (retcode result =? TRADE_RETCODE_DONE)%Z then
              let profit_attr := default 0.0 (profit result) in
              ({| tick_buffer := tick_buffer s;
                  latest_tick_time := latest_tick_time s;
                  previous_slope := previous_slope;
                  files :=
                    append_order_csv_row (order result) order_num time_now
                      SYMBOL order_signal LOT_SIZE current_price profit_attr
                      (Cat (Lit "Signal=")
                         (Cat (Lit order_signal)
                            (Cat (Lit ", Slope=")
                               (Cat (Fixed 4 slope_val)
                                  (Cat (Lit ", VarUsed=")
                                     (Fixed 4
                                        (py_max variance_val VARIANCE_FLOOR)))))))
                      files1 |},
               es)
            else (s1, es)
        end
    | None => (s1, [])
    end
  else (s, []).

(** One pass through the body of [for order_num in range (1, ...)]. *)
Definition iteration (mt5 : terminal) (order_num : Z) (s : state)
    : state * list effect :=
  let s := fetch_and_update mt5 s in
  let '(s, es) := attempt_order mt5 order_num s in
  (s, es ++ [Sleep SLEEP_BETWEEN_ORDERS]).

(** The [for] loop over the given order numbers; [mt5 n] answers during
    iteration [n]. *)
Fixpoint loop (mt5 : nat -> terminal) (order_nums : list nat) (s : state)
    : state * list effect :=
  match order_nums with
  | [] => (s, [])
  | n :: rest =>
      let '(s, es) := iteration (mt5 n) (Z.of_nat n) s in
      let '(s, es') := loop mt5 rest s in
      (s, es ++ es')
  end.

Definition main (mt5 : nat -> terminal) (s : state) : state * list effect :=
  loop mt5 (seq 1 LOOP_ITERATIONS) s.

End HFT_2.

(** ** remove30_use_RawCalculatedVar.py *)

Module remove30_use_RawCalculatedVar.

Definition SYMBOL : string := "XAUUSD.sml".
Definition TICK_BUFFER_SIZE : nat := 500.
Definition TICKS_PER_CALL : nat := 200.
Definition LOOKBACK_MINUTES : Z := 2.
Definition LOOP_ITERATIONS : nat := 100.
Definition SLEEP_BETWEEN_ORDERS : Z := 30.
Definition SLOPE_THRESHOLD : R := 0.0001.
Definition LOT_SIZE : R := 0.01.
Definition RAW_TICK_CSV : string := "raw_tick_data.csv".
Definition TICK_CSV : string := "tick_data.csv".
Definition ORDER_CSV : string := "order_data.csv".

(** The global [tick_buffer], the local [latest_tick_time] of [main], and
    the directory.  This script keeps no previous slope. *)
Record state := {
  tick_buffer : list R;
  latest_tick_time : datetime;
  files : fs
}.

Definition raw_tick_csv_header : row :=
  [Lit "date"; Lit "time"; Lit "symbol"; Lit "price"].

Definition tick_csv_header : row :=
  [Lit "date"; Lit "time"; Lit "symbol"; Lit "prices"; Lit "variance";
   Lit "slope"; Lit "trend"].

Definition order_csv_header : row :=
  [Lit "Ticket"; Lit "Order"; Lit "Time"; Lit "Symbol"; Lit "Type";
   Lit "Volume"; Lit "Price"; Lit "Profit"; Lit "Comment"].

Definition prepare_raw_tick_csv (d : fs) : fs :=
  if negb (path_exists RAW_TICK_CSV d)
  then open_w_writerow RAW_TICK_CSV raw_tick_csv_header d
  else d.

Definition append_raw_tick_csv_row
    (date_str time_str : text) (symbol : string) (price : R) (d : fs) : fs :=
  open_a_writerow RAW_TICK_CSV
    [date_str; time_str; Lit symbol; Fixed 5 price] d.

Definition prepare_tick_csv (d : fs) : fs :=
  if negb (path_exists TICK_CSV d)
  then open_w_writerow TICK_CSV tick_csv_header d
  else d.

Definition prepare_order_csv (d : fs) : fs :=
  if negb (path_exists ORDER_CSV d)
  then open_w_writerow ORDER_CSV order_csv_header d
  else d.

(** "Initialize CSVs": the three module-level calls. *)
Definition initialize_csvs (d : fs) : fs :=
  prepare_order_csv (prepare_tick_csv (prepare_raw_tick_csv d)).

Definition fetch_new_ticks (mt5 : terminal) (symbol : string)
    (from_time : datetime) : option (list tick) :=
  copy_ticks_from mt5 symbol from_time TICKS_PER_CALL.

(** The [request] dict of [place_market_order]. *)
Definition request (symbol : string) (volume : R) (order_type : string)
    (price variance : R) : order_request :=
  if String.eqb order_type "BUY" then
    let tp := price + variance in
    let sl := price - variance in
    {| action := TRADE_ACTION_DEAL; symbol := symbol; volume := volume;
       type := ORDER_TYPE_BUY; price := price; sl := sl; tp := tp;
       deviation := 20; type_time := ORDER_TIME_GTC;
       type_filling := ORDER_FILLING_FOK;
       comment := Cat (Lit "Slope-based Buy (var=")
                      (Cat (Fixed 2 variance) (Lit ")")) |}
  else
    let tp := price - variance in
    let sl := price + variance in
    {| action := TRADE_ACTION_DEAL; symbol := symbol; volume := volume;
       type := ORDER_TYPE_SELL; price := price; sl := sl; tp := tp;
       deviation := 20; type_time := ORDER_TIME_GTC;
       type_filling := ORDER_FILLING_FOK;
       comment := Cat (Lit "Slope-based Sell (var=")
                      (Cat (Fixed 2 variance) (Lit ")")) |}.

Definition place_market_order (mt5 : terminal) (symbol : string) (volume : R)
    (order_type : string) (price variance : R)
    : list effect * option order_result :=
  let request := request symbol volume order_type price variance in
  let result := order_send mt5 request in
  ([OrderSend request], result).

(** The [if / elif / else] on the slope that sets [trend_str] and
    [order_signal] together. *)
Definition decide_trend (slope_val : R) : string * option string :=
  if Rlt_dec SLOPE_THRESHOLD slope_val then ("Bullish", Some "BUY")
  else if Rlt_dec slope_val (- SLOPE_THRESHOLD) then ("Bearish", Some "SELL")
  else ("Neutral", None).

(** The body of [for tick in ticks]. *)
Definition for_tick (s : state) (tick : tick) : state :=
  let tick_dt := fromtimestamp (time tick) in
  let latest_tick_time :=
    if (latest_tick_time s <? tick_dt)%Z
    then (tick_dt + timedelta_microseconds 1)%Z
    else latest_tick_time s in
  let price := last tick in
  let price := if Rle_dec price 0 then (bid tick + ask tick) / 2 else price in
  let date_str := Strftime "%Y-%m-%d" tick_dt in
  let time_str := DropLast 3 (Strftime "%H:%M:%S.%f" tick_dt) in
  {| tick_buffer := Deque.append TICK_BUFFER_SIZE (tick_buffer s) price;
     latest_tick_time := latest_tick_time;
     files := append_raw_tick_csv_row date_str time_str SYMBOL price (files s) |}.

(** Step 1 of the loop body: fetch, then feed every tick. *)
Definition fetch_and_update (mt5 : terminal) (s : state) : state :=
  match fetch_new_ticks mt5 SYMBOL (latest_tick_time s) with
  | Some (t :: ts) => fold_left for_tick (t :: ts) s
  | _ => s
  end.

(** Step 2 of the loop body: indicators, aggregated row, order. *)
Definition attempt_order (mt5 : terminal) (order_num : Z) (s : state)
    : state * list effect :=
  if (length (tick_buffer s) =? TICK_BUFFER_SIZE)%nat then
    let prices_list := tick_buffer s in
    let variance_val := Np.var prices_list in
    let x := Np.range TICK_BUFFER_SIZE in
    let slope_val := Np.linregress_slope x prices_list in
    let '(trend_str, order_signal) := decide_trend slope_val in
    let date_agg := Strftime "%Y-%m-%d" (now mt5 0) in
    let time_agg := Strftime "%H:%M:%S" (now mt5 1) in
    let prices_str := join ";" (map (Fixed 5) prices_list) in
    let files1 :=
      open_a_writerow TICK_CSV
        [date_agg; time_agg; Lit SYMBOL; prices_str; Fixed 6 variance_val;
         Fixed 6 slope_val; Lit trend_str] (files s) in
    let s1 := {| tick_buffer := tick_buffer s;
                 latest_tick_time := latest_tick_time s;
                 files := files1 |} in
    match order_signal with
    | Some order_signal =>
        let current_price := last_item prices_list in
        let '(es, result) :=
          place_market_order mt5 SYMBOL LOT_SIZE order_signal
            current_price variance_val in
        let time_now := Strftime "%Y-%m-%d %H:%M:%S" (now mt5 2) in
        match result with
        | None => (s1, es)
        | Some result =>
            if (retcode result =? TRADE_RETCODE_DONE)%Z then
              let profit_attr := default 0.0 (profit result) in
              ({| tick_buffer := tick_buffer s;
                  latest_tick_time := latest_tick_time s;
                  files :=
                    open_a_writerow ORDER_CSV
                      [Int (order result); Int order_num; time_now; Lit SYMBOL;
                       Lit order_signal; Float LOT_SIZE; Fixed 5 current_price;
                       Fixed 2 profit_attr;
                       Cat (Lit "Signal=")
                         (Cat (Lit order_signal)
                            (Cat (Lit ", Slope=")
                               (Cat (Fixed 4 slope_val)
                                  (Cat (Lit ", Var=") (Fixed 4 variance_val)))))]
                      files1 |},
               es)
            else (s1, es)
        end
    | None => (s1, [])
    end
  else (s, []).

(** One pass through the body of [for order_num in range (1, ...)]. *)
Definition iteration (mt5 : terminal) (order_num : Z) (s : state)
    : state * list effect :=
  let s := fetch_and_update mt5 s in
  let '(s, es) := attempt_order mt5 order_num s in
  (s, es ++ [Sleep SLEEP_BETWEEN_ORDERS]).

Fixpoint loop (mt5 : nat -> terminal) (order_nums : list nat) (s : state)
    : state * list effect :=
  match order_nums with
  | [] => (s, [])
  | n :: rest =>
      let '(s, es) := iteration (mt5 n) (Z.of_nat n) s in
      let '(s, es') := loop mt5 rest s in
      (s, es ++ es')
  end.

Definition main (mt5 : nat -> terminal) (s : state) : state * list effect :=
  loop mt5 (seq 1 LOOP_ITERATIONS) s.

End remove30_use_RawCalculatedVar.

(** ** Notions used to state the properties *)

(** The price a tick contributes: [last], or the mid price when [last] is
    not positive (the two [price = ...] lines of every [for tick] body). *)
Definition tick_price (t : tick) : R :=
  if Rle_dec (last t) 0 then (bid t + ask t) / 2 else last t.

(** What the decision logic of [HFT_1.py] can see of a state: everything
    but [previous_slope]. *)
Definition observe_1 (s : HFT_1.state) : list R * datetime * fs :=
  (HFT_1.tick_buffer s, HFT_1.latest_tick_time s, HFT_1.files s).

(** The same for [HFT_2.py]. *)
Definition observe_2 (s : HFT_2.state) : list R * datetime * fs :=
  (HFT_2.tick_buffer s, HFT_2.latest_tick_time s, HFT_2.files s).

(** A file only grew: what was there is a prefix of what is there now. *)
Definition grew (d d' : fs) : Prop :=
  forall (file : string) (rows : list row),
    d !! file = Some rows -> exists more, d' !! file = Some (rows ++ more)%list.

(** A file is untouched or unchanged in content. *)
Definition kept (d d' : fs) : Prop :=
  forall (file : string) (rows : list row),
    d !! file = Some rows -> d' !! file = Some rows.

(** A request of the given side, entry price, take-profit and stop-loss. *)
Definition has_levels (r : order_request) (side : ORDER_TYPE)
    (entry take_profit stop_loss : R) : Prop :=
  type r = side /\ price r = entry /\ tp r = take_profit /\ sl r = stop_loss.

(** The effects are one order submission, with the given levels. *)
Definition submits (es : list effect) (side : ORDER_TYPE)
    (entry take_profit stop_loss : R) : Prop :=
  exists r, es = [OrderSend r] /\ has_levels r side entry take_profit stop_loss.

(** A terminal that reports no tick, accepts every order, and whose clock
    stands still; used in the examples. *)
Definition quiet_terminal : terminal :=
  {| copy_ticks_from := fun _ _ _ => Some [];
     order_send := fun _ =>
       Some {| retcode := TRADE_RETCODE_DONE; order := 1; deal := 1;
               profit := Some 0; result_comment := "Request executed" |};
     now := fun _ => 0%Z |}.

(** A window of [n] prices rising by [step] from [start]. *)
Definition rising (n : nat) (start step : R) : list R :=
  map (fun x => step * x + start) (Np.range n).

(** Example states: a full window rising by 1 from 100, nothing else
    happened yet but the start-up of the script. *)
Definition rising_state_1 : HFT_1.state :=
  {| HFT_1.tick_buffer := rising HFT_1.TICK_BUFFER_SIZE 100 1;
     HFT_1.previous_slope := 0.0;
     HFT_1.latest_tick_time := 0;
     HFT_1.files := HFT_1.initialize_csvs ∅ |}.

Definition rising_state_2 : HFT_2.state :=
  {| HFT_2.tick_buffer := rising HFT_2.TICK_BUFFER_SIZE 100 1;
     HFT_2.latest_tick_time := 0;
     HFT_2.previous_slope := 0.0;
     HFT_2.files := HFT_2.initialize_csvs ∅ |}.

Definition rising_state_3 : remove30_use_RawCalculatedVar.state :=
  {| remove30_use_RawCalculatedVar.tick_buffer :=
       rising remove30_use_RawCalculatedVar.TICK_BUFFER_SIZE 100 1;
     remove30_use_RawCalculatedVar.latest_tick_time := 0;
     remove30_use_RawCalculatedVar.files :=
       remove30_use_RawCalculatedVar.initialize_csvs ∅ |}.

(** Example states: a full window of the one price 50. *)
Definition flat_state_2 : HFT_2.state :=
  {| HFT_2.tick_buffer := repeat 50 HFT_2.TICK_BUFFER_SIZE;
     HFT_2.latest_tick_time := 0;
     HFT_2.previous_slope := 0.0;
     HFT_2.files := HFT_2.initialize_csvs ∅ |}.

(** A broker that reports no minimum stop distance. *)
Definition no_stops_level : SymbolInfo :=
  {| trade_stops_level := 0; point := 0.01 |}.

(** [ticks is not None and len (ticks) > 0] fails. *)
Definition zero_ticks (ticks : option (list tick)) : Prop :=
  ticks = None \/ ticks = Some [].

(** The rising states again, with another value left in [previous_slope]. *)
Definition stale_state_1 : HFT_1.state :=
  {| HFT_1.tick_buffer := rising HFT_1.TICK_BUFFER_SIZE 100 1;
     HFT_1.previous_slope := 7;
     HFT_1.latest_tick_time := 0;
     HFT_1.files := HFT_1.initialize_csvs ∅ |}.

Definition stale_state_2 : HFT_2.state :=
  {| HFT_2.tick_buffer := rising HFT_2.TICK_BUFFER_SIZE 100 1;
     HFT_2.latest_tick_time := 0;
     HFT_2.previous_slope := 7;
     HFT_2.files := HFT_2.initialize_csvs ∅ |}.

(** A directory left by an earlier run of HFT_1: tick_data.csv with its
    header and one tick row. *)
Definition old_tick_log : fs :=
  {[ "tick_data.csv"%string :=
       [HFT_1.tick_csv_header;
        [Lit "2025-01-01"; Lit "00:00:00.000"; Lit "BTCUSD"; Fixed 5 100;
         Lit "N/A"; Lit "N/A"; Lit "N/A"]] ]}.

(** Two states equal in all but [previous_slope]: split them and identify
    the equal parts. *)
Ltac same_but_slope_1 H :=
  match type of H with
  | observe_1 ?a = observe_1 ?b =>
      destruct a as [? ? ? ?], b as [? ? ? ?];
      unfold observe_1 in H; cbn [HFT_1.tick_buffer HFT_1.latest_tick_time
                                   HFT_1.files] in H;
      injection H as -> -> ->
  end.

Ltac same_but_slope_2 H :=
  match type of H with
  | observe_2 ?a = observe_2 ?b =>
      destruct a as [? ? ? ?], b as [? ? ? ?];
      unfold observe_2 in H; cbn [HFT_2.tick_buffer HFT_2.latest_tick_time
                                   HFT_2.files] in H;
      injection H as -> -> ->
  end.

(** ** The scripts from top to bottom *)

(** The terminal's answers while a script starts.  [mt5.terminal_info] only
    decides whether a warning is logged and is left out. *)
Record boot := {
  initialize : bool;                          (* mt5.initialize () *)
  symbol_select : string -> bool;             (* mt5.symbol_select (s, True) *)
  symbol_info : string -> option SymbolInfo;  (* mt5.symbol_info (s) *)
  started_at : datetime                       (* datetime.datetime.now () *)
}.

(** How a script ends: [quit ()], the end of [main], or an exception that
    nothing catches. *)
Inductive ending := SystemExit | Completed | Uncaught (e : exn).

(** What a run leaves: the directory, the effects of the loop, the number
    of calls of [mt5.shutdown ()], and the ending. *)
Record run := {
  run_files : fs;
  run_effects : list effect;
  run_shutdowns : nat;
  run_ending : ending
}.

(** [datetime.timedelta (minutes=n)], in microseconds. *)
Definition timedelta_minutes (n : Z) : Z := (n * 60000000)%Z.

(** The globals as the scripts set them before the loop: empty buffer,
    previous slope 0.0, high-water mark [start_time]. *)
Definition initial_1 (start_time : datetime) (d : fs) : HFT_1.state :=
  {| HFT_1.tick_buffer := [];
     HFT_1.previous_slope := 0.0;
     HFT_1.latest_tick_time := start_time;
     HFT_1.files := d |}.

Definition initial_2 (start_time : datetime) (d : fs) : HFT_2.state :=
  {| HFT_2.tick_buffer := [];
     HFT_2.latest_tick_time := start_time;
     HFT_2.previous_slope := 0.0;
     HFT_2.files := d |}.

Definition initial_3 (start_time : datetime) (d : fs)
    : remove30_use_RawCalculatedVar.state :=
  {| remove30_use_RawCalculatedVar.tick_buffer := [];
     remove30_use_RawCalculatedVar.latest_tick_time := start_time;
     remove30_use_RawCalculatedVar.files := d |}.

(** HFT_1.py, executed as a script in directory [d]: globals, CSV
    preparation, the three start-up tests, then [main] under
    [try / finally]. *)
Definition run_HFT_1 (b : boot) (mt5 : nat -> terminal) (d : fs) : run :=
  let start_time :=
    (started_at b - timedelta_minutes HFT_1.LOOKBACK_MINUTES)%Z in
  let d := HFT_1.initialize_csvs d in
  if negb (initialize b) then
    {| run_files := d; run_effects := []; run_shutdowns := 0;
       run_ending := SystemExit |}
  else if negb (symbol_select b HFT_1.SYMBOL) then
    {| run_files := d; run_effects := []; run_shutdowns := 1;
       run_ending := SystemExit |}
  else
    match symbol_info b HFT_1.SYMBOL with
    | None =>
        {| run_files := d; run_effects := []; run_shutdowns := 1;
           run_ending := SystemExit |}
    | Some symbol_info =>
        let '(s, es, o) :=
          HFT_1.main symbol_info mt5 (initial_1 start_time d) in
        {| run_files := HFT_1.files s; run_effects := es; run_shutdowns := 1;
           run_ending := match o with
                         | Normal => Completed
                         | Raised e => Uncaught e
                         end |}
    end.

(** HFT_2.py, executed as a script in directory [d]. *)
Definition run_HFT_2 (b : boot) (mt5 : nat -> terminal) (d : fs) : run :=
  let d := HFT_2.initialize_csvs d in
  if negb (initialize b) then
    {| run_files := d; run_effects := []; run_shutdowns := 0;
       run_ending := SystemExit |}
  else if negb (symbol_select b HFT_2.SYMBOL) then
    {| run_files := d; run_effects := []; run_shutdowns := 1;
       run_ending := SystemExit |}
  else
    let start_time :=
      (started_at b - timedelta_minutes HFT_2.LOOKBACK_MINUTES)%Z in
    let '(s, es) :=
      HFT_2.main mt5 (initial_2 start_time d) in
    {| run_files := HFT_2.files s; run_effects := es; run_shutdowns := 1;
       run_ending := Completed |}.

(** remove30_use_RawCalculatedVar.py, executed as a script in directory
    [d]; the start time is taken inside [main]. *)
Definition run_remove30 (b : boot) (mt5 : nat -> terminal) (d : fs) : run :=
  let d := remove30_use_RawCalculatedVar.initialize_csvs d in
  if negb (initialize b) then
    {| run_files := d; run_effects := []; run_shutdowns := 0;
       run_ending := SystemExit |}
  else if negb (symbol_select b remove30_use_RawCalculatedVar.SYMBOL) then
    {| run_files := d; run_effects := []; run_shutdowns := 1;
       run_ending := SystemExit |}
  else
    let latest_tick_time :=
      (started_at b
       - timedelta_minutes remove30_use_RawCalculatedVar.LOOKBACK_MINUTES)%Z in
    let '(s, es) :=
      remove30_use_RawCalculatedVar.main mt5
        (initial_3 latest_tick_time d) in
    {| run_files := remove30_use_RawCalculatedVar.files s;
       run_effects := es; run_shutdowns := 1; run_ending := Completed |}.

(** ** More notions used to state the properties *)

(** The rows of a file, none if it is absent. *)
Definition rows (d : fs) (file : string) : list row := default [] (d !! file).

(** The pauses an effect list makes. *)
Definition sleeps (es : list effect) : list Z :=
  omap (fun e => match e with Sleep secs => Some secs | OrderSend _ => None end)
    es.

(** The ticks a fetch hands to the [for] loop: none when the terminal
    answers [None]. *)
Definition fetched (ticks : option (list tick)) : list tick :=
  default [] ticks.

(** The high-water mark after one tick (the [if tick_dt > latest_tick_time]
    of every [for tick] body). *)
Definition advance (latest_tick_time : datetime) (t : tick) : datetime :=
  if (latest_tick_time <? fromtimestamp (time t))%Z
  then (fromtimestamp (time t) + timedelta_microseconds 1)%Z
  else latest_tick_time.

(** How the high-water mark [l'] after feeding [ticks] relates to the mark
    [l] before: it never moves back, no fed tick is later than it, it is
    the old mark or one microsecond past a fed tick, it stays when no fed
    tick is later than the old mark, and, when the old mark is not on a whole
    second, neither is the new one and every fed tick is strictly earlier. *)
Definition mark_advanced (l : datetime) (ticks : list tick) (l' : datetime)
    : Prop :=
  (l <= l')%Z
  /\ (forall t, In t ticks -> (fromtimestamp (time t) <= l')%Z)
  /\ (l' = l
      \/ exists t, In t ticks /\ l' = (fromtimestamp (time t) + 1)%Z)
  /\ ((forall t, In t ticks -> (fromtimestamp (time t) <= l)%Z) -> l' = l)
  /\ ((l mod 1000000 <> 0)%Z ->
      (l' mod 1000000 <> 0)%Z
      /\ forall t, In t ticks -> (fromtimestamp (time t) < l')%Z).

(** The row [append_raw_tick_csv_row] writes for a tick. *)
Definition raw_tick_row (symbol : string) (t : tick) : row :=
  [Strftime "%Y-%m-%d" (fromtimestamp (time t));
   DropLast 3 (Strftime "%H:%M:%S.%f" (fromtimestamp (time t)));
   Lit symbol; Fixed 5 (tick_price t)].

(** The three cells for the statistics in a row of HFT_1's tick_data.csv
    before the window is full. *)
Definition not_available : row := [Lit "N/A"; Lit "N/A"; Lit "N/A"].

(** The window after the first [i + 1] of the given ticks were pushed. *)
Definition window_after (N : nat) (d : list R) (ticks : list tick) (i : nat)
    : list R :=
  Deque.extend N d (map tick_price (take (S i) ticks)).

(** A market order as the scripts send it: the fixed fields, and a side
    that agrees with the slope. *)
Definition slope_order (r : order_request) (sym : string) (lot : R)
    (filling : ORDER_FILLING) (threshold slope : R) : Prop :=
  action r = TRADE_ACTION_DEAL /\ symbol r = sym /\ volume r = lot
  /\ deviation r = 20%Z /\ type_time r = ORDER_TIME_GTC
  /\ type_filling r = filling
  /\ (type r = ORDER_TYPE_BUY /\ threshold < slope
      \/ type r = ORDER_TYPE_SELL /\ slope < - threshold).


(** The name of a side in the order log. *)
Definition side_name (side : ORDER_TYPE) : string :=
  match side with ORDER_TYPE_BUY => "BUY" | ORDER_TYPE_SELL => "SELL" end.

(** A terminal never hands out more ticks than the count it is asked
    for. *)
Definition respects_count (mt5 : terminal) : Prop :=
  forall (sym : string) (from : datetime) (count : nat),
    (length (fetched (copy_ticks_from mt5 sym from count)) <= count)%nat.

(** A terminal that hands out the given ticks, whatever the time asked
    from, and otherwise behaves as [quiet_terminal]. *)
Definition feeding_terminal (ticks : list tick) : terminal :=
  {| copy_ticks_from := fun _ _ _ => Some ticks;
     order_send := order_send quiet_terminal;
     now := now quiet_terminal |}.

(** A terminal that executes every order but whose result carries no
    [profit] attribute. *)
Definition profitless_terminal : terminal :=
  {| copy_ticks_from := fun _ _ _ => Some [];
     order_send := fun _ =>
       Some {| retcode := TRADE_RETCODE_DONE; order := 1; deal := 1;
               profit := None; result_comment := "Request executed" |};
     now := fun _ => 0%Z |}.

(** A terminal that rejects every order. *)
Definition rejecting_terminal : terminal :=
  {| copy_ticks_from := fun _ _ _ => Some [];
     order_send := fun _ =>
       Some {| retcode := 10006; order := 0; deal := 0;
               profit := None; result_comment := "Request rejected" |};
     now := fun _ => 0%Z |}.

(** Two ticks, one second apart, the second without a last price. *)
Definition two_ticks : list tick :=
  [ {| time := 1700000000; last := 100; bid := 99; ask := 101 |};
    {| time := 1700000001; last := 0; bid := 101; ask := 103 |} ].

(** A start-up in which everything succeeds. *)
Definition good_boot : boot :=
  {| initialize := true;
     symbol_select := fun _ => true;
     symbol_info := fun _ => Some no_stops_level;
     started_at := 1700000000000000 |}.

(** A start-up in which the terminal cannot be reached. *)
Definition dead_boot : boot :=
  {| initialize := false;
     symbol_select := fun _ => false;
     symbol_info := fun _ => None;
     started_at := 1700000000000000 |}.

(** * Properties *)

(** ** The price window *)

Section DequeFacts.

Variable n : nat.
Lemma append_spec (d : list R) (x : R) :
  (length d <= n)%nat ->
  Deque.append n d x = drop (length (d ++ [x]) - n) (d ++ [x]).
Proof.
  intros Hd. unfold Deque.append. cbv zeta.
  rewrite length_app. simpl length.
  destruct (Nat.ltb_spec n (length d + 1)) as [Hlt | Hge].
  - replace (length d + 1 - n)%nat with 1%nat by lia.
    destruct (d ++ [x])%list; reflexivity.
  - replace (length d + 1 - n)%nat with 0%nat by lia. reflexivity.
Qed.

Lemma append_length (d : list R) (x : R) :
  (length d <= n)%nat -> (length (Deque.append n d x) <= n)%nat.
Proof.
  intros Hd. rewrite append_spec by exact Hd.
  rewrite length_drop, length_app. simpl. lia.
Qed.

Lemma extend_spec (xs : list R) :
  forall d : list R, (length d <= n)%nat ->
  Deque.extend n d xs = drop (length (d ++ xs) - n) (d ++ xs).
Proof.
  induction xs as [| x xs IH]; intros d Hd.
  - unfold Deque.extend. simpl. rewrite app_nil_r.
    replace (length d - n)%nat with 0%nat by lia. reflexivity.
  - change (Deque.extend n d (x :: xs))
      with (Deque.extend n (Deque.append n d x) xs).
    rewrite IH by (apply append_length; exact Hd).
    rewrite append_spec by exact Hd.
    rewrite !length_app, length_drop, length_app. simpl length.
    set (k := (length d + 1 - n)%nat).
    assert (Hk : (k <= length (d ++ [x]))%nat)
      by (rewrite length_app; simpl; lia).
    rewrite <- (drop_app_le (d ++ [x]) xs k) by exact Hk.
    rewrite drop_drop. rewrite <- app_assoc. simpl.
    f_equal. lia.
Qed.
End DequeFacts.

(** ** Sums, means, variance and slope *)

Lemma sum_cons (x : R) (l : list R) : Np.sum (x :: l) = x + Np.sum l.
Proof. reflexivity. Qed.

Lemma sum_map_zero {A : Type} (f : A -> R) (l : list A) :
  (forall a, In a l -> f a = 0) -> Np.sum (map f l) = 0.
Proof.
  induction l as [| a l IH]; intros H; simpl.
  - reflexivity.
  - rewrite (H a) by (left; reflexivity).
    rewrite IH by (intros b Hb; apply H; right; exact Hb). lra.
Qed.

Lemma mean_map_zero {A : Type} (f : A -> R) (l : list A) :
  (forall a, In a l -> f a = 0) -> Np.mean (map f l) = 0.
Proof.
  intros H. unfold Np.mean. rewrite sum_map_zero by exact H.
  unfold Rdiv. apply Rmult_0_l.
Qed.

Lemma sum_repeat (p : R) (n : nat) : Np.sum (repeat p n) = INR n * p.
Proof.
  induction n as [| n IH].
  - simpl. lra.
  - cbn [repeat]. rewrite sum_cons, IH, S_INR. lra.
Qed.

Lemma mean_repeat (p : R) (n : nat) : n <> 0%nat -> Np.mean (repeat p n) = p.
Proof.
  intros Hn. unfold Np.mean. rewrite sum_repeat, repeat_length.
  field. apply not_0_INR. exact Hn.
Qed.

Lemma cov_repeat_r (xs : list R) (p : R) (n : nat) :
  Np.cov xs (repeat p n) = 0.
Proof.
  unfold Np.cov. apply mean_map_zero. intros [x y] Hxy. simpl.
  apply in_combine_r in Hxy.
  pose proof (repeat_spec _ _ _ Hxy) as ->.
  destruct n as [| n]; [destruct Hxy |].
  rewrite mean_repeat by discriminate. lra.
Qed.

Lemma slope_repeat (xs : list R) (p : R) (n : nat) :
  Np.linregress_slope xs (repeat p n) = 0.
Proof.
  unfold Np.linregress_slope. rewrite cov_repeat_r.
  unfold Rdiv. apply Rmult_0_l.
Qed.

Lemma sum_map_scal {A : Type} (c : R) (f : A -> R) (l : list A) :
  Np.sum (map (fun a => c * f a) l) = c * Np.sum (map f l).
Proof.
  induction l as [| a l IH]; cbn [map].
  - unfold Np.sum; simpl; lra.
  - rewrite !sum_cons, IH. lra.
Qed.

Lemma sum_map_affine (a b : R) (l : list R) :
  Np.sum (map (fun x => a * x + b) l) = a * Np.sum l + INR (length l) * b.
Proof.
  induction l as [| x l IH].
  - simpl. lra.
  - cbn [map length]. rewrite S_INR, !sum_cons, IH. lra.
Qed.

Lemma mean_map_affine (a b : R) (l : list R) :
  l <> [] -> Np.mean (map (fun x => a * x + b) l) = a * Np.mean l + b.
Proof.
  intros Hl. unfold Np.mean. rewrite sum_map_affine, length_map.
  field. apply not_0_INR. destruct l; [congruence | discriminate].
Qed.

Lemma combine_map_r {A B : Type} (f : A -> B) (l : list A) :
  combine l (map f l) = map (fun x => (x, f x)) l.
Proof. induction l as [| x l IH]; simpl; [| rewrite IH]; reflexivity. Qed.

Lemma combine_diag {A : Type} (l : list A) :
  combine l l = map (fun x => (x, x)) l.
Proof. induction l as [| x l IH]; simpl; [| rewrite IH]; reflexivity. Qed.

Lemma sum_ext {A : Type} (f g : A -> R) (l : list A) :
  (forall a, f a = g a) -> Np.sum (map f l) = Np.sum (map g l).
Proof.
  intros H. induction l as [| a l IH]; cbn [map]; [reflexivity |].
  rewrite !sum_cons, IH, H. reflexivity.
Qed.

Lemma cov_affine (a b : R) (xs : list R) :
  Np.cov xs (map (fun x => a * x + b) xs) = a * Np.cov xs xs.
Proof.
  destruct xs as [| x0 xs'] eqn:E; [unfold Np.cov, Np.mean; simpl; lra |].
  rewrite <- E. assert (Hne : xs <> []) by (rewrite E; discriminate).
  clear E. unfold Np.cov.
  rewrite mean_map_affine by exact Hne.
  rewrite combine_map_r, map_map.
  rewrite combine_diag, map_map.
  unfold Np.mean at 1 4. rewrite !length_map.
  rewrite (sum_ext _ (fun x => a * ((x - Np.mean xs) * (x - Np.mean xs))))
    by (intros; simpl; lra).
  rewrite sum_map_scal. simpl. unfold Rdiv. ring.
Qed.

Lemma sum_map_nonneg_ge {A : Type} (f : A -> R) (l : list A) (a : A) :
  (forall x, 0 <= f x) -> In a l -> f a <= Np.sum (map f l).
Proof.
  intros Hf. induction l as [| x l IH]; intros Ha; [destruct Ha |].
  cbn [map]. rewrite sum_cons.
  assert (H0 : 0 <= Np.sum (map f l)).
  { clear IH Ha. induction l as [| y l IH]; cbn [map].
    - unfold Np.sum; simpl; lra.
    - rewrite sum_cons. specialize (Hf y). lra. }
  destruct Ha as [-> | Ha].
  - lra.
  - specialize (IH Ha). specialize (Hf x). lra.
Qed.

Lemma cov_diag_pos (l : list R) (a b : R) :
  In a l -> In b l -> a <> b -> 0 < Np.cov l l.
Proof.
  intros Ha Hb Hab. unfold Np.cov. rewrite combine_diag, map_map. simpl.
  generalize (Np.mean l). intros m.
  assert (Hc : exists c, In c l /\ c <> m).
  { destruct (Req_dec a m) as [Ham | Ham].
    - exists b. split; [exact Hb | congruence].
    - exists a. split; [exact Ha | exact Ham]. }
  destruct Hc as (c & Hc & Hcm).
  assert (Hsq : forall x, 0 <= (x - m) * (x - m))
    by (intros x; apply Rle_0_sqr).
  pose proof (sum_map_nonneg_ge (fun x => (x - m) * (x - m)) l c Hsq Hc)
    as Hge.
  cbv beta in Hge.
  assert (Hpos : 0 < (c - m) * (c - m))
    by (apply (Rsqr_pos_lt (c - m)); lra).
  unfold Np.mean at 1. rewrite length_map.
  apply Rdiv_lt_0_compat; [lra |].
  apply lt_0_INR. destruct l; [destruct Ha | simpl; lia].
Qed.

Lemma slope_rising (n : nat) (start step : R) :
  (2 <= n)%nat ->
  Np.linregress_slope (Np.range n) (rising n start step) = step.
Proof.
  intros Hn. unfold Np.linregress_slope, rising. rewrite cov_affine.
  assert (Hpos : 0 < Np.cov (Np.range n) (Np.range n)).
  { apply (cov_diag_pos _ (INR 0) (INR 1)).
    - apply in_map, in_seq. lia.
    - apply in_map, in_seq. lia.
    - simpl. lra. }
  field. lra.
Qed.

(** ** Order levels *)

(** C1. Whatever the variant, the order that [place_market_order] submits
    for "BUY" at entry price [p] has its take-profit at [p + d] and its
    stop-loss at [p - d], and for "SELL" the two are exchanged; [d] is the
    stop distance: the [stop_dist] argument in HFT_1, the floored variance in
    HFT_2, the variance argument in remove30_use_RawCalculatedVar. *)
Theorem order_levels_symmetric
    (mt5 : terminal) (symbol : string) (volume p d : R) :
  let d2 := HFT_2.effective_variance d in
  submits (fst (HFT_1.place_market_order mt5 symbol volume "BUY" p d))
    ORDER_TYPE_BUY p (p + d) (p - d)
  /\ submits (fst (HFT_1.place_market_order mt5 symbol volume "SELL" p d))
       ORDER_TYPE_SELL p (p - d) (p + d)
  /\ submits (fst (HFT_2.place_market_order mt5 symbol volume "BUY" p d))
       ORDER_TYPE_BUY p (p + d2) (p - d2)
  /\ submits (fst (HFT_2.place_market_order mt5 symbol volume "SELL" p d))
       ORDER_TYPE_SELL p (p - d2) (p + d2)
  /\ submits
       (fst (remove30_use_RawCalculatedVar.place_market_order
               mt5 symbol volume "BUY" p d))
       ORDER_TYPE_BUY p (p + d) (p - d)
  /\ submits
       (fst (remove30_use_RawCalculatedVar.place_market_order
               mt5 symbol volume "SELL" p d))
       ORDER_TYPE_SELL p (p - d) (p + d).
Proof.
  intros d2. unfold submits, has_levels.
  repeat split; eexists; (split; [reflexivity | repeat split]).
Qed.

(** ** Trend classification *)

(** C2. In the three scripts the trend is a function of the slope and of
    the threshold 0.0001 alone: Bullish above the threshold, Bearish below
    its negation, Neutral in between, the two boundary slopes included. *)
Theorem trend_classification (slope : R) :
  let T := 0.0001 in
  let trends :=
    (HFT_1.trend_str slope, HFT_2.trend_decision slope,
     fst (remove30_use_RawCalculatedVar.decide_trend slope)) in
  HFT_1.SLOPE_THRESHOLD = T /\ HFT_2.SLOPE_THRESHOLD = T
  /\ remove30_use_RawCalculatedVar.SLOPE_THRESHOLD = T
  /\ (T < slope -> trends = ("Bullish", "Bullish", "Bullish")%string)
  /\ (slope < - T -> trends = ("Bearish", "Bearish", "Bearish")%string)
  /\ (- T <= slope <= T -> trends = ("Neutral", "Neutral", "Neutral")%string)
  /\ (slope = T \/ slope = - T ->
      trends = ("Neutral", "Neutral", "Neutral")%string).
Proof.
  intros T trends. subst trends.
  unfold HFT_1.trend_str, HFT_2.trend_decision,
    remove30_use_RawCalculatedVar.decide_trend,
    HFT_1.SLOPE_THRESHOLD, HFT_2.SLOPE_THRESHOLD,
    remove30_use_RawCalculatedVar.SLOPE_THRESHOLD.
  fold T.
  assert (HT : 0 < T) by (unfold T; lra).
  repeat split; intros H;
    repeat destruct (Rlt_dec _ _); try reflexivity; try lra;
    destruct H; lra.
Qed.

Lemma trend_classification_witness :
  HFT_1.trend_str 1 = "Bullish"%string
  /\ HFT_2.trend_decision (-1) = "Bearish"%string
  /\ fst (remove30_use_RawCalculatedVar.decide_trend 0.0001) = "Neutral"%string.
Proof.
  split; [| split].
  - assert (H : 0.0001 < 1) by lra.
    exact (f_equal (fun t => fst (fst t))
             (proj1 (proj2 (proj2 (proj2 (trend_classification 1)))) H)).
  - assert (H : -1 < - (0.0001)) by lra.
    exact (f_equal (fun t => snd (fst t))
             (proj1 (proj2 (proj2 (proj2 (proj2 (trend_classification (-1)))))) H)).
  - assert (H : 0.0001 = 0.0001 \/ 0.0001 = - (0.0001)) by (left; reflexivity).
    exact (f_equal snd
             (proj2 (proj2 (proj2 (proj2 (proj2 (proj2 (trend_classification 0.0001)))))) H)).
Defined.

(** ** The window inside the scripts *)

(** The loop over the fetched ticks pushes their prices, in order. *)
Lemma for_tick_buffer_1 (ticks : list tick) :
  forall s : HFT_1.state,
  HFT_1.tick_buffer (fold_left HFT_1.for_tick ticks s)
  = Deque.extend HFT_1.TICK_BUFFER_SIZE (HFT_1.tick_buffer s)
      (map tick_price ticks).
Proof.
  induction ticks as [| t ticks IH]; intros s; [reflexivity |].
  cbn [fold_left map]. rewrite IH. unfold Deque.extend at 2.
  cbn [fold_left]. f_equal.
  unfold HFT_1.for_tick.
  destruct (_ <? _)%nat; reflexivity.
Qed.

Lemma for_tick_buffer_2 (ticks : list tick) :
  forall s : HFT_2.state,
  HFT_2.tick_buffer (fold_left HFT_2.for_tick ticks s)
  = Deque.extend HFT_2.TICK_BUFFER_SIZE (HFT_2.tick_buffer s)
      (map tick_price ticks).
Proof.
  induction ticks as [| t ticks IH]; intros s; [reflexivity |].
  cbn [fold_left map]. rewrite IH. reflexivity.
Qed.

Lemma for_tick_buffer_3 (ticks : list tick) :
  forall s : remove30_use_RawCalculatedVar.state,
  remove30_use_RawCalculatedVar.tick_buffer
    (fold_left remove30_use_RawCalculatedVar.for_tick ticks s)
  = Deque.extend remove30_use_RawCalculatedVar.TICK_BUFFER_SIZE
      (remove30_use_RawCalculatedVar.tick_buffer s) (map tick_price ticks).
Proof.
  induction ticks as [| t ticks IH]; intros s; [reflexivity |].
  cbn [fold_left map]. rewrite IH. reflexivity.
Qed.

(** C6. A window of capacity [N] that holds at most [N] prices still does
    after a push; after any pushes it holds, in arrival order, the last [N]
    of the prices it held followed by the prices pushed; and pushing [N + 1]
    distinct prices into the empty window leaves the last [N] of them in
    arrival order, the first one gone.  The buffers of the three scripts are
    such windows, fed with the tick prices in arrival order. *)
Theorem price_window_fifo (N : nat) (d xs : list R) (x : R) :
  (length d <= N)%nat ->
  (length (Deque.append N d x) <= N)%nat
  /\ Deque.extend N d xs = drop (length (d ++ xs) - N) (d ++ xs)
  /\ (length xs = N -> NoDup (x :: xs) ->
      Deque.extend N [] (x :: xs) = xs /\ ~ In x (Deque.extend N [] (x :: xs)))
  /\ (forall ticks s,
      HFT_1.tick_buffer (fold_left HFT_1.for_tick ticks s)
      = Deque.extend HFT_1.TICK_BUFFER_SIZE (HFT_1.tick_buffer s)
          (map tick_price ticks))
  /\ (forall ticks s,
      HFT_2.tick_buffer (fold_left HFT_2.for_tick ticks s)
      = Deque.extend HFT_2.TICK_BUFFER_SIZE (HFT_2.tick_buffer s)
          (map tick_price ticks))
  /\ (forall ticks s,
      remove30_use_RawCalculatedVar.tick_buffer
        (fold_left remove30_use_RawCalculatedVar.for_tick ticks s)
      = Deque.extend remove30_use_RawCalculatedVar.TICK_BUFFER_SIZE
          (remove30_use_RawCalculatedVar.tick_buffer s)
          (map tick_price ticks)).
Proof.
  intros Hd.
  split; [apply append_length; exact Hd |].
  split; [apply extend_spec; exact Hd |].
  split; [| split; [exact for_tick_buffer_1 |
                    split; [exact for_tick_buffer_2 | exact for_tick_buffer_3]]].
  intros Hlen Hnd.
  assert (E : Deque.extend N [] (x :: xs) = xs).
  { rewrite extend_spec by (simpl; lia).
    cbn [app length]. rewrite Hlen.
    replace (S N - N)%nat with 1%nat by lia. reflexivity. }
  split; [exact E |].
  rewrite E. apply NoDup_cons_1_1 in Hnd.
  rewrite <- list_elem_of_In. exact Hnd.
Qed.

Lemma price_window_fifo_witness :
  (length (Deque.append 3 [1; 2; 3]%R 4%R) <= 3)%nat
  /\ Deque.extend 3 [] [1; 2; 3; 4] = [2; 3; 4]
  /\ ~ In 1 (Deque.extend 3 [] [1; 2; 3; 4]).
Proof.
  assert (Hd : (length [1; 2; 3]%R <= 3)%nat) by (simpl; lia).
  assert (Hnd : NoDup [1; 2; 3; 4]).
  { repeat (apply NoDup_cons_2;
            [intros H;
             repeat (apply elem_of_cons in H; destruct H as [H | H]; [lra |]);
             apply elem_of_nil in H; exact H |]).
    apply NoDup_nil_2. }
  destruct (price_window_fifo 3 [1; 2; 3] [2; 3; 4] 4 Hd) as (H1 & _ & _).
  destruct (price_window_fifo 3 [1; 2; 3] [2; 3; 4] 1 Hd) as (_ & _ & H3 & _).
  destruct (H3 eq_refl Hnd) as [H4 H5].
  exact (conj H1 (conj H4 H5)).
Defined.

(** ** Which orders an iteration submits *)

Lemma sent_sleep (es : list effect) (secs : Z) :
  sent (es ++ [Sleep secs]) = sent es.
Proof. unfold sent. rewrite omap_app. simpl. apply app_nil_r. Qed.

Lemma py_max_Rmax (a b : R) : py_max a b = Rmax a b.
Proof.
  unfold py_max, Rmax.
  destruct (Rlt_dec a b), (Rle_dec a b); try reflexivity; lra.
Qed.

Lemma last_item_repeat (p : R) (n : nat) : last_item (repeat p (S n)) = p.
Proof.
  unfold last_item. induction n as [| n IH]; [reflexivity |].
  change (repeat p (S (S n))) with (p :: p :: repeat p n).
  exact IH.
Qed.

Lemma all_equal_repeat (p : R) (l : list R) :
  (forall x, In x l -> x = p) -> l = repeat p (length l).
Proof.
  induction l as [| y l IH]; intros H; [reflexivity |].
  simpl. rewrite (H y) by (left; reflexivity).
  rewrite <- IH by (intros x Hx; apply H; right; exact Hx). reflexivity.
Qed.

Section Sent1.
Import HFT_1.

Lemma signal_cases_1 (slope_val : R) (sig : string) :
  order_signal slope_val = Some sig ->
  (sig = "BUY"%string /\ SLOPE_THRESHOLD < slope_val)
  \/ (sig = "SELL"%string /\ slope_val < - SLOPE_THRESHOLD).
Proof.
  unfold order_signal. repeat destruct (Rlt_dec _ _); intros H;
    inversion H; subst; [left | right]; split; auto.
Qed.

Lemma attempt_order_sent_1 info mt5 n s :
  sent (snd (fst (attempt_order info mt5 n s)))
  = if (length (tick_buffer s) =? TICK_BUFFER_SIZE)%nat then
      match
        order_signal
          (Np.linregress_slope (Np.range TICK_BUFFER_SIZE) (tick_buffer s))
      with
      | Some sig =>
          [request SYMBOL LOT_SIZE sig (last_item (tick_buffer s))
             (effective_stop info (tick_buffer s))]
      | None => []
      end
    else [].
Proof.
  unfold attempt_order.
  destruct (_ =? _)%nat; [| reflexivity].
  destruct (order_signal _) as [sig |]; [| reflexivity].
  unfold place_market_order.
  destruct (order_send _ _) as [res |]; [| reflexivity].
  destruct (_ =? _)%Z; [| reflexivity].
  destruct (profit res); reflexivity.
Qed.

Lemma iteration_sent_1 info mt5 n s :
  sent (snd (fst (iteration info mt5 n s)))
  = sent (snd (fst (attempt_order info mt5 n (fetch_and_update mt5 s)))).
Proof.
  unfold iteration.
  destruct (attempt_order _ _ _ _) as [[s' es] [| e]]; simpl.
  - apply sent_sleep.
  - reflexivity.
Qed.

End Sent1.

Section Sent2.
Import HFT_2.

Lemma signal_cases_2 (slope_val : R) (sig : string) :
  order_signal (trend_decision slope_val) = Some sig ->
  (sig = "BUY"%string /\ SLOPE_THRESHOLD < slope_val)
  \/ (sig = "SELL"%string /\ slope_val < - SLOPE_THRESHOLD).
Proof.
  unfold order_signal, trend_decision.
  repeat destruct (Rlt_dec _ _); simpl; intros H;
    inversion H; subst; [left | right]; split; auto.
Qed.

Lemma attempt_order_sent_2 mt5 n s :
  sent (snd (attempt_order mt5 n s))
  = if (length (tick_buffer s) =? TICK_BUFFER_SIZE)%nat then
      match
        order_signal
          (trend_decision
             (Np.linregress_slope (Np.range TICK_BUFFER_SIZE) (tick_buffer s)))
      with
      | Some sig =>
          [request SYMBOL LOT_SIZE sig (last_item (tick_buffer s))
             (Np.var (tick_buffer s))]
      | None => []
      end
    else [].
Proof.
  unfold attempt_order.
  destruct (_ =? _)%nat; [| reflexivity].
  destruct (order_signal _) as [sig |]; [| reflexivity].
  unfold place_market_order.
  destruct (order_send _ _) as [res |]; [| reflexivity].
  destruct (_ =? _)%Z; reflexivity.
Qed.

Lemma iteration_sent_2 mt5 n s :
  sent (snd (iteration mt5 n s))
  = sent (snd (attempt_order mt5 n (fetch_and_update mt5 s))).
Proof.
  unfold iteration.
  destruct (attempt_order _ _ _) as [s' es]; simpl. apply sent_sleep.
Qed.

End Sent2.

Section Sent3.
Import remove30_use_RawCalculatedVar.

Lemma signal_cases_3 (slope_val : R) (sig : string) :
  snd (decide_trend slope_val) = Some sig ->
  (sig = "BUY"%string /\ SLOPE_THRESHOLD < slope_val)
  \/ (sig = "SELL"%string /\ slope_val < - SLOPE_THRESHOLD).
Proof.
  unfold decide_trend.
  repeat destruct (Rlt_dec _ _); simpl; intros H;
    inversion H; subst; [left | right]; split; auto.
Qed.

Lemma attempt_order_sent_3 mt5 n s :
  sent (snd (attempt_order mt5 n s))
  = if (length (tick_buffer s) =? TICK_BUFFER_SIZE)%nat then
      match
        snd (decide_trend
               (Np.linregress_slope (Np.range TICK_BUFFER_SIZE) (tick_buffer s)))
      with
      | Some sig =>
          [request SYMBOL LOT_SIZE sig (last_item (tick_buffer s))
             (Np.var (tick_buffer s))]
      | None => []
      end
    else [].
Proof.
  unfold attempt_order.
  destruct (_ =? _)%nat; [| reflexivity].
  destruct (decide_trend _) as [trend [sig |]]; [| reflexivity].
  unfold place_market_order.
  destruct (order_send _ _) as [res |]; [| reflexivity].
  destruct (_ =? _)%Z; reflexivity.
Qed.

Lemma iteration_sent_3 mt5 n s :
  sent (snd (iteration mt5 n s))
  = sent (snd (attempt_order mt5 n (fetch_and_update mt5 s))).
Proof.
  unfold iteration.
  destruct (attempt_order _ _ _) as [s' es]; simpl. apply sent_sleep.
Qed.

End Sent3.

(** ** Stop sizing *)

Lemma request_levels_1 (sym sig : string) (vol p d : R) :
  sig = "BUY"%string \/ sig = "SELL"%string ->
  let r := HFT_1.request sym vol sig p d in
  price r = p
  /\ (has_levels r ORDER_TYPE_BUY (price r) (price r + d) (price r - d)
      \/ has_levels r ORDER_TYPE_SELL (price r) (price r - d) (price r + d)).
Proof.
  intros [-> | ->]; (split; [reflexivity |]); [left | right];
    repeat split.
Qed.

Lemma request_levels_2 (sym sig : string) (vol p v : R) :
  sig = "BUY"%string \/ sig = "SELL"%string ->
  let r := HFT_2.request sym vol sig p v in
  let d := HFT_2.effective_variance v in
  price r = p
  /\ (has_levels r ORDER_TYPE_BUY (price r) (price r + d) (price r - d)
      \/ has_levels r ORDER_TYPE_SELL (price r) (price r - d) (price r + d)).
Proof.
  intros [-> | ->]; (split; [reflexivity |]); [left | right];
    repeat split.
Qed.


Lemma full_or_silent (b : bool) (l : list order_request) (r : order_request) :
  In r (if b then l else []) -> b = true /\ In r l.
Proof. destruct b; [auto | intros []]. Qed.

(** C3. In HFT_1 the minimum stop is the broker's stops level times the
    point size, or 0.0005 when that product is not positive; the effective
    stop of a window is the larger of twice its standard deviation and that
    minimum, hence at least the minimum; and every order an iteration
    submits is placed on a full window, at its last price, with take-profit
    and stop-loss at that distance on either side. *)
Theorem policy_A_stop_distance
    (symbol_info : SymbolInfo) (mt5 : terminal) (order_num : Z)
    (s : HFT_1.state) (r : order_request) :
  let reported := IZR (trade_stops_level symbol_info) * point symbol_info in
  let broker_min_stop := if Rle_dec reported 0 then 0.0005 else reported in
  HFT_1.broker_min_stop_price symbol_info = broker_min_stop
  /\ (forall w : list R,
      HFT_1.effective_stop symbol_info w
      = Rmax (2.0 * sqrt (Np.var w)) broker_min_stop
      /\ broker_min_stop <= HFT_1.effective_stop symbol_info w)
  /\ (In r (sent (snd (fst (HFT_1.iteration symbol_info mt5 order_num s)))) ->
      let w := HFT_1.tick_buffer (HFT_1.fetch_and_update mt5 s) in
      let d := HFT_1.effective_stop symbol_info w in
      length w = 30%nat
      /\ price r = last_item w
      /\ (has_levels r ORDER_TYPE_BUY (price r) (price r + d) (price r - d)
          \/ has_levels r ORDER_TYPE_SELL (price r) (price r - d)
               (price r + d))).
Proof.
  intros reported broker_min_stop.
  split; [reflexivity |].
  split.
  - intros w. unfold HFT_1.effective_stop. rewrite py_max_Rmax.
    split; [reflexivity | apply Rmax_r].
  - rewrite iteration_sent_1, attempt_order_sent_1.
    intros Hin w d. apply full_or_silent in Hin as [Hfull Hin].
    apply Nat.eqb_eq in Hfull. split; [exact Hfull |].
    fold w in Hin.
    destruct (HFT_1.order_signal _) as [sig |] eqn:Hsig; [| destruct Hin].
    destruct Hin as [<- | []].
    apply signal_cases_1 in Hsig.
    apply request_levels_1. tauto.
Qed.

Lemma length_rising (n : nat) (start step : R) :
  length (rising n start step) = n.
Proof. unfold rising, Np.range. rewrite !length_map. apply length_seq. Qed.

Lemma rising_sends_1 (symbol_info : SymbolInfo) :
  sent (snd (fst (HFT_1.iteration symbol_info quiet_terminal 1 rising_state_1)))
  = [HFT_1.request HFT_1.SYMBOL HFT_1.LOT_SIZE "BUY"
       (last_item (rising 30 100 1))
       (HFT_1.effective_stop symbol_info (rising 30 100 1))].
Proof.
  rewrite iteration_sent_1, attempt_order_sent_1.
  change (HFT_1.fetch_and_update quiet_terminal rising_state_1)
    with rising_state_1.
  change (HFT_1.tick_buffer rising_state_1) with (rising 30 100 1).
  rewrite length_rising. change (30 =? HFT_1.TICK_BUFFER_SIZE)%nat with true.
  cbv iota. change HFT_1.TICK_BUFFER_SIZE with 30%nat.
  rewrite slope_rising by lia.
  unfold HFT_1.order_signal, HFT_1.SLOPE_THRESHOLD.
  destruct (Rlt_dec 0.0001 1) as [_ | H]; [reflexivity | lra].
Qed.

Lemma policy_A_stop_distance_witness :
  let w := rising 30 100 1 in
  let d := HFT_1.effective_stop no_stops_level w in
  let r := HFT_1.request HFT_1.SYMBOL HFT_1.LOT_SIZE "BUY" (last_item w) d in
  HFT_1.broker_min_stop_price no_stops_level = 0.0005
  /\ 0.0005 <= d
  /\ price r = last_item w
  /\ (has_levels r ORDER_TYPE_BUY (price r) (price r + d) (price r - d)
      \/ has_levels r ORDER_TYPE_SELL (price r) (price r - d) (price r + d)).
Proof.
  intros w d r.
  pose proof (policy_A_stop_distance no_stops_level quiet_terminal 1
                rising_state_1 r) as H.
  cbv beta iota zeta delta [no_stops_level trade_stops_level point] in H.
  destruct (Rle_dec (0 * 0.01) 0) as [_ | Hn]; [| lra].
  destruct H as (Hmin & Hstop & Hsent).
  split; [exact Hmin |].
  split.
  - destruct (Hstop w) as [_ Hle]. exact Hle.
  - assert (Hin : In r (sent (snd (fst (HFT_1.iteration no_stops_level
                                           quiet_terminal 1 rising_state_1))))).
    { rewrite rising_sends_1. left. reflexivity. }
    destruct (Hsent Hin) as (_ & Hp & Hl). exact (conj Hp Hl).
Defined.

(** C4. In HFT_2 the distance [place_market_order] uses is the larger of
    the variance it is given and the floor 30, hence at least 30; and every
    order an iteration submits is placed on a full window, at its last
    price, with take-profit and stop-loss at the larger of the window's
    population variance (the mean squared deviation, no square root) and 30
    on either side. *)
Theorem policy_B_stop_distance
    (mt5 : terminal) (order_num : Z) (s : HFT_2.state) (r : order_request) :
  HFT_2.VARIANCE_FLOOR = 30.0
  /\ (forall variance : R,
      HFT_2.effective_variance variance = Rmax variance 30.0
      /\ 30.0 <= HFT_2.effective_variance variance)
  /\ (forall w : list R,
      Np.var w
      = Np.sum (map (fun x => (x - Np.mean w) * (x - Np.mean w)) w)
        / INR (length w))
  /\ (In r (sent (snd (HFT_2.iteration mt5 order_num s))) ->
      let w := HFT_2.tick_buffer (HFT_2.fetch_and_update mt5 s) in
      let d := Rmax (Np.var w) 30.0 in
      length w = 30%nat
      /\ price r = last_item w
      /\ (has_levels r ORDER_TYPE_BUY (price r) (price r + d) (price r - d)
          \/ has_levels r ORDER_TYPE_SELL (price r) (price r - d)
               (price r + d))).
Proof.
  assert (Hmax : forall v, HFT_2.effective_variance v = Rmax v 30.0).
  { intros v. unfold HFT_2.effective_variance, HFT_2.VARIANCE_FLOOR, Rmax.
    destruct (Rge_dec v 30.0), (Rle_dec v 30.0); try reflexivity; lra. }
  split; [reflexivity |].
  split; [intros v; split; [apply Hmax | rewrite Hmax; apply Rmax_r] |].
  split; [intros w; unfold Np.var, Np.mean at 1; rewrite length_map; reflexivity |].
  rewrite iteration_sent_2, attempt_order_sent_2.
  intros Hin w d. apply full_or_silent in Hin as [Hfull Hin].
  apply Nat.eqb_eq in Hfull. split; [exact Hfull |].
  fold w in Hin.
  destruct (HFT_2.order_signal _) as [sig |] eqn:Hsig; [| destruct Hin].
  destruct Hin as [<- | []].
  apply signal_cases_2 in Hsig.
  unfold d. rewrite <- Hmax.
  apply request_levels_2. tauto.
Qed.

Lemma rising_sends_2 :
  sent (snd (HFT_2.iteration quiet_terminal 1 rising_state_2))
  = [HFT_2.request HFT_2.SYMBOL HFT_2.LOT_SIZE "BUY"
       (last_item (rising 30 100 1)) (Np.var (rising 30 100 1))].
Proof.
  rewrite iteration_sent_2, attempt_order_sent_2.
  change (HFT_2.fetch_and_update quiet_terminal rising_state_2)
    with rising_state_2.
  change (HFT_2.tick_buffer rising_state_2) with (rising 30 100 1).
  rewrite length_rising. change (30 =? HFT_2.TICK_BUFFER_SIZE)%nat with true.
  cbv iota. change HFT_2.TICK_BUFFER_SIZE with 30%nat.
  rewrite slope_rising by lia.
  unfold HFT_2.order_signal, HFT_2.trend_decision, HFT_2.SLOPE_THRESHOLD.
  destruct (Rlt_dec 0.0001 1) as [_ | H]; [reflexivity | lra].
Qed.

Lemma policy_B_stop_distance_witness :
  let w := rising 30 100 1 in
  let d := Rmax (Np.var w) 30.0 in
  let r := HFT_2.request HFT_2.SYMBOL HFT_2.LOT_SIZE "BUY" (last_item w)
             (Np.var w) in
  price r = last_item w
  /\ (has_levels r ORDER_TYPE_BUY (price r) (price r + d) (price r - d)
      \/ has_levels r ORDER_TYPE_SELL (price r) (price r - d) (price r + d)).
Proof.
  intros w d r.
  destruct (policy_B_stop_distance quiet_terminal 1 rising_state_2 r)
    as (_ & _ & _ & Hsent).
  assert (Hin : In r (sent (snd (HFT_2.iteration quiet_terminal 1
                                   rising_state_2)))).
  { rewrite rising_sends_2. left. reflexivity. }
  destruct (Hsent Hin) as (_ & Hp & Hl). exact (conj Hp Hl).
Defined.

Section Rounding500.

Import PrimFloat.


End Rounding500.




(** ** The flat window *)

Lemma flat_slope (p : R) (w xs : list R) :
  (forall x, In x w -> x = p) -> Np.linregress_slope xs w = 0.
Proof.
  intros H. rewrite (all_equal_repeat p w H). apply slope_repeat.
Qed.

Lemma neutral_at_zero :
  HFT_1.order_signal 0 = None
  /\ HFT_2.trend_decision 0 = "Neutral"%string
  /\ remove30_use_RawCalculatedVar.decide_trend 0 = ("Neutral"%string, None).
Proof.
  unfold HFT_1.order_signal, HFT_2.trend_decision,
    remove30_use_RawCalculatedVar.decide_trend,
    HFT_1.SLOPE_THRESHOLD, HFT_2.SLOPE_THRESHOLD,
    remove30_use_RawCalculatedVar.SLOPE_THRESHOLD.
  repeat split; repeat destruct (Rlt_dec _ _); try reflexivity; lra.
Qed.

Section Rounding30.

Import PrimFloat.

(** C8, as stated, fails: in binary64 the variance [np.var] computes for
    the full window of 30 prices 0.1 is 2 ^ -110, not 0. *)
Lemma flat_variance_30_not_zero :
  length Np64.flat_30 = HFT_2.TICK_BUFFER_SIZE
  /\ Np64.flat_30 = repeat (hd 0%float Np64.flat_30) 30
  /\ Np64.var Np64.flat_30 = 0x1p-110%float
  /\ eqb (Np64.var Np64.flat_30) 0%float = false.
Proof. vm_compute. repeat split; reflexivity. Qed.

End Rounding30.

(** C8, amended.  When the window of HFT_2 is full and all its prices
    equal [p] after the ticks of an iteration were fed, the slope is 0, the
    trend is Neutral, the order signal is None, the iteration submits
    nothing and only sleeps, and it still appends to tick_data.csv the
    aggregated row, with the computed variance, slope 0 and trend Neutral.
    The same holds in remove30_use_RawCalculatedVar; HFT_1, which has no
    aggregated row, submits nothing either. *)
Theorem flat_window_no_order (mt5 : terminal) (order_num : Z) (p : R) :
  HFT_2.trend_decision 0 = "Neutral"%string
  /\ HFT_2.order_signal "Neutral" = None
  /\ (forall s : HFT_2.state,
      let s1 := HFT_2.fetch_and_update mt5 s in
      let w := HFT_2.tick_buffer s1 in
      length w = HFT_2.TICK_BUFFER_SIZE -> (forall x, In x w -> x = p) ->
      Np.linregress_slope (Np.range HFT_2.TICK_BUFFER_SIZE) w = 0
      /\ HFT_2.iteration mt5 order_num s
         = ({| HFT_2.tick_buffer := w;
               HFT_2.latest_tick_time := HFT_2.latest_tick_time s1;
               HFT_2.previous_slope := 0;
               HFT_2.files :=
                 open_a_writerow HFT_2.TICK_CSV
                   [Strftime "%Y-%m-%d" (now mt5 0);
                    Strftime "%H:%M:%S" (now mt5 0);
                    Lit HFT_2.SYMBOL; join ";" (map (Fixed 5) w);
                    Fixed 6 (Np.var w); Fixed 6 0; Lit "Neutral"]
                   (HFT_2.files s1) |},
            [Sleep 30]))
  /\ (forall s : remove30_use_RawCalculatedVar.state,
      let s1 := remove30_use_RawCalculatedVar.fetch_and_update mt5 s in
      let w := remove30_use_RawCalculatedVar.tick_buffer s1 in
      length w = remove30_use_RawCalculatedVar.TICK_BUFFER_SIZE ->
      (forall x, In x w -> x = p) ->
      Np.linregress_slope
        (Np.range remove30_use_RawCalculatedVar.TICK_BUFFER_SIZE) w = 0
      /\ remove30_use_RawCalculatedVar.iteration mt5 order_num s
         = ({| remove30_use_RawCalculatedVar.tick_buffer := w;
               remove30_use_RawCalculatedVar.latest_tick_time :=
                 remove30_use_RawCalculatedVar.latest_tick_time s1;
               remove30_use_RawCalculatedVar.files :=
                 open_a_writerow remove30_use_RawCalculatedVar.TICK_CSV
                   [Strftime "%Y-%m-%d" (now mt5 0);
                    Strftime "%H:%M:%S" (now mt5 1);
                    Lit remove30_use_RawCalculatedVar.SYMBOL;
                    join ";" (map (Fixed 5) w);
                    Fixed 6 (Np.var w); Fixed 6 0; Lit "Neutral"]
                   (remove30_use_RawCalculatedVar.files s1) |},
            [Sleep 30]))
  /\ (forall (symbol_info : SymbolInfo) (s : HFT_1.state),
      let s1 := HFT_1.fetch_and_update mt5 s in
      let w := HFT_1.tick_buffer s1 in
      length w = HFT_1.TICK_BUFFER_SIZE -> (forall x, In x w -> x = p) ->
      Np.linregress_slope (Np.range HFT_1.TICK_BUFFER_SIZE) w = 0
      /\ HFT_1.iteration symbol_info mt5 order_num s
         = (s1, [Sleep 30], Normal)).
Proof.
  destruct neutral_at_zero as (N1 & N2 & N3).
  split; [exact N2 |].
  split; [reflexivity |].
  split; [| split].
  - intros s s1 w Hlen Hflat.
    pose proof (flat_slope p w (Np.range HFT_2.TICK_BUFFER_SIZE) Hflat) as Hs.
    split; [exact Hs |].
    unfold HFT_2.iteration, HFT_2.attempt_order. fold s1. fold w.
    rewrite Hlen, Nat.eqb_refl, Hs, N2. reflexivity.
  - intros s s1 w Hlen Hflat.
    pose proof (flat_slope p w
                  (Np.range remove30_use_RawCalculatedVar.TICK_BUFFER_SIZE)
                  Hflat) as Hs.
    split; [exact Hs |].
    unfold remove30_use_RawCalculatedVar.iteration,
      remove30_use_RawCalculatedVar.attempt_order. fold s1. fold w.
    rewrite Hlen, Nat.eqb_refl, Hs, N3. reflexivity.
  - intros info s s1 w Hlen Hflat.
    pose proof (flat_slope p w (Np.range HFT_1.TICK_BUFFER_SIZE) Hflat) as Hs.
    split; [exact Hs |].
    unfold HFT_1.iteration, HFT_1.attempt_order. fold s1. fold w.
    rewrite Hlen, Nat.eqb_refl, Hs, N1. reflexivity.
Qed.

Lemma flat_window_no_order_witness :
  Np.linregress_slope (Np.range 30) (repeat 50 30) = 0
  /\ sent (snd (HFT_2.iteration quiet_terminal 1 flat_state_2)) = []
  /\ exists rows,
       HFT_2.files (fst (HFT_2.iteration quiet_terminal 1 flat_state_2))
         !! HFT_2.TICK_CSV
       = Some (rows ++ [[Strftime "%Y-%m-%d" 0; Strftime "%H:%M:%S" 0;
                         Lit "BTCUSD"; join ";" (map (Fixed 5) (repeat 50 30));
                         Fixed 6 (Np.var (repeat 50 30)); Fixed 6 0;
                         Lit "Neutral"]]).
Proof.
  destruct (flat_window_no_order quiet_terminal 1 50)
    as (_ & _ & Hiter & _).
  assert (Hflat : forall x, In x (repeat 50 30) -> x = 50)
    by (intros x Hx; exact (repeat_spec _ _ _ Hx)).
  destruct (Hiter flat_state_2 eq_refl Hflat) as [Hs Hit].
  split; [exact Hs |].
  rewrite Hit.
  split; [reflexivity |].
  eexists. cbn [fst HFT_2.files]. unfold open_a_writerow.
  rewrite lookup_insert_eq. reflexivity.
Defined.

(** ** An iteration without ticks *)

(** C7, as stated, fails: the terminal reports zero ticks, the window of
    HFT_2 is already full and rising, and the iteration submits a BUY. *)
Lemma zero_ticks_still_trades :
  HFT_2.fetch_new_ticks quiet_terminal HFT_2.SYMBOL
    (HFT_2.latest_tick_time rising_state_2) = Some []
  /\ sent (snd (HFT_2.iteration quiet_terminal 1 rising_state_2))
     = [HFT_2.request HFT_2.SYMBOL HFT_2.LOT_SIZE "BUY"
          (last_item (rising 30 100 1)) (Np.var (rising 30 100 1))]
  /\ sent (snd (HFT_2.iteration quiet_terminal 1 rising_state_2)) <> [].
Proof.
  split; [reflexivity |].
  rewrite rising_sends_2. split; [reflexivity | discriminate].
Qed.

(** C7, amended.  When the fetch returns zero ticks, the update step changes
    nothing: window, high-water mark and files stay as they were.  If the
    window is not full the iteration only sleeps: no decision, no order.  If
    the window is already full the order attempt is still made, on the
    unchanged window, before sleeping.  This holds for the three scripts. *)
Theorem zero_ticks_iteration
    (symbol_info : SymbolInfo) (mt5 : terminal) (order_num : Z) :
  (forall s : HFT_1.state,
     zero_ticks (HFT_1.fetch_new_ticks mt5 HFT_1.SYMBOL
                   (HFT_1.latest_tick_time s)) ->
     HFT_1.fetch_and_update mt5 s = s
     /\ (length (HFT_1.tick_buffer s) <> HFT_1.TICK_BUFFER_SIZE ->
         HFT_1.iteration symbol_info mt5 order_num s
         = (s, [Sleep 30], Normal))
     /\ HFT_1.iteration symbol_info mt5 order_num s
        = (let '(s', es, o) :=
             HFT_1.attempt_order symbol_info mt5 order_num s in
           match o with
           | Normal => (s', es ++ [Sleep 30], Normal)
           | Raised e => (s', es, Raised e)
           end)
     /\ (length (HFT_1.tick_buffer s) = HFT_1.TICK_BUFFER_SIZE ->
         sent (snd (fst (HFT_1.iteration symbol_info mt5 order_num s)))
         = match
             HFT_1.order_signal
               (Np.linregress_slope (Np.range HFT_1.TICK_BUFFER_SIZE)
                  (HFT_1.tick_buffer s))
           with
           | Some side =>
               [HFT_1.request HFT_1.SYMBOL HFT_1.LOT_SIZE side
                  (last_item (HFT_1.tick_buffer s))
                  (HFT_1.effective_stop symbol_info (HFT_1.tick_buffer s))]
           | None => []
           end))
  /\ (forall s : HFT_2.state,
     zero_ticks (HFT_2.fetch_new_ticks mt5 HFT_2.SYMBOL
                   (HFT_2.latest_tick_time s)) ->
     HFT_2.fetch_and_update mt5 s = s
     /\ (length (HFT_2.tick_buffer s) <> HFT_2.TICK_BUFFER_SIZE ->
         HFT_2.iteration mt5 order_num s = (s, [Sleep 30]))
     /\ HFT_2.iteration mt5 order_num s
        = (fst (HFT_2.attempt_order mt5 order_num s),
           snd (HFT_2.attempt_order mt5 order_num s) ++ [Sleep 30])
     /\ (length (HFT_2.tick_buffer s) = HFT_2.TICK_BUFFER_SIZE ->
         sent (snd (HFT_2.iteration mt5 order_num s))
         = match
             HFT_2.order_signal
               (HFT_2.trend_decision
                  (Np.linregress_slope (Np.range HFT_2.TICK_BUFFER_SIZE)
                     (HFT_2.tick_buffer s)))
           with
           | Some side =>
               [HFT_2.request HFT_2.SYMBOL HFT_2.LOT_SIZE side
                  (last_item (HFT_2.tick_buffer s))
                  (Np.var (HFT_2.tick_buffer s))]
           | None => []
           end))
  /\ (forall s : remove30_use_RawCalculatedVar.state,
     zero_ticks (remove30_use_RawCalculatedVar.fetch_new_ticks mt5
                   remove30_use_RawCalculatedVar.SYMBOL
                   (remove30_use_RawCalculatedVar.latest_tick_time s)) ->
     remove30_use_RawCalculatedVar.fetch_and_update mt5 s = s
     /\ (length (remove30_use_RawCalculatedVar.tick_buffer s)
         <> remove30_use_RawCalculatedVar.TICK_BUFFER_SIZE ->
         remove30_use_RawCalculatedVar.iteration mt5 order_num s
         = (s, [Sleep 30]))
     /\ remove30_use_RawCalculatedVar.iteration mt5 order_num s
        = (fst (remove30_use_RawCalculatedVar.attempt_order mt5 order_num s),
           snd (remove30_use_RawCalculatedVar.attempt_order mt5 order_num s)
             ++ [Sleep 30])
     /\ (length (remove30_use_RawCalculatedVar.tick_buffer s)
         = remove30_use_RawCalculatedVar.TICK_BUFFER_SIZE ->
         sent (snd (remove30_use_RawCalculatedVar.iteration mt5 order_num s))
         = match
             snd (remove30_use_RawCalculatedVar.decide_trend
                    (Np.linregress_slope
                       (Np.range remove30_use_RawCalculatedVar.TICK_BUFFER_SIZE)
                       (remove30_use_RawCalculatedVar.tick_buffer s)))
           with
           | Some side =>
               [remove30_use_RawCalculatedVar.request
                  remove30_use_RawCalculatedVar.SYMBOL
                  remove30_use_RawCalculatedVar.LOT_SIZE side
                  (last_item (remove30_use_RawCalculatedVar.tick_buffer s))
                  (Np.var (remove30_use_RawCalculatedVar.tick_buffer s))]
           | None => []
           end)).
Proof.
  split; [| split].
  - intros s Hz.
    assert (E : HFT_1.fetch_and_update mt5 s = s)
      by (unfold HFT_1.fetch_and_update; destruct Hz as [-> | ->]; reflexivity).
    split; [exact E |]. split.
    + intros Hlen. apply Nat.eqb_neq in Hlen.
      unfold HFT_1.iteration, HFT_1.attempt_order. rewrite E, Hlen. reflexivity.
    + split; [unfold HFT_1.iteration; rewrite E; reflexivity |].
      intros Hlen. rewrite iteration_sent_1, E, attempt_order_sent_1, Hlen.
      rewrite Nat.eqb_refl. reflexivity.
  - intros s Hz.
    assert (E : HFT_2.fetch_and_update mt5 s = s)
      by (unfold HFT_2.fetch_and_update; destruct Hz as [-> | ->]; reflexivity).
    split; [exact E |]. split.
    + intros Hlen. apply Nat.eqb_neq in Hlen.
      unfold HFT_2.iteration, HFT_2.attempt_order. rewrite E, Hlen. reflexivity.
    + split.
      * unfold HFT_2.iteration. rewrite E.
        destruct (HFT_2.attempt_order _ _ _); reflexivity.
      * intros Hlen. rewrite iteration_sent_2, E, attempt_order_sent_2, Hlen.
        rewrite Nat.eqb_refl. reflexivity.
  - intros s Hz.
    assert (E : remove30_use_RawCalculatedVar.fetch_and_update mt5 s = s)
      by (unfold remove30_use_RawCalculatedVar.fetch_and_update;
          destruct Hz as [-> | ->]; reflexivity).
    split; [exact E |]. split.
    + intros Hlen. apply Nat.eqb_neq in Hlen.
      unfold remove30_use_RawCalculatedVar.iteration,
        remove30_use_RawCalculatedVar.attempt_order.
      rewrite E, Hlen. reflexivity.
    + split.
      * unfold remove30_use_RawCalculatedVar.iteration. rewrite E.
        destruct (remove30_use_RawCalculatedVar.attempt_order _ _ _);
          reflexivity.
      * intros Hlen. rewrite iteration_sent_3, E, attempt_order_sent_3, Hlen.
        rewrite Nat.eqb_refl. reflexivity.
Qed.

Lemma zero_ticks_iteration_witness :
  HFT_2.fetch_and_update quiet_terminal rising_state_2 = rising_state_2
  /\ HFT_2.iteration quiet_terminal 1 rising_state_2
     = (fst (HFT_2.attempt_order quiet_terminal 1 rising_state_2),
        snd (HFT_2.attempt_order quiet_terminal 1 rising_state_2)
          ++ [Sleep 30]).
Proof.
  destruct (zero_ticks_iteration no_stops_level quiet_terminal 1)
    as (_ & H2 & _).
  assert (Hz : zero_ticks (HFT_2.fetch_new_ticks quiet_terminal HFT_2.SYMBOL
                             (HFT_2.latest_tick_time rising_state_2)))
    by (right; reflexivity).
  destruct (H2 rising_state_2 Hz) as (E & _ & Hit & _).
  exact (conj E Hit).
Defined.

(** ** The previous slope *)

Lemma for_tick_observe_1 (t : tick) (s1 s2 : HFT_1.state) :
  observe_1 s1 = observe_1 s2 ->
  observe_1 (HFT_1.for_tick s1 t) = observe_1 (HFT_1.for_tick s2 t).
Proof.
  intros H. same_but_slope_1 H. unfold HFT_1.for_tick.
  cbn [HFT_1.tick_buffer HFT_1.latest_tick_time HFT_1.files].
  destruct (_ <? _)%nat; reflexivity.
Qed.

Lemma fetch_and_update_observe_1 (mt5 : terminal) (s1 s2 : HFT_1.state) :
  observe_1 s1 = observe_1 s2 ->
  observe_1 (HFT_1.fetch_and_update mt5 s1)
  = observe_1 (HFT_1.fetch_and_update mt5 s2).
Proof.
  intros H. unfold HFT_1.fetch_and_update.
  replace (HFT_1.latest_tick_time s2) with (HFT_1.latest_tick_time s1)
    by (unfold observe_1 in H; congruence).
  destruct (HFT_1.fetch_new_ticks _ _ _) as [[| t ts] |]; try exact H.
  generalize (t :: ts). intros ticks. revert s1 s2 H.
  induction ticks as [| t' ticks IH]; intros s1 s2 H; [exact H |].
  cbn [fold_left]. apply IH, for_tick_observe_1, H.
Qed.

Lemma attempt_order_observe_1 info mt5 n (s1 s2 : HFT_1.state) :
  observe_1 s1 = observe_1 s2 ->
  let r1 := HFT_1.attempt_order info mt5 n s1 in
  let r2 := HFT_1.attempt_order info mt5 n s2 in
  observe_1 (fst (fst r1)) = observe_1 (fst (fst r2))
  /\ snd (fst r1) = snd (fst r2) /\ snd r1 = snd r2.
Proof.
  intros H. same_but_slope_1 H. unfold HFT_1.attempt_order.
  cbn [HFT_1.tick_buffer HFT_1.latest_tick_time HFT_1.files
       HFT_1.previous_slope].
  destruct (_ =? _)%nat; [| repeat split].
  destruct (HFT_1.order_signal _); [| repeat split].
  unfold HFT_1.place_market_order.
  destruct (order_send _ _) as [res |]; [| repeat split].
  destruct (_ =? _)%Z; [| repeat split].
  destruct (profit res); repeat split.
Qed.

Lemma iteration_observe_1 info mt5 n (s1 s2 : HFT_1.state) :
  observe_1 s1 = observe_1 s2 ->
  let r1 := HFT_1.iteration info mt5 n s1 in
  let r2 := HFT_1.iteration info mt5 n s2 in
  observe_1 (fst (fst r1)) = observe_1 (fst (fst r2))
  /\ snd (fst r1) = snd (fst r2) /\ snd r1 = snd r2.
Proof.
  intros H. apply (fetch_and_update_observe_1 mt5) in H.
  apply (attempt_order_observe_1 info mt5 n) in H.
  unfold HFT_1.iteration.
  destruct (HFT_1.attempt_order _ _ _ (HFT_1.fetch_and_update mt5 s1))
    as [[a1 e1] o1].
  destruct (HFT_1.attempt_order _ _ _ (HFT_1.fetch_and_update mt5 s2))
    as [[a2 e2] o2].
  cbn [fst snd] in H. destruct H as (Ha & -> & ->).
  destruct o2; cbn [fst snd]; auto.
Qed.

Lemma loop_observe_1 info (mt5 : nat -> terminal) (order_nums : list nat) :
  forall s1 s2 : HFT_1.state,
  observe_1 s1 = observe_1 s2 ->
  let r1 := HFT_1.loop info mt5 order_nums s1 in
  let r2 := HFT_1.loop info mt5 order_nums s2 in
  observe_1 (fst (fst r1)) = observe_1 (fst (fst r2))
  /\ snd (fst r1) = snd (fst r2) /\ snd r1 = snd r2.
Proof.
  induction order_nums as [| n rest IH]; intros s1 s2 H; [repeat split; exact H |].
  cbn [HFT_1.loop].
  apply (iteration_observe_1 info (mt5 n) (Z.of_nat n)) in H.
  destruct (HFT_1.iteration _ _ _ s1) as [[a1 e1] o1].
  destruct (HFT_1.iteration _ _ _ s2) as [[a2 e2] o2].
  cbn [fst snd] in H. destruct H as (Ha & -> & ->).
  destruct o2; [| cbn [fst snd]; auto].
  specialize (IH a1 a2 Ha).
  destruct (HFT_1.loop _ _ _ a1) as [[b1 f1] p1].
  destruct (HFT_1.loop _ _ _ a2) as [[b2 f2] p2].
  cbn [fst snd] in IH |- *. destruct IH as (Hb & -> & ->). auto.
Qed.

Lemma for_tick_observe_2 (t : tick) (s1 s2 : HFT_2.state) :
  observe_2 s1 = observe_2 s2 ->
  observe_2 (HFT_2.for_tick s1 t) = observe_2 (HFT_2.for_tick s2 t).
Proof. intros H. same_but_slope_2 H. reflexivity. Qed.

Lemma fetch_and_update_observe_2 (mt5 : terminal) (s1 s2 : HFT_2.state) :
  observe_2 s1 = observe_2 s2 ->
  observe_2 (HFT_2.fetch_and_update mt5 s1)
  = observe_2 (HFT_2.fetch_and_update mt5 s2).
Proof.
  intros H. unfold HFT_2.fetch_and_update.
  replace (HFT_2.latest_tick_time s2) with (HFT_2.latest_tick_time s1)
    by (unfold observe_2 in H; congruence).
  destruct (HFT_2.fetch_new_ticks _ _ _) as [[| t ts] |]; try exact H.
  generalize (t :: ts). intros ticks. revert s1 s2 H.
  induction ticks as [| t' ticks IH]; intros s1 s2 H; [exact H |].
  cbn [fold_left]. apply IH, for_tick_observe_2, H.
Qed.

Lemma attempt_order_observe_2 mt5 n (s1 s2 : HFT_2.state) :
  observe_2 s1 = observe_2 s2 ->
  let r1 := HFT_2.attempt_order mt5 n s1 in
  let r2 := HFT_2.attempt_order mt5 n s2 in
  observe_2 (fst r1) = observe_2 (fst r2) /\ snd r1 = snd r2.
Proof.
  intros H. same_but_slope_2 H. unfold HFT_2.attempt_order.
  cbn [HFT_2.tick_buffer HFT_2.latest_tick_time HFT_2.files
       HFT_2.previous_slope].
  destruct (_ =? _)%nat; [| repeat split].
  destruct (HFT_2.order_signal _); [| repeat split].
  unfold HFT_2.place_market_order.
  destruct (order_send _ _) as [res |]; [| repeat split].
  destruct (_ =? _)%Z; repeat split.
Qed.

Lemma iteration_observe_2 mt5 n (s1 s2 : HFT_2.state) :
  observe_2 s1 = observe_2 s2 ->
  let r1 := HFT_2.iteration mt5 n s1 in
  let r2 := HFT_2.iteration mt5 n s2 in
  observe_2 (fst r1) = observe_2 (fst r2) /\ snd r1 = snd r2.
Proof.
  intros H. apply (fetch_and_update_observe_2 mt5) in H.
  apply (attempt_order_observe_2 mt5 n) in H.
  unfold HFT_2.iteration.
  destruct (HFT_2.attempt_order _ _ (HFT_2.fetch_and_update mt5 s1))
    as [a1 e1].
  destruct (HFT_2.attempt_order _ _ (HFT_2.fetch_and_update mt5 s2))
    as [a2 e2].
  cbn [fst snd] in H |- *. destruct H as (Ha & ->). auto.
Qed.

Lemma loop_observe_2 (mt5 : nat -> terminal) (order_nums : list nat) :
  forall s1 s2 : HFT_2.state,
  observe_2 s1 = observe_2 s2 ->
  let r1 := HFT_2.loop mt5 order_nums s1 in
  let r2 := HFT_2.loop mt5 order_nums s2 in
  observe_2 (fst r1) = observe_2 (fst r2) /\ snd r1 = snd r2.
Proof.
  induction order_nums as [| n rest IH]; intros s1 s2 H; [split; [exact H | reflexivity] |].
  cbn [HFT_2.loop].
  apply (iteration_observe_2 (mt5 n) (Z.of_nat n)) in H.
  destruct (HFT_2.iteration _ _ s1) as [a1 e1].
  destruct (HFT_2.iteration _ _ s2) as [a2 e2].
  cbn [fst snd] in H. destruct H as (Ha & ->).
  specialize (IH a1 a2 Ha).
  destruct (HFT_2.loop _ _ a1) as [b1 f1].
  destruct (HFT_2.loop _ _ a2) as [b2 f2].
  cbn [fst snd] in IH |- *. destruct IH as (Hb & ->). auto.
Qed.

(** C9. Two runs of HFT_1, or of HFT_2, that start from states equal in
    everything but [previous_slope] and get the same answers from the
    terminal, submit the same orders in the same order, end the same way and
    leave the same window, high-water mark and files (the trend written in
    every row included), over one iteration and over any number of them:
    [previous_slope] is never read. *)
Theorem previous_slope_not_read
    (symbol_info : SymbolInfo) (mt5 : nat -> terminal) (order_nums : list nat)
    (s1 s2 : HFT_1.state) (t1 t2 : HFT_2.state) :
  (observe_1 s1 = observe_1 s2 ->
   let r1 := HFT_1.loop symbol_info mt5 order_nums s1 in
   let r2 := HFT_1.loop symbol_info mt5 order_nums s2 in
   observe_1 (fst (fst r1)) = observe_1 (fst (fst r2))
   /\ snd (fst r1) = snd (fst r2) /\ snd r1 = snd r2)
  /\ (observe_2 t1 = observe_2 t2 ->
      let r1 := HFT_2.loop mt5 order_nums t1 in
      let r2 := HFT_2.loop mt5 order_nums t2 in
      observe_2 (fst r1) = observe_2 (fst r2) /\ snd r1 = snd r2).
Proof.
  split; [apply loop_observe_1 | apply loop_observe_2].
Qed.

Lemma previous_slope_not_read_witness :
  snd (fst (HFT_1.loop no_stops_level (fun _ => quiet_terminal) [1%nat]
              rising_state_1))
  = snd (fst (HFT_1.loop no_stops_level (fun _ => quiet_terminal) [1%nat]
                stale_state_1))
  /\ snd (HFT_2.loop (fun _ => quiet_terminal) [1%nat] rising_state_2)
     = snd (HFT_2.loop (fun _ => quiet_terminal) [1%nat] stale_state_2).
Proof.
  destruct (previous_slope_not_read no_stops_level (fun _ => quiet_terminal)
              [1%nat] rising_state_1 stale_state_1 rising_state_2
              stale_state_2) as [H1 H2].
  destruct (H1 eq_refl) as (_ & E1 & _).
  destruct (H2 eq_refl) as (_ & E2).
  exact (conj E1 E2).
Defined.

(** ** The CSV files *)

Lemma grew_refl (d : fs) : grew d d.
Proof. intros f rows H. exists []. rewrite app_nil_r. exact H. Qed.

Lemma grew_trans (d1 d2 d3 : fs) : grew d1 d2 -> grew d2 d3 -> grew d1 d3.
Proof.
  intros H12 H23 f rows H.
  destruct (H12 f rows H) as [m1 H1].
  destruct (H23 f _ H1) as [m2 H2].
  exists (m1 ++ m2)%list. rewrite app_assoc. exact H2.
Qed.

Lemma open_a_writerow_grew (file : string) (r : row) (d : fs) :
  grew d (open_a_writerow file r d).
Proof.
  intros f rows H. unfold open_a_writerow.
  destruct (decide (file = f)) as [-> | Hne].
  - exists [r]. rewrite lookup_insert_eq, H. reflexivity.
  - exists []. rewrite lookup_insert_ne by exact Hne.
    rewrite app_nil_r. exact H.
Qed.

(** The guarded preparation: header if absent, nothing otherwise. *)
Lemma guarded_prepare (file : string) (header : row) (d : fs) :
  let d' := if negb (path_exists file d)
            then open_w_writerow file header d else d in
  kept d d'
  /\ (d !! file = None -> d' !! file = Some [header])
  /\ (forall f, f <> file -> d' !! f = d !! f).
Proof.
  intros d'. subst d'. unfold path_exists, open_w_writerow.
  destruct (d !! file) as [rows0 |] eqn:E.
  - rewrite bool_decide_eq_true_2 by eauto. simpl.
    split; [intros f rows H; exact H |].
    split; [intros H; discriminate | reflexivity].
  - rewrite bool_decide_eq_false_2 by (intros [? ?]; discriminate). simpl.
    split; [| split].
    + intros f rows H. rewrite lookup_insert_ne; [exact H | congruence].
    + intros _. apply lookup_insert_eq.
    + intros f Hf. apply lookup_insert_ne. congruence.
Qed.

Lemma kept_trans (d1 d2 d3 : fs) : kept d1 d2 -> kept d2 d3 -> kept d1 d3.
Proof. intros H12 H23 f rows H. apply H23, H12, H. Qed.

Lemma fold_left_grew {S T : Type} (files : S -> fs) (step : S -> T -> S) :
  (forall s t, grew (files s) (files (step s t))) ->
  forall ts s, grew (files s) (files (fold_left step ts s)).
Proof.
  intros Hstep ts. induction ts as [| t ts IH]; intros s; [apply grew_refl |].
  cbn [fold_left]. eapply grew_trans; [apply Hstep | apply IH].
Qed.

Lemma iteration_grew_1 info mt5 n (s : HFT_1.state) :
  grew (HFT_1.files s) (HFT_1.files (fst (fst (HFT_1.iteration info mt5 n s)))).
Proof.
  assert (Hup : grew (HFT_1.files s) (HFT_1.files (HFT_1.fetch_and_update mt5 s))).
  { unfold HFT_1.fetch_and_update.
    destruct (HFT_1.fetch_new_ticks _ _ _) as [[| t ts] |]; try apply grew_refl.
    apply (fold_left_grew HFT_1.files). intros s' t'.
    unfold HFT_1.for_tick.
    destruct (_ <? _)%nat; apply open_a_writerow_grew. }
  eapply grew_trans; [exact Hup |].
  unfold HFT_1.iteration.
  generalize (HFT_1.fetch_and_update mt5 s). intros s1.
  assert (Hat : grew (HFT_1.files s1)
                  (HFT_1.files (fst (fst (HFT_1.attempt_order info mt5 n s1))))).
  { unfold HFT_1.attempt_order.
    destruct (_ =? _)%nat; [| apply grew_refl].
    destruct (HFT_1.order_signal _); [| apply grew_refl].
    unfold HFT_1.place_market_order.
    destruct (order_send _ _) as [res |]; [| apply grew_refl].
    destruct (_ =? _)%Z; [| apply grew_refl].
    destruct (profit res); [apply open_a_writerow_grew | apply grew_refl]. }
  destruct (HFT_1.attempt_order _ _ _ _) as [[a e] [| x]]; exact Hat.
Qed.

Lemma iteration_grew_2 mt5 n (s : HFT_2.state) :
  grew (HFT_2.files s) (HFT_2.files (fst (HFT_2.iteration mt5 n s))).
Proof.
  assert (Hup : grew (HFT_2.files s) (HFT_2.files (HFT_2.fetch_and_update mt5 s))).
  { unfold HFT_2.fetch_and_update.
    destruct (HFT_2.fetch_new_ticks _ _ _) as [[| t ts] |]; try apply grew_refl.
    apply (fold_left_grew HFT_2.files). intros s' t'.
    apply open_a_writerow_grew. }
  eapply grew_trans; [exact Hup |].
  unfold HFT_2.iteration.
  generalize (HFT_2.fetch_and_update mt5 s). intros s1.
  assert (Hat : grew (HFT_2.files s1)
                  (HFT_2.files (fst (HFT_2.attempt_order mt5 n s1)))).
  { unfold HFT_2.attempt_order.
    destruct (_ =? _)%nat; [| apply grew_refl].
    destruct (HFT_2.order_signal _); [| apply open_a_writerow_grew].
    unfold HFT_2.place_market_order.
    destruct (order_send _ _) as [res |]; [| apply open_a_writerow_grew].
    destruct (_ =? _)%Z; [| apply open_a_writerow_grew].
    eapply grew_trans; apply open_a_writerow_grew. }
  destruct (HFT_2.attempt_order _ _ _) as [a e]; exact Hat.
Qed.

Lemma iteration_grew_3 mt5 n (s : remove30_use_RawCalculatedVar.state) :
  grew (remove30_use_RawCalculatedVar.files s)
    (remove30_use_RawCalculatedVar.files
       (fst (remove30_use_RawCalculatedVar.iteration mt5 n s))).
Proof.
  assert (Hup : grew (remove30_use_RawCalculatedVar.files s)
                  (remove30_use_RawCalculatedVar.files
                     (remove30_use_RawCalculatedVar.fetch_and_update mt5 s))).
  { unfold remove30_use_RawCalculatedVar.fetch_and_update.
    destruct (remove30_use_RawCalculatedVar.fetch_new_ticks _ _ _)
      as [[| t ts] |]; try apply grew_refl.
    apply (fold_left_grew remove30_use_RawCalculatedVar.files). intros s' t'.
    apply open_a_writerow_grew. }
  eapply grew_trans; [exact Hup |].
  unfold remove30_use_RawCalculatedVar.iteration.
  generalize (remove30_use_RawCalculatedVar.fetch_and_update mt5 s).
  intros s1.
  assert (Hat : grew (remove30_use_RawCalculatedVar.files s1)
                  (remove30_use_RawCalculatedVar.files
                     (fst (remove30_use_RawCalculatedVar.attempt_order
                             mt5 n s1)))).
  { unfold remove30_use_RawCalculatedVar.attempt_order.
    destruct (_ =? _)%nat; [| apply grew_refl].
    destruct (remove30_use_RawCalculatedVar.decide_trend _) as [tr [sig |]];
      [| apply open_a_writerow_grew].
    unfold remove30_use_RawCalculatedVar.place_market_order.
    destruct (order_send _ _) as [res |]; [| apply open_a_writerow_grew].
    destruct (_ =? _)%Z; [| apply open_a_writerow_grew].
    eapply grew_trans; apply open_a_writerow_grew. }
  destruct (remove30_use_RawCalculatedVar.attempt_order _ _ _) as [a e];
    exact Hat.
Qed.

(** Three guarded preparations in a row, on three different files. *)
Lemma three_guarded_prepares (f1 f2 f3 : string) (h1 h2 h3 : row) (d : fs) :
  f1 <> f2 -> f1 <> f3 -> f2 <> f3 ->
  let prep f h (d : fs) :=
    if negb (path_exists f d) then open_w_writerow f h d else d in
  let d' := prep f3 h3 (prep f2 h2 (prep f1 h1 d)) in
  kept d d'
  /\ (forall f h, In (f, h) [(f1, h1); (f2, h2); (f3, h3)] ->
      d !! f = None -> d' !! f = Some [h])
  /\ (forall f, ~ In f [f1; f2; f3] -> d' !! f = d !! f).
Proof.
  intros H12 H13 H23 prep d'. subst d'.
  destruct (guarded_prepare f1 h1 d) as (K1 & N1 & O1).
  fold (prep f1 h1 d) in K1, N1, O1.
  destruct (guarded_prepare f2 h2 (prep f1 h1 d)) as (K2 & N2 & O2).
  fold (prep f2 h2 (prep f1 h1 d)) in K2, N2, O2.
  destruct (guarded_prepare f3 h3 (prep f2 h2 (prep f1 h1 d)))
    as (K3 & N3 & O3).
  fold (prep f3 h3 (prep f2 h2 (prep f1 h1 d))) in K3, N3, O3.
  split; [| split].
  - eapply kept_trans; [| exact K3]. eapply kept_trans; [exact K1 | exact K2].
  - intros f h Hin Hnone.
    destruct Hin as [E | [E | [E | []]]]; injection E as <- <-.
    + apply K3, K2, N1, Hnone.
    + apply K3, N2. rewrite O1 by congruence. exact Hnone.
    + apply N3. rewrite O2, O1 by congruence. exact Hnone.
  - intros f Hf. rewrite O3, O2, O1; [reflexivity | | |];
      intros ->; apply Hf; simpl; auto.
Qed.

(** C10, as stated, fails: HFT_1 finds a tick_data.csv with a tick row in
    it, and its preparation leaves the header row alone in the file. *)
Lemma hft_1_prepare_overwrites :
  path_exists HFT_1.TICK_CSV_FILE old_tick_log = true
  /\ length (default [] (old_tick_log !! HFT_1.TICK_CSV_FILE)) = 2%nat
  /\ HFT_1.prepare_tick_csv old_tick_log !! HFT_1.TICK_CSV_FILE
     = Some [HFT_1.tick_csv_header]
  /\ ~ kept old_tick_log (HFT_1.initialize_csvs old_tick_log).
Proof.
  split; [reflexivity |]. split; [reflexivity |]. split; [reflexivity |].
  intros K.
  specialize (K HFT_1.TICK_CSV_FILE _ eq_refl).
  discriminate K.
Qed.

(** C10, amended.  In HFT_2 and in remove30_use_RawCalculatedVar the
    start-up preparation keeps every file that exists as it is, gives each
    of the three CSV files that is absent its header row, and touches no
    other file.  In HFT_1 the preparation leaves tick_data.csv and
    order_data.csv with their header row only, whatever they held.  In the
    three scripts every file only grows during an iteration: rows are added
    at the end. *)
Theorem csv_logs_after_startup (d : fs) :
  (kept d (HFT_2.initialize_csvs d)
   /\ (forall f h,
       In (f, h) [(HFT_2.RAW_TICK_CSV, HFT_2.raw_tick_csv_header);
                  (HFT_2.TICK_CSV, HFT_2.tick_csv_header);
                  (HFT_2.ORDER_CSV, HFT_2.order_csv_header)] ->
       d !! f = None -> HFT_2.initialize_csvs d !! f = Some [h])
   /\ (forall f,
       ~ In f [HFT_2.RAW_TICK_CSV; HFT_2.TICK_CSV; HFT_2.ORDER_CSV] ->
       HFT_2.initialize_csvs d !! f = d !! f))
  /\ (kept d (remove30_use_RawCalculatedVar.initialize_csvs d)
      /\ (forall f h,
          In (f, h)
            [(remove30_use_RawCalculatedVar.RAW_TICK_CSV,
              remove30_use_RawCalculatedVar.raw_tick_csv_header);
             (remove30_use_RawCalculatedVar.TICK_CSV,
              remove30_use_RawCalculatedVar.tick_csv_header);
             (remove30_use_RawCalculatedVar.ORDER_CSV,
              remove30_use_RawCalculatedVar.order_csv_header)] ->
          d !! f = None ->
          remove30_use_RawCalculatedVar.initialize_csvs d !! f = Some [h])
      /\ (forall f,
          ~ In f [remove30_use_RawCalculatedVar.RAW_TICK_CSV;
                  remove30_use_RawCalculatedVar.TICK_CSV;
                  remove30_use_RawCalculatedVar.ORDER_CSV] ->
          remove30_use_RawCalculatedVar.initialize_csvs d !! f = d !! f))
  /\ (HFT_1.initialize_csvs d !! HFT_1.TICK_CSV_FILE
      = Some [HFT_1.tick_csv_header]
      /\ HFT_1.initialize_csvs d !! HFT_1.ORDER_CSV_FILE
         = Some [HFT_1.order_csv_header]
      /\ (forall f, ~ In f [HFT_1.TICK_CSV_FILE; HFT_1.ORDER_CSV_FILE] ->
          HFT_1.initialize_csvs d !! f = d !! f))
  /\ (forall symbol_info mt5 n (s : HFT_1.state),
      grew (HFT_1.files s)
        (HFT_1.files (fst (fst (HFT_1.iteration symbol_info mt5 n s)))))
  /\ (forall mt5 n (s : HFT_2.state),
      grew (HFT_2.files s) (HFT_2.files (fst (HFT_2.iteration mt5 n s))))
  /\ (forall mt5 n (s : remove30_use_RawCalculatedVar.state),
      grew (remove30_use_RawCalculatedVar.files s)
        (remove30_use_RawCalculatedVar.files
           (fst (remove30_use_RawCalculatedVar.iteration mt5 n s)))).
Proof.
  split; [| split; [| split; [| split; [| split]]]].
  - apply (three_guarded_prepares HFT_2.RAW_TICK_CSV HFT_2.TICK_CSV
             HFT_2.ORDER_CSV); discriminate.
  - apply (three_guarded_prepares remove30_use_RawCalculatedVar.RAW_TICK_CSV
             remove30_use_RawCalculatedVar.TICK_CSV
             remove30_use_RawCalculatedVar.ORDER_CSV); discriminate.
  - unfold HFT_1.initialize_csvs, HFT_1.prepare_order_csv,
      HFT_1.prepare_tick_csv, open_w_writerow.
    split; [| split].
    + rewrite lookup_insert_ne by discriminate. apply lookup_insert_eq.
    + apply lookup_insert_eq.
    + intros f Hf. rewrite !lookup_insert_ne; [reflexivity | |];
        intros <-; apply Hf; simpl; auto.
  - intros. apply iteration_grew_1.
  - intros. apply iteration_grew_2.
  - intros. apply iteration_grew_3.
Qed.

Lemma csv_logs_after_startup_witness :
  HFT_2.initialize_csvs old_tick_log !! HFT_2.TICK_CSV
  = old_tick_log !! HFT_2.TICK_CSV
  /\ HFT_2.initialize_csvs old_tick_log !! HFT_2.ORDER_CSV
     = Some [HFT_2.order_csv_header].
Proof.
  destruct (csv_logs_after_startup old_tick_log) as ((K & N & _) & _).
  split.
  - exact (K HFT_2.TICK_CSV _ eq_refl).
  - apply (N HFT_2.ORDER_CSV HFT_2.order_csv_header).
    + right. right. left. reflexivity.
    + reflexivity.
Defined.

(** * Further properties *)

(** ** The length of the window *)

Lemma extend_length (N : nat) (d xs : list R) :
  (length d <= N)%nat ->
  length (Deque.extend N d xs) = Nat.min N (length d + length xs).
Proof.
  intros Hd. rewrite extend_spec by exact Hd.
  rewrite length_drop, length_app. lia.
Qed.

Lemma fetch_and_update_buffer_1 (mt5 : terminal) (s : HFT_1.state) :
  HFT_1.tick_buffer (HFT_1.fetch_and_update mt5 s)
  = Deque.extend HFT_1.TICK_BUFFER_SIZE (HFT_1.tick_buffer s)
      (map tick_price
         (fetched (HFT_1.fetch_new_ticks mt5 HFT_1.SYMBOL
                     (HFT_1.latest_tick_time s)))).
Proof.
  unfold HFT_1.fetch_and_update.
  destruct (HFT_1.fetch_new_ticks _ _ _) as [[| t ts] |]; try reflexivity.
  apply for_tick_buffer_1.
Qed.

Lemma fetch_and_update_buffer_2 (mt5 : terminal) (s : HFT_2.state) :
  HFT_2.tick_buffer (HFT_2.fetch_and_update mt5 s)
  = Deque.extend HFT_2.TICK_BUFFER_SIZE (HFT_2.tick_buffer s)
      (map tick_price
         (fetched (HFT_2.fetch_new_ticks mt5 HFT_2.SYMBOL
                     (HFT_2.latest_tick_time s)))).
Proof.
  unfold HFT_2.fetch_and_update.
  destruct (HFT_2.fetch_new_ticks _ _ _) as [[| t ts] |]; try reflexivity.
  apply for_tick_buffer_2.
Qed.

Lemma fetch_and_update_buffer_3
    (mt5 : terminal) (s : remove30_use_RawCalculatedVar.state) :
  remove30_use_RawCalculatedVar.tick_buffer
    (remove30_use_RawCalculatedVar.fetch_and_update mt5 s)
  = Deque.extend remove30_use_RawCalculatedVar.TICK_BUFFER_SIZE
      (remove30_use_RawCalculatedVar.tick_buffer s)
      (map tick_price
         (fetched (remove30_use_RawCalculatedVar.fetch_new_ticks mt5
                     remove30_use_RawCalculatedVar.SYMBOL
                     (remove30_use_RawCalculatedVar.latest_tick_time s)))).
Proof.
  unfold remove30_use_RawCalculatedVar.fetch_and_update.
  destruct (remove30_use_RawCalculatedVar.fetch_new_ticks _ _ _)
    as [[| t ts] |]; try reflexivity.
  apply for_tick_buffer_3.
Qed.

(** X1. A window of capacity [N] that held [k <= N] prices holds
    [min N (k + m)] after [m] pushes: it fills up and then stays full.  So
    does the buffer of each script over the update step of an iteration,
    [m] being the number of ticks fetched. *)
Theorem window_length
    (N : nat) (d xs : list R) (mt5 : terminal)
    (s1 : HFT_1.state) (s2 : HFT_2.state)
    (s3 : remove30_use_RawCalculatedVar.state) :
  ((length d <= N)%nat ->
   length (Deque.extend N d xs) = Nat.min N (length d + length xs))
  /\ ((length (HFT_1.tick_buffer s1) <= 30)%nat ->
      length (HFT_1.tick_buffer (HFT_1.fetch_and_update mt5 s1))
      = Nat.min 30
          (length (HFT_1.tick_buffer s1)
           + length (fetched (HFT_1.fetch_new_ticks mt5 HFT_1.SYMBOL
                                (HFT_1.latest_tick_time s1)))))
  /\ ((length (HFT_2.tick_buffer s2) <= 30)%nat ->
      length (HFT_2.tick_buffer (HFT_2.fetch_and_update mt5 s2))
      = Nat.min 30
          (length (HFT_2.tick_buffer s2)
           + length (fetched (HFT_2.fetch_new_ticks mt5 HFT_2.SYMBOL
                                (HFT_2.latest_tick_time s2)))))
  /\ ((length (remove30_use_RawCalculatedVar.tick_buffer s3) <= 500)%nat ->
      length (remove30_use_RawCalculatedVar.tick_buffer
                (remove30_use_RawCalculatedVar.fetch_and_update mt5 s3))
      = Nat.min 500
          (length (remove30_use_RawCalculatedVar.tick_buffer s3)
           + length (fetched
                       (remove30_use_RawCalculatedVar.fetch_new_ticks mt5
                          remove30_use_RawCalculatedVar.SYMBOL
                          (remove30_use_RawCalculatedVar.latest_tick_time
                             s3))))).
Proof.
  split; [apply extend_length |].
  split; [| split]; intros H.
  - rewrite fetch_and_update_buffer_1, extend_length by exact H.
    rewrite length_map. reflexivity.
  - rewrite fetch_and_update_buffer_2, extend_length by exact H.
    rewrite length_map. reflexivity.
  - rewrite fetch_and_update_buffer_3, extend_length by exact H.
    rewrite length_map. reflexivity.
Qed.

Lemma window_length_witness :
  length (Deque.extend 3 [1; 2]%R [3; 4; 5]%R) = 3%nat
  /\ length (HFT_2.tick_buffer
               (HFT_2.fetch_and_update (feeding_terminal two_ticks)
                  rising_state_2)) = 30%nat.
Proof.
  destruct (window_length 3 [1; 2] [3; 4; 5] (feeding_terminal two_ticks)
              rising_state_1 rising_state_2 rising_state_3)
    as (H1 & _ & H2 & _).
  split.
  - apply H1. simpl. lia.
  - rewrite H2.
    + change (HFT_2.tick_buffer rising_state_2) with (rising 30 100 1).
      rewrite length_rising. reflexivity.
    + change (HFT_2.tick_buffer rising_state_2) with (rising 30 100 1).
      rewrite length_rising. lia.
Defined.

(** ** The high-water mark *)

Lemma advance_cases (l : datetime) (t : tick) :
  (l < fromtimestamp (time t) /\ advance l t = fromtimestamp (time t) + 1)%Z
  \/ (fromtimestamp (time t) <= l /\ advance l t = l)%Z.
Proof.
  unfold advance, timedelta_microseconds.
  destruct (Z.ltb_spec l (fromtimestamp (time t))); [left | right]; lia.
Qed.

Lemma fromtimestamp_whole_second (secs : Z) :
  (fromtimestamp secs mod 1000000 = 0)%Z.
Proof. unfold fromtimestamp. apply Z_mod_mult. Qed.

Lemma advance_fold (ticks : list tick) :
  forall l : datetime,
  (l <= fold_left advance ticks l)%Z
  /\ (forall t, In t ticks ->
      (fromtimestamp (time t) <= fold_left advance ticks l)%Z)
  /\ (fold_left advance ticks l = l
      \/ exists t, In t ticks
                   /\ fold_left advance ticks l
                      = (fromtimestamp (time t) + 1)%Z)
  /\ ((forall t, In t ticks -> (fromtimestamp (time t) <= l)%Z) ->
      fold_left advance ticks l = l).
Proof.
  induction ticks as [| t ticks IH]; intros l.
  - simpl. split; [lia |]. split; [intros t [] |].
    split; [left; reflexivity | reflexivity].
  - cbn [fold_left].
    destruct (IH (advance l t)) as (Hle & Hbelow & Hval & Hsame).
    pose proof (advance_cases l t) as Hstep.
    split; [lia |]. split; [| split].
    + intros t' [<- | Hin]; [lia | apply Hbelow, Hin].
    + destruct Hval as [E | (t' & Hin & E)].
      * destruct Hstep as [[_ H] | [_ H]].
        -- right. exists t. split; [left; reflexivity | congruence].
        -- left. congruence.
      * right. exists t'. split; [right; exact Hin | exact E].
    + intros Hold.
      assert (E : advance l t = l)
        by (specialize (Hold t (or_introl eq_refl)); lia).
      rewrite E in Hsame |- *. apply Hsame.
      intros t' Hin. apply Hold. right. exact Hin.
Qed.

Lemma advance_fold_strict (ticks : list tick) :
  forall l : datetime,
  (l mod 1000000 <> 0)%Z ->
  (fold_left advance ticks l mod 1000000 <> 0)%Z
  /\ (forall t, In t ticks ->
      (fromtimestamp (time t) < fold_left advance ticks l)%Z).
Proof.
  induction ticks as [| t ticks IH]; intros l Hl.
  - simpl. split; [exact Hl | intros t []].
  - cbn [fold_left].
    pose proof (advance_cases l t) as Hstep.
    pose proof (fromtimestamp_whole_second (time t)) as Hsec.
    assert (Hl' : (advance l t mod 1000000 <> 0)%Z).
    { destruct Hstep as [[_ ->] | [_ ->]]; [| exact Hl].
      rewrite Z.add_mod, Hsec by lia. discriminate. }
    destruct (IH (advance l t) Hl') as [Hmod Hlt].
    split; [exact Hmod |].
    intros t' [<- | Hin]; [| apply Hlt, Hin].
    destruct (advance_fold ticks (advance l t)) as (Hle & _).
    assert (Hne : fromtimestamp (time t) <> l) by congruence.
    lia.
Qed.

Lemma for_tick_latest_1 (ticks : list tick) :
  forall s : HFT_1.state,
  HFT_1.latest_tick_time (fold_left HFT_1.for_tick ticks s)
  = fold_left advance ticks (HFT_1.latest_tick_time s).
Proof.
  induction ticks as [| t ticks IH]; intros s; [reflexivity |].
  cbn [fold_left]. rewrite IH. f_equal.
  unfold HFT_1.for_tick. destruct (_ <? _)%nat; reflexivity.
Qed.

Lemma for_tick_latest_2 (ticks : list tick) :
  forall s : HFT_2.state,
  HFT_2.latest_tick_time (fold_left HFT_2.for_tick ticks s)
  = fold_left advance ticks (HFT_2.latest_tick_time s).
Proof.
  induction ticks as [| t ticks IH]; intros s; [reflexivity |].
  cbn [fold_left]. rewrite IH. reflexivity.
Qed.

Lemma for_tick_latest_3 (ticks : list tick) :
  forall s : remove30_use_RawCalculatedVar.state,
  remove30_use_RawCalculatedVar.latest_tick_time
    (fold_left remove30_use_RawCalculatedVar.for_tick ticks s)
  = fold_left advance ticks (remove30_use_RawCalculatedVar.latest_tick_time s).
Proof.
  induction ticks as [| t ticks IH]; intros s; [reflexivity |].
  cbn [fold_left]. rewrite IH. reflexivity.
Qed.

Lemma fetch_and_update_latest_1 (mt5 : terminal) (s : HFT_1.state) :
  HFT_1.latest_tick_time (HFT_1.fetch_and_update mt5 s)
  = fold_left advance
      (fetched (HFT_1.fetch_new_ticks mt5 HFT_1.SYMBOL
                  (HFT_1.latest_tick_time s)))
      (HFT_1.latest_tick_time s).
Proof.
  unfold HFT_1.fetch_and_update.
  destruct (HFT_1.fetch_new_ticks _ _ _) as [[| t ts] |]; try reflexivity.
  apply for_tick_latest_1.
Qed.

Lemma fetch_and_update_latest_2 (mt5 : terminal) (s : HFT_2.state) :
  HFT_2.latest_tick_time (HFT_2.fetch_and_update mt5 s)
  = fold_left advance
      (fetched (HFT_2.fetch_new_ticks mt5 HFT_2.SYMBOL
                  (HFT_2.latest_tick_time s)))
      (HFT_2.latest_tick_time s).
Proof.
  unfold HFT_2.fetch_and_update.
  destruct (HFT_2.fetch_new_ticks _ _ _) as [[| t ts] |]; try reflexivity.
  apply for_tick_latest_2.
Qed.

Lemma fetch_and_update_latest_3
    (mt5 : terminal) (s : remove30_use_RawCalculatedVar.state) :
  remove30_use_RawCalculatedVar.latest_tick_time
    (remove30_use_RawCalculatedVar.fetch_and_update mt5 s)
  = fold_left advance
      (fetched (remove30_use_RawCalculatedVar.fetch_new_ticks mt5
                  remove30_use_RawCalculatedVar.SYMBOL
                  (remove30_use_RawCalculatedVar.latest_tick_time s)))
      (remove30_use_RawCalculatedVar.latest_tick_time s).
Proof.
  unfold remove30_use_RawCalculatedVar.fetch_and_update.
  destruct (remove30_use_RawCalculatedVar.fetch_new_ticks _ _ _)
    as [[| t ts] |]; try reflexivity.
  apply for_tick_latest_3.
Qed.

Lemma advance_fold_mark (ticks : list tick) (l : datetime) :
  mark_advanced l ticks (fold_left advance ticks l).
Proof.
  destruct (advance_fold ticks l) as (H1 & H2 & H3 & H4).
  repeat (split; [assumption |]).
  apply advance_fold_strict.
Qed.

(** X2. Over the update step of an iteration, in each script, the
    high-water mark never moves back, no fetched tick is later than the new
    mark, the new mark is the old one or one microsecond past a fetched
    tick, and it stays put when no fetched tick is later than the old mark.
    When the old mark is not on a whole second, the new one is not either
    and every fetched tick is strictly earlier than it. *)
Theorem high_water_mark
    (mt5 : terminal) (s1 : HFT_1.state) (s2 : HFT_2.state)
    (s3 : remove30_use_RawCalculatedVar.state) :
  mark_advanced (HFT_1.latest_tick_time s1)
    (fetched (HFT_1.fetch_new_ticks mt5 HFT_1.SYMBOL
                (HFT_1.latest_tick_time s1)))
    (HFT_1.latest_tick_time (HFT_1.fetch_and_update mt5 s1))
  /\ mark_advanced (HFT_2.latest_tick_time s2)
       (fetched (HFT_2.fetch_new_ticks mt5 HFT_2.SYMBOL
                   (HFT_2.latest_tick_time s2)))
       (HFT_2.latest_tick_time (HFT_2.fetch_and_update mt5 s2))
  /\ mark_advanced (remove30_use_RawCalculatedVar.latest_tick_time s3)
       (fetched (remove30_use_RawCalculatedVar.fetch_new_ticks mt5
                   remove30_use_RawCalculatedVar.SYMBOL
                   (remove30_use_RawCalculatedVar.latest_tick_time s3)))
       (remove30_use_RawCalculatedVar.latest_tick_time
          (remove30_use_RawCalculatedVar.fetch_and_update mt5 s3)).
Proof.
  rewrite fetch_and_update_latest_1, fetch_and_update_latest_2,
    fetch_and_update_latest_3.
  split; [| split]; apply advance_fold_mark.
Qed.

Lemma high_water_mark_witness :
  let s := initial_2 1699999999999999 ∅ in
  let s' := HFT_2.fetch_and_update (feeding_terminal two_ticks) s in
  (HFT_2.latest_tick_time s' mod 1000000 <> 0)%Z
  /\ forall t, In t two_ticks ->
       (fromtimestamp (time t) < HFT_2.latest_tick_time s')%Z.
Proof.
  intros s s'.
  destruct (high_water_mark (feeding_terminal two_ticks)
              (initial_1 0 ∅) s (initial_3 0 ∅))
    as (_ & (_ & _ & _ & _ & Hstrict) & _).
  apply Hstrict. vm_compute. discriminate.
Defined.

(** ** The tick logs *)

Lemma rows_open_a_writerow (file f : string) (r : row) (d : fs) :
  rows (open_a_writerow file r d) f
  = (rows d f ++ if decide (file = f) then [r] else [])%list.
Proof.
  unfold rows, open_a_writerow.
  destruct (decide (file = f)) as [-> | Hne].
  - rewrite lookup_insert_eq. reflexivity.
  - rewrite lookup_insert_ne by exact Hne. rewrite app_nil_r. reflexivity.
Qed.

Lemma lookup_open_a_writerow_ne (file f : string) (r : row) (d : fs) :
  file <> f -> open_a_writerow file r d !! f = d !! f.
Proof. intros H. unfold open_a_writerow. apply lookup_insert_ne, H. Qed.

Lemma for_tick_rows_2 (ticks : list tick) :
  forall s : HFT_2.state,
  rows (HFT_2.files (fold_left HFT_2.for_tick ticks s)) HFT_2.RAW_TICK_CSV
  = (rows (HFT_2.files s) HFT_2.RAW_TICK_CSV
     ++ map (raw_tick_row HFT_2.SYMBOL) ticks)%list
  /\ forall f, f <> HFT_2.RAW_TICK_CSV ->
       HFT_2.files (fold_left HFT_2.for_tick ticks s) !! f
       = HFT_2.files s !! f.
Proof.
  induction ticks as [| t ticks IH]; intros s.
  - simpl. rewrite app_nil_r. split; reflexivity.
  - cbn [fold_left map]. destruct (IH (HFT_2.for_tick s t)) as [Hr Hf].
    split.
    + rewrite Hr. unfold HFT_2.for_tick at 1. cbn [HFT_2.files].
      unfold HFT_2.append_raw_tick_csv_row.
      rewrite rows_open_a_writerow, decide_True by reflexivity.
      rewrite <- app_assoc. reflexivity.
    + intros f Hne. rewrite Hf by exact Hne.
      apply lookup_open_a_writerow_ne. congruence.
Qed.

Lemma for_tick_rows_3 (ticks : list tick) :
  forall s : remove30_use_RawCalculatedVar.state,
  rows (remove30_use_RawCalculatedVar.files
          (fold_left remove30_use_RawCalculatedVar.for_tick ticks s))
    remove30_use_RawCalculatedVar.RAW_TICK_CSV
  = (rows (remove30_use_RawCalculatedVar.files s)
       remove30_use_RawCalculatedVar.RAW_TICK_CSV
     ++ map (raw_tick_row remove30_use_RawCalculatedVar.SYMBOL) ticks)%list
  /\ forall f, f <> remove30_use_RawCalculatedVar.RAW_TICK_CSV ->
       remove30_use_RawCalculatedVar.files
         (fold_left remove30_use_RawCalculatedVar.for_tick ticks s) !! f
       = remove30_use_RawCalculatedVar.files s !! f.
Proof.
  induction ticks as [| t ticks IH]; intros s.
  - simpl. rewrite app_nil_r. split; reflexivity.
  - cbn [fold_left map].
    destruct (IH (remove30_use_RawCalculatedVar.for_tick s t)) as [Hr Hf].
    split.
    + rewrite Hr. unfold remove30_use_RawCalculatedVar.for_tick at 1.
      cbn [remove30_use_RawCalculatedVar.files].
      unfold remove30_use_RawCalculatedVar.append_raw_tick_csv_row.
      rewrite rows_open_a_writerow, decide_True by reflexivity.
      rewrite <- app_assoc. reflexivity.
    + intros f Hne. rewrite Hf by exact Hne.
      apply lookup_open_a_writerow_ne. congruence.
Qed.

Lemma fetch_and_update_rows_2 (mt5 : terminal) (s : HFT_2.state) :
  let ticks := fetched (HFT_2.fetch_new_ticks mt5 HFT_2.SYMBOL
                          (HFT_2.latest_tick_time s)) in
  let s' := HFT_2.fetch_and_update mt5 s in
  rows (HFT_2.files s') HFT_2.RAW_TICK_CSV
  = (rows (HFT_2.files s) HFT_2.RAW_TICK_CSV
     ++ map (raw_tick_row HFT_2.SYMBOL) ticks)%list
  /\ forall f, f <> HFT_2.RAW_TICK_CSV ->
       HFT_2.files s' !! f = HFT_2.files s !! f.
Proof.
  unfold HFT_2.fetch_and_update.
  destruct (HFT_2.fetch_new_ticks _ _ _) as [[| t ts] |]; cbn [fetched default].
  - cbn [map]. rewrite app_nil_r. split; reflexivity.
  - apply for_tick_rows_2.
  - cbn [map]. rewrite app_nil_r. split; reflexivity.
Qed.

Lemma fetch_and_update_rows_3
    (mt5 : terminal) (s : remove30_use_RawCalculatedVar.state) :
  let ticks :=
    fetched (remove30_use_RawCalculatedVar.fetch_new_ticks mt5
               remove30_use_RawCalculatedVar.SYMBOL
               (remove30_use_RawCalculatedVar.latest_tick_time s)) in
  let s' := remove30_use_RawCalculatedVar.fetch_and_update mt5 s in
  rows (remove30_use_RawCalculatedVar.files s')
    remove30_use_RawCalculatedVar.RAW_TICK_CSV
  = (rows (remove30_use_RawCalculatedVar.files s)
       remove30_use_RawCalculatedVar.RAW_TICK_CSV
     ++ map (raw_tick_row remove30_use_RawCalculatedVar.SYMBOL) ticks)%list
  /\ forall f, f <> remove30_use_RawCalculatedVar.RAW_TICK_CSV ->
       remove30_use_RawCalculatedVar.files s' !! f
       = remove30_use_RawCalculatedVar.files s !! f.
Proof.
  unfold remove30_use_RawCalculatedVar.fetch_and_update.
  destruct (remove30_use_RawCalculatedVar.fetch_new_ticks _ _ _)
    as [[| t ts] |]; cbn [fetched default].
  - cbn [map]. rewrite app_nil_r. split; reflexivity.
  - apply for_tick_rows_3.
  - cbn [map]. rewrite app_nil_r. split; reflexivity.
Qed.

(** X3. In HFT_2 and in remove30_use_RawCalculatedVar the update step of
    an iteration adds to raw_tick_data.csv one row per fetched tick, in the
    order fetched, each with the date and time of the tick, the symbol and
    the price pushed into the window (the last price, or the mid price when
    the last price is not positive); it changes no other file. *)
Theorem raw_tick_log
    (mt5 : terminal) (s2 : HFT_2.state)
    (s3 : remove30_use_RawCalculatedVar.state) :
  (let ticks := fetched (HFT_2.fetch_new_ticks mt5 HFT_2.SYMBOL
                           (HFT_2.latest_tick_time s2)) in
   let s' := HFT_2.fetch_and_update mt5 s2 in
   rows (HFT_2.files s') "raw_tick_data.csv"
   = (rows (HFT_2.files s2) "raw_tick_data.csv"
      ++ map (raw_tick_row "BTCUSD") ticks)%list
   /\ forall f, f <> "raw_tick_data.csv"%string ->
        HFT_2.files s' !! f = HFT_2.files s2 !! f)
  /\ (let ticks :=
        fetched (remove30_use_RawCalculatedVar.fetch_new_ticks mt5
                   remove30_use_RawCalculatedVar.SYMBOL
                   (remove30_use_RawCalculatedVar.latest_tick_time s3)) in
      let s' := remove30_use_RawCalculatedVar.fetch_and_update mt5 s3 in
      rows (remove30_use_RawCalculatedVar.files s') "raw_tick_data.csv"
      = (rows (remove30_use_RawCalculatedVar.files s3) "raw_tick_data.csv"
         ++ map (raw_tick_row "XAUUSD.sml") ticks)%list
      /\ forall f, f <> "raw_tick_data.csv"%string ->
           remove30_use_RawCalculatedVar.files s' !! f
           = remove30_use_RawCalculatedVar.files s3 !! f).
Proof.
  split; [apply fetch_and_update_rows_2 | apply fetch_and_update_rows_3].
Qed.

Lemma raw_tick_log_witness :
  HFT_2.files (HFT_2.fetch_and_update (feeding_terminal two_ticks)
                 rising_state_2) !! "tick_data.csv"
  = HFT_2.files rising_state_2 !! "tick_data.csv".
Proof.
  destruct (raw_tick_log (feeding_terminal two_ticks) rising_state_2
              rising_state_3) as ((_ & H) & _).
  apply H. discriminate.
Defined.

Lemma append_length_min (N : nat) (d : list R) (x : R) :
  (length d <= N)%nat ->
  length (Deque.append N d x) = Nat.min N (length d + 1).
Proof.
  intros H. exact (extend_length N d [x] H).
Qed.

Lemma for_tick_unfold_1 (s : HFT_1.state) (t : tick) :
  let w := Deque.append HFT_1.TICK_BUFFER_SIZE (HFT_1.tick_buffer s)
             (tick_price t) in
  let slope := Np.linregress_slope (Np.range HFT_1.TICK_BUFFER_SIZE) w in
  HFT_1.for_tick s t
  = {| HFT_1.tick_buffer := w;
       HFT_1.previous_slope := HFT_1.previous_slope s;
       HFT_1.latest_tick_time := advance (HFT_1.latest_tick_time s) t;
       HFT_1.files :=
         open_a_writerow HFT_1.TICK_CSV_FILE
           (raw_tick_row HFT_1.SYMBOL t
            ++ if (length w <? HFT_1.TICK_BUFFER_SIZE)%nat
               then not_available
               else [Fixed 6 (Np.var w); Fixed 6 slope;
                     Lit (HFT_1.trend_str slope)])
           (HFT_1.files s) |}.
Proof.
  intros w slope. subst w slope.
  unfold HFT_1.for_tick, tick_price, advance, HFT_1.append_tick_csv_row,
    raw_tick_row.
  destruct (_ <? _)%nat; reflexivity.
Qed.

Lemma for_tick_rows_1 (ticks : list tick) :
  forall s : HFT_1.state,
  (length (HFT_1.tick_buffer s) <= HFT_1.TICK_BUFFER_SIZE)%nat ->
  exists rs : list row,
    rows (HFT_1.files (fold_left HFT_1.for_tick ticks s)) HFT_1.TICK_CSV_FILE
    = (rows (HFT_1.files s) HFT_1.TICK_CSV_FILE ++ rs)%list
    /\ length rs = length ticks
    /\ (forall f, f <> HFT_1.TICK_CSV_FILE ->
        HFT_1.files (fold_left HFT_1.for_tick ticks s) !! f
        = HFT_1.files s !! f)
    /\ forall (i : nat) (t : tick), ticks !! i = Some t ->
       let w := window_after HFT_1.TICK_BUFFER_SIZE (HFT_1.tick_buffer s)
                  ticks i in
       let slope := Np.linregress_slope (Np.range HFT_1.TICK_BUFFER_SIZE) w in
       rs !! i
       = Some (raw_tick_row HFT_1.SYMBOL t
               ++ if (length (HFT_1.tick_buffer s) + S i
                      <? HFT_1.TICK_BUFFER_SIZE)%nat
                  then not_available
                  else [Fixed 6 (Np.var w); Fixed 6 slope;
                        Lit (HFT_1.trend_str slope)])%list.
Proof.
  induction ticks as [| t ticks IH]; intros s Hs.
  - exists []. simpl. rewrite app_nil_r.
    repeat split; try reflexivity. intros i t H. discriminate H.
  - cbn [fold_left].
    assert (Hlen : length (HFT_1.tick_buffer (HFT_1.for_tick s t))
                   = Nat.min HFT_1.TICK_BUFFER_SIZE
                       (length (HFT_1.tick_buffer s) + 1)).
    { rewrite <- (append_length_min _ _ (tick_price t)) by exact Hs.
      unfold HFT_1.for_tick. destruct (_ <? _)%nat; reflexivity. }
    assert (Hbuf : HFT_1.tick_buffer (HFT_1.for_tick s t)
                   = Deque.append HFT_1.TICK_BUFFER_SIZE (HFT_1.tick_buffer s)
                       (tick_price t)).
    { unfold HFT_1.for_tick. destruct (_ <? _)%nat; reflexivity. }
    destruct (IH (HFT_1.for_tick s t)) as (rs & Hrows & Hn & Hframe & Hrow).
    { rewrite Hlen. lia. }
    set (w0 := Deque.append HFT_1.TICK_BUFFER_SIZE (HFT_1.tick_buffer s)
                 (tick_price t)) in *.
    set (slope0 := Np.linregress_slope (Np.range HFT_1.TICK_BUFFER_SIZE) w0).
    set (row0 := (raw_tick_row HFT_1.SYMBOL t
                  ++ if (length (HFT_1.tick_buffer s) + 1
                         <? HFT_1.TICK_BUFFER_SIZE)%nat
                     then not_available
                     else [Fixed 6 (Np.var w0); Fixed 6 slope0;
                           Lit (HFT_1.trend_str slope0)])%list).
    assert (Hcond : (length w0 <? HFT_1.TICK_BUFFER_SIZE)%nat
                    = (length (HFT_1.tick_buffer s) + 1
                       <? HFT_1.TICK_BUFFER_SIZE)%nat).
    { rewrite <- Hbuf, Hlen.
      destruct (Nat.ltb_spec (length (HFT_1.tick_buffer s) + 1)
                  HFT_1.TICK_BUFFER_SIZE);
        destruct (Nat.ltb_spec
                    (Nat.min HFT_1.TICK_BUFFER_SIZE
                       (length (HFT_1.tick_buffer s) + 1))
                    HFT_1.TICK_BUFFER_SIZE); try reflexivity; lia. }
    assert (Hfiles : HFT_1.files (HFT_1.for_tick s t)
                     = open_a_writerow HFT_1.TICK_CSV_FILE row0 (HFT_1.files s)).
    { rewrite for_tick_unfold_1. cbn [HFT_1.files]. fold w0. fold slope0.
      rewrite Hcond. reflexivity. }
    exists (row0 :: rs). split; [| split; [| split]].
    + rewrite Hrows, Hfiles, rows_open_a_writerow, decide_True by reflexivity.
      rewrite <- app_assoc. reflexivity.
    + simpl. rewrite Hn. reflexivity.
    + intros f Hne. rewrite Hframe by exact Hne. rewrite Hfiles.
      apply lookup_open_a_writerow_ne. congruence.
    + intros [| i] t' Hi.
      * cbn in Hi. injection Hi as <-.
        change ((row0 :: rs) !! 0%nat) with (Some row0).
        unfold window_after. cbn [take map]. unfold Deque.extend.
        cbn [fold_left]. fold w0. fold slope0.
        replace (length (HFT_1.tick_buffer s) + 1)%nat
          with (length (HFT_1.tick_buffer s) + 1)%nat in * by reflexivity.
        subst row0. reflexivity.
      * cbn in Hi.
        change ((row0 :: rs) !! S i) with (rs !! i).
        rewrite (Hrow i t' Hi). cbv zeta.
        rewrite Hbuf. fold w0.
        replace (window_after HFT_1.TICK_BUFFER_SIZE (HFT_1.tick_buffer s)
                   (t :: ticks) (S i))
          with (window_after HFT_1.TICK_BUFFER_SIZE w0 ticks i)
          by reflexivity.
        replace (length w0 + S i <? HFT_1.TICK_BUFFER_SIZE)%nat
          with (length (HFT_1.tick_buffer s) + S (S i)
                <? HFT_1.TICK_BUFFER_SIZE)%nat; [reflexivity |].
        rewrite <- Hbuf, Hlen.
        destruct (Nat.ltb_spec (length (HFT_1.tick_buffer s) + S (S i))
                    HFT_1.TICK_BUFFER_SIZE);
          destruct (Nat.ltb_spec
                      (Nat.min HFT_1.TICK_BUFFER_SIZE
                         (length (HFT_1.tick_buffer s) + 1) + S i)
                      HFT_1.TICK_BUFFER_SIZE); try reflexivity; lia.
Qed.

(** X4. In HFT_1 the update step of an iteration adds to tick_data.csv one
    row per fetched tick, in the order fetched, and changes no other file.
    Each row starts with the date, time, symbol and price of its tick.  When
    the window held [k] prices before the step, the row of the tick at
    position [i] (from 0) ends with three N/A cells if [k + i + 1 < 30], and
    otherwise with the variance, the slope and the trend of the window as it
    is after that tick was pushed. *)
Theorem tick_log_1 (mt5 : terminal) (s : HFT_1.state) :
  (length (HFT_1.tick_buffer s) <= 30)%nat ->
  let ticks := fetched (HFT_1.fetch_new_ticks mt5 HFT_1.SYMBOL
                          (HFT_1.latest_tick_time s)) in
  let s' := HFT_1.fetch_and_update mt5 s in
  exists rs : list row,
    rows (HFT_1.files s') "tick_data.csv"
    = (rows (HFT_1.files s) "tick_data.csv" ++ rs)%list
    /\ length rs = length ticks
    /\ (forall f, f <> "tick_data.csv"%string ->
        HFT_1.files s' !! f = HFT_1.files s !! f)
    /\ forall (i : nat) (t : tick), ticks !! i = Some t ->
       let w := window_after 30 (HFT_1.tick_buffer s) ticks i in
       let slope := Np.linregress_slope (Np.range 30) w in
       rs !! i
       = Some (raw_tick_row "BTCUSD" t
               ++ if (length (HFT_1.tick_buffer s) + S i <? 30)%nat
                  then not_available
                  else [Fixed 6 (Np.var w); Fixed 6 slope;
                        Lit (HFT_1.trend_str slope)])%list.
Proof.
  intros Hs ticks s'. subst ticks s'. unfold HFT_1.fetch_and_update.
  destruct (HFT_1.fetch_new_ticks _ _ _) as [[| t ts] |];
    cbn [fetched default].
  - exists []. rewrite app_nil_r.
    repeat split; try reflexivity. intros i t H. discriminate H.
  - apply (for_tick_rows_1 (t :: ts) s Hs).
  - exists []. rewrite app_nil_r.
    repeat split; try reflexivity. intros i t H. discriminate H.
Qed.

Lemma tick_log_1_witness :
  exists rs : list row,
    rows (HFT_1.files (HFT_1.fetch_and_update (feeding_terminal two_ticks)
                         (initial_1 0 ∅))) "tick_data.csv"
    = rs
    /\ length rs = 2%nat
    /\ rs !! 1%nat
       = Some [Strftime "%Y-%m-%d" 1700000001000000;
               DropLast 3 (Strftime "%H:%M:%S.%f" 1700000001000000);
               Lit "BTCUSD";
               Fixed 5 (tick_price
                          {| time := 1700000001; last := 0; bid := 101;
                             ask := 103 |});
               Lit "N/A"; Lit "N/A"; Lit "N/A"].
Proof.
  destruct (tick_log_1 (feeding_terminal two_ticks) (initial_1 0 ∅))
    as (rs & Hrows & Hn & _ & Hrow).
  - simpl. lia.
  - exists rs. split; [exact Hrows |]. split; [exact Hn |].
    exact (Hrow 1%nat _ eq_refl).
Defined.

(** ** The orders of an iteration *)

Lemma one_or_none {A : Type} (b : bool) (o : option A) (f : A -> order_request) :
  (length (if b then match o with Some a => [f a] | None => [] end else [])
   <= 1)%nat.
Proof. destruct b, o; simpl; lia. Qed.

Lemma in_one_or_none {A : Type} (b : bool) (o : option A)
    (f : A -> order_request) (r : order_request) :
  In r (if b then match o with Some a => [f a] | None => [] end else []) ->
  b = true /\ exists a, o = Some a /\ r = f a.
Proof.
  destruct b; [| intros []]. destruct o as [a |]; [| intros []].
  intros [<- | []]. eauto.
Qed.

Lemma request_fields_1 (sym sig : string) (vol p d : R) :
  sig = "BUY"%string \/ sig = "SELL"%string ->
  let r := HFT_1.request sym vol sig p d in
  action r = TRADE_ACTION_DEAL /\ symbol r = sym /\ volume r = vol
  /\ deviation r = 20%Z /\ type_time r = ORDER_TIME_GTC
  /\ type_filling r = ORDER_FILLING_IOC
  /\ (sig = "BUY"%string -> type r = ORDER_TYPE_BUY)
  /\ (sig = "SELL"%string -> type r = ORDER_TYPE_SELL).
Proof. intros [-> | ->]; repeat split; intros; discriminate. Qed.

Lemma request_fields_2 (sym sig : string) (vol p d : R) :
  sig = "BUY"%string \/ sig = "SELL"%string ->
  let r := HFT_2.request sym vol sig p d in
  action r = TRADE_ACTION_DEAL /\ symbol r = sym /\ volume r = vol
  /\ deviation r = 20%Z /\ type_time r = ORDER_TIME_GTC
  /\ type_filling r = ORDER_FILLING_IOC
  /\ (sig = "BUY"%string -> type r = ORDER_TYPE_BUY)
  /\ (sig = "SELL"%string -> type r = ORDER_TYPE_SELL).
Proof. intros [-> | ->]; repeat split; intros; discriminate. Qed.

Lemma request_fields_3 (sym sig : string) (vol p d : R) :
  sig = "BUY"%string \/ sig = "SELL"%string ->
  let r := remove30_use_RawCalculatedVar.request sym vol sig p d in
  action r = TRADE_ACTION_DEAL /\ symbol r = sym /\ volume r = vol
  /\ deviation r = 20%Z /\ type_time r = ORDER_TIME_GTC
  /\ type_filling r = ORDER_FILLING_FOK
  /\ (sig = "BUY"%string -> type r = ORDER_TYPE_BUY)
  /\ (sig = "SELL"%string -> type r = ORDER_TYPE_SELL).
Proof. intros [-> | ->]; repeat split; intros; discriminate. Qed.

(** X5. An iteration submits at most one order, in each script.  The order
    is a market deal for the configured symbol and lot, with deviation 20,
    good till cancelled, filling IOC (FOK in
    remove30_use_RawCalculatedVar); it is a BUY only when the slope of the
    window exceeds 0.0001 and a SELL only when the slope is below
    -0.0001. *)
Theorem orders_follow_slope
    (symbol_info : SymbolInfo) (mt5 : terminal) (order_num : Z)
    (s1 : HFT_1.state) (s2 : HFT_2.state)
    (s3 : remove30_use_RawCalculatedVar.state) :
  let w1 := HFT_1.tick_buffer (HFT_1.fetch_and_update mt5 s1) in
  let w2 := HFT_2.tick_buffer (HFT_2.fetch_and_update mt5 s2) in
  let w3 := remove30_use_RawCalculatedVar.tick_buffer
              (remove30_use_RawCalculatedVar.fetch_and_update mt5 s3) in
  let sent1 :=
    sent (snd (fst (HFT_1.iteration symbol_info mt5 order_num s1))) in
  let sent2 := sent (snd (HFT_2.iteration mt5 order_num s2)) in
  let sent3 :=
    sent (snd (remove30_use_RawCalculatedVar.iteration mt5 order_num s3)) in
  ((length sent1 <= 1)%nat
   /\ forall r, In r sent1 ->
        slope_order r "BTCUSD" 0.01 ORDER_FILLING_IOC 0.0001
          (Np.linregress_slope (Np.range 30) w1))
  /\ ((length sent2 <= 1)%nat
      /\ forall r, In r sent2 ->
           slope_order r "BTCUSD" 0.01 ORDER_FILLING_IOC 0.0001
             (Np.linregress_slope (Np.range 30) w2))
  /\ ((length sent3 <= 1)%nat
      /\ forall r, In r sent3 ->
           slope_order r "XAUUSD.sml" 0.01 ORDER_FILLING_FOK 0.0001
             (Np.linregress_slope (Np.range 500) w3)).
Proof.
  intros w1 w2 w3 sent1 sent2 sent3. subst sent1 sent2 sent3.
  rewrite iteration_sent_1, attempt_order_sent_1,
    iteration_sent_2, attempt_order_sent_2,
    iteration_sent_3, attempt_order_sent_3.
  fold w1 w2 w3.
  split; [| split]; (split; [apply one_or_none |]); intros r Hin;
    apply in_one_or_none in Hin as (_ & sig & Hsig & ->).
  - apply signal_cases_1 in Hsig.
    destruct (request_fields_1 HFT_1.SYMBOL sig HFT_1.LOT_SIZE
                (last_item w1) (HFT_1.effective_stop symbol_info w1))
      as (A & B & C & D & E & F & G & H); [tauto |].
    unfold slope_order. repeat (split; [assumption |]).
    destruct Hsig as [[Hs Hlt] | [Hs Hlt]]; [left | right]; auto.
  - apply signal_cases_2 in Hsig.
    destruct (request_fields_2 HFT_2.SYMBOL sig HFT_2.LOT_SIZE
                (last_item w2) (Np.var w2))
      as (A & B & C & D & E & F & G & H); [tauto |].
    unfold slope_order. repeat (split; [assumption |]).
    destruct Hsig as [[Hs Hlt] | [Hs Hlt]]; [left | right]; auto.
  - apply signal_cases_3 in Hsig.
    destruct (request_fields_3 remove30_use_RawCalculatedVar.SYMBOL sig
                remove30_use_RawCalculatedVar.LOT_SIZE
                (last_item w3) (Np.var w3))
      as (A & B & C & D & E & F & G & H); [tauto |].
    unfold slope_order. repeat (split; [assumption |]).
    destruct Hsig as [[Hs Hlt] | [Hs Hlt]]; [left | right]; auto.
Qed.

Lemma orders_follow_slope_witness :
  slope_order
    (HFT_2.request HFT_2.SYMBOL HFT_2.LOT_SIZE "BUY"
       (last_item (rising 30 100 1)) (Np.var (rising 30 100 1)))
    "BTCUSD" 0.01 ORDER_FILLING_IOC 0.0001
    (Np.linregress_slope (Np.range 30) (rising 30 100 1)).
Proof.
  destruct (orders_follow_slope no_stops_level quiet_terminal 1
              rising_state_1 rising_state_2 rising_state_3)
    as (_ & (_ & H) & _).
  apply H. rewrite rising_sends_2. left. reflexivity.
Defined.

(** ** Stops on the proper side *)











(** ** The cadence of the loop *)

Lemma sleeps_app (es es' : list effect) :
  sleeps (es ++ es') = (sleeps es ++ sleeps es')%list.
Proof. unfold sleeps. apply omap_app. Qed.

Lemma sent_app (es es' : list effect) :
  sent (es ++ es') = (sent es ++ sent es')%list.
Proof. unfold sent. apply omap_app. Qed.

Lemma sleeps_orders (rs : list order_request) : sleeps (map OrderSend rs) = [].
Proof. induction rs as [| r rs IH]; [reflexivity | exact IH]. Qed.

Lemma sent_orders (rs : list order_request) : sent (map OrderSend rs) = rs.
Proof.
  induction rs as [| r rs IH]; [reflexivity |].
  cbn [map]. unfold sent in *. cbn [omap list_omap]. rewrite IH. reflexivity.
Qed.

Lemma attempt_order_effects_1 info mt5 n (s : HFT_1.state) :
  exists rs, snd (fst (HFT_1.attempt_order info mt5 n s)) = map OrderSend rs
             /\ (length rs <= 1)%nat.
Proof.
  unfold HFT_1.attempt_order.
  destruct (_ =? _)%nat; [| exists []; split; [reflexivity | simpl; lia]].
  destruct (HFT_1.order_signal _) as [sig |];
    [| exists []; split; [reflexivity | simpl; lia]].
  unfold HFT_1.place_market_order.
  eexists [_]. split; [| simpl; lia].
  destruct (order_send _ _) as [res |]; [| reflexivity].
  destruct (_ =? _)%Z; [| reflexivity].
  destruct (profit res); reflexivity.
Qed.

Lemma attempt_order_effects_2 mt5 n (s : HFT_2.state) :
  exists rs, snd (HFT_2.attempt_order mt5 n s) = map OrderSend rs
             /\ (length rs <= 1)%nat.
Proof.
  unfold HFT_2.attempt_order.
  destruct (_ =? _)%nat; [| exists []; split; [reflexivity | simpl; lia]].
  destruct (HFT_2.order_signal _) as [sig |];
    [| exists []; split; [reflexivity | simpl; lia]].
  unfold HFT_2.place_market_order.
  eexists [_]. split; [| simpl; lia].
  destruct (order_send _ _) as [res |]; [| reflexivity].
  destruct (_ =? _)%Z; reflexivity.
Qed.

Lemma attempt_order_effects_3 mt5 n (s : remove30_use_RawCalculatedVar.state) :
  exists rs,
    snd (remove30_use_RawCalculatedVar.attempt_order mt5 n s)
    = map OrderSend rs
    /\ (length rs <= 1)%nat.
Proof.
  unfold remove30_use_RawCalculatedVar.attempt_order.
  destruct (_ =? _)%nat; [| exists []; split; [reflexivity | simpl; lia]].
  destruct (remove30_use_RawCalculatedVar.decide_trend _) as [tr [sig |]];
    [| exists []; split; [reflexivity | simpl; lia]].
  unfold remove30_use_RawCalculatedVar.place_market_order.
  eexists [_]. split; [| simpl; lia].
  destruct (order_send _ _) as [res |]; [| reflexivity].
  destruct (_ =? _)%Z; reflexivity.
Qed.

Lemma iteration_effects_1 info mt5 n (s : HFT_1.state) :
  exists rs,
    (length rs <= 1)%nat
    /\ snd (fst (HFT_1.iteration info mt5 n s))
       = (map OrderSend rs
          ++ match snd (HFT_1.iteration info mt5 n s) with
             | Normal => [Sleep 30]
             | Raised _ => []
             end)%list.
Proof.
  unfold HFT_1.iteration.
  destruct (attempt_order_effects_1 info mt5 n (HFT_1.fetch_and_update mt5 s))
    as (rs & E & Hn).
  destruct (HFT_1.attempt_order _ _ _ _) as [[s' es] [| e]];
    cbn [fst snd] in *; subst es; exists rs; split; try exact Hn.
  - reflexivity.
  - rewrite app_nil_r. reflexivity.
Qed.

Lemma iteration_effects_2 mt5 n (s : HFT_2.state) :
  exists rs,
    (length rs <= 1)%nat
    /\ snd (HFT_2.iteration mt5 n s) = (map OrderSend rs ++ [Sleep 30])%list.
Proof.
  unfold HFT_2.iteration.
  destruct (attempt_order_effects_2 mt5 n (HFT_2.fetch_and_update mt5 s))
    as (rs & E & Hn).
  destruct (HFT_2.attempt_order _ _ _) as [s' es]; cbn [fst snd] in *.
  subst es. exists rs. split; [exact Hn | reflexivity].
Qed.

Lemma iteration_effects_3 mt5 n (s : remove30_use_RawCalculatedVar.state) :
  exists rs,
    (length rs <= 1)%nat
    /\ snd (remove30_use_RawCalculatedVar.iteration mt5 n s)
       = (map OrderSend rs ++ [Sleep 30])%list.
Proof.
  unfold remove30_use_RawCalculatedVar.iteration.
  destruct (attempt_order_effects_3 mt5 n
              (remove30_use_RawCalculatedVar.fetch_and_update mt5 s))
    as (rs & E & Hn).
  destruct (remove30_use_RawCalculatedVar.attempt_order _ _ _) as [s' es];
    cbn [fst snd] in *.
  subst es. exists rs. split; [exact Hn | reflexivity].
Qed.

Lemma loop_cadence_1 info (mt5 : nat -> terminal) (order_nums : list nat) :
  forall s : HFT_1.state,
  let es := snd (fst (HFT_1.loop info mt5 order_nums s)) in
  (length (sent es) <= length order_nums)%nat
  /\ match snd (HFT_1.loop info mt5 order_nums s) with
     | Normal => sleeps es = repeat 30%Z (length order_nums)
     | Raised _ =>
         exists k, (k < length order_nums)%nat /\ sleeps es = repeat 30%Z k
     end.
Proof.
  induction order_nums as [| n rest IH]; intros s.
  - simpl. split; [lia | reflexivity].
  - cbn [HFT_1.loop].
    destruct (iteration_effects_1 info (mt5 n) (Z.of_nat n) s)
      as (rs & Hn & E).
    destruct (HFT_1.iteration _ _ _ s) as [[s1 es1] [| e]];
      cbn [fst snd] in E; subst es1.
    + specialize (IH s1).
      destruct (HFT_1.loop info mt5 rest s1) as [[s2 es2] o2].
      cbn [fst snd] in IH |- *. destruct IH as [Hs Ho].
      rewrite !sent_app, !sleeps_app, sent_orders, sleeps_orders.
      cbn [sent sleeps omap list_omap app]. rewrite !length_app.
      split; [simpl; lia |].
      destruct o2 as [| e].
      * rewrite Ho. reflexivity.
      * destruct Ho as (k & Hk & ->). exists (S k). split; [simpl; lia | reflexivity].
    + cbn [fst snd]. rewrite app_nil_r, sent_orders, sleeps_orders.
      split; [simpl; lia |]. exists 0%nat. split; [simpl; lia | reflexivity].
Qed.

Lemma loop_cadence_2 (mt5 : nat -> terminal) (order_nums : list nat) :
  forall s : HFT_2.state,
  let es := snd (HFT_2.loop mt5 order_nums s) in
  (length (sent es) <= length order_nums)%nat
  /\ sleeps es = repeat 30%Z (length order_nums).
Proof.
  induction order_nums as [| n rest IH]; intros s.
  - simpl. split; [lia | reflexivity].
  - cbn [HFT_2.loop].
    destruct (iteration_effects_2 (mt5 n) (Z.of_nat n) s) as (rs & Hn & E).
    destruct (HFT_2.iteration _ _ s) as [s1 es1]; cbn [fst snd] in E; subst es1.
    specialize (IH s1).
    destruct (HFT_2.loop mt5 rest s1) as [s2 es2].
    cbn [fst snd] in IH |- *. destruct IH as [Hs Ho].
    rewrite !sent_app, !sleeps_app, sent_orders, sleeps_orders.
    cbn [sent sleeps omap list_omap app]. rewrite !length_app.
    split; [simpl; lia | rewrite Ho; reflexivity].
Qed.

Lemma loop_cadence_3 (mt5 : nat -> terminal) (order_nums : list nat) :
  forall s : remove30_use_RawCalculatedVar.state,
  let es := snd (remove30_use_RawCalculatedVar.loop mt5 order_nums s) in
  (length (sent es) <= length order_nums)%nat
  /\ sleeps es = repeat 30%Z (length order_nums).
Proof.
  induction order_nums as [| n rest IH]; intros s.
  - simpl. split; [lia | reflexivity].
  - cbn [remove30_use_RawCalculatedVar.loop].
    destruct (iteration_effects_3 (mt5 n) (Z.of_nat n) s) as (rs & Hn & E).
    destruct (remove30_use_RawCalculatedVar.iteration _ _ s) as [s1 es1];
      cbn [fst snd] in E; subst es1.
    specialize (IH s1).
    destruct (remove30_use_RawCalculatedVar.loop mt5 rest s1) as [s2 es2].
    cbn [fst snd] in IH |- *. destruct IH as [Hs Ho].
    rewrite !sent_app, !sleeps_app, sent_orders, sleeps_orders.
    cbn [sent sleeps omap list_omap app]. rewrite !length_app.
    split; [simpl; lia | rewrite Ho; reflexivity].
Qed.

(** X7. [main] of HFT_2 and of remove30_use_RawCalculatedVar makes exactly
    100 pauses, of 30 seconds each, and submits at most 100 orders; every
    iteration of these two scripts is at most one order followed by one
    pause.  [main] of HFT_1 does the same when it ends normally; when it
    ends by an exception it has made fewer than 100 pauses; an iteration of
    HFT_1 is at most one order, followed by one pause unless it raises. *)
Theorem loop_cadence
    (symbol_info : SymbolInfo) (mt5 : nat -> terminal)
    (s1 : HFT_1.state) (s2 : HFT_2.state)
    (s3 : remove30_use_RawCalculatedVar.state) :
  (let es := snd (fst (HFT_1.main symbol_info mt5 s1)) in
   (length (sent es) <= 100)%nat
   /\ match snd (HFT_1.main symbol_info mt5 s1) with
      | Normal => sleeps es = repeat 30%Z 100
      | Raised _ => exists k, (k < 100)%nat /\ sleeps es = repeat 30%Z k
      end)
  /\ (let es := snd (HFT_2.main mt5 s2) in
      (length (sent es) <= 100)%nat /\ sleeps es = repeat 30%Z 100)
  /\ (let es := snd (remove30_use_RawCalculatedVar.main mt5 s3) in
      (length (sent es) <= 100)%nat /\ sleeps es = repeat 30%Z 100)
  /\ (forall (t : terminal) (n : Z),
      exists rs, (length rs <= 1)%nat
                 /\ snd (HFT_2.iteration t n s2)
                    = (map OrderSend rs ++ [Sleep 30])%list)
  /\ (forall (t : terminal) (n : Z),
      exists rs, (length rs <= 1)%nat
                 /\ snd (remove30_use_RawCalculatedVar.iteration t n s3)
                    = (map OrderSend rs ++ [Sleep 30])%list)
  /\ (forall (t : terminal) (n : Z),
      exists rs, (length rs <= 1)%nat
                 /\ snd (fst (HFT_1.iteration symbol_info t n s1))
                    = (map OrderSend rs
                       ++ match snd (HFT_1.iteration symbol_info t n s1) with
                          | Normal => [Sleep 30]
                          | Raised _ => []
                          end)%list).
Proof.
  split; [| split; [| split; [| split; [| split]]]].
  - exact (loop_cadence_1 symbol_info mt5 (seq 1 100) s1).
  - exact (loop_cadence_2 mt5 (seq 1 100) s2).
  - exact (loop_cadence_3 mt5 (seq 1 100) s3).
  - intros t n. apply iteration_effects_2.
  - intros t n. apply iteration_effects_3.
  - intros t n. apply iteration_effects_1.
Qed.

(** ** The order log *)

Lemma rows_frame (d d' : fs) (f : string) : d' !! f = d !! f -> rows d' f = rows d f.
Proof. unfold rows. intros ->. reflexivity. Qed.

Lemma py_max_floor (v : R) :
  py_max v HFT_2.VARIANCE_FLOOR = HFT_2.effective_variance v.
Proof.
  unfold py_max, HFT_2.effective_variance, HFT_2.VARIANCE_FLOOR.
  destruct (Rlt_dec v 30.0), (Rge_dec v 30.0); try reflexivity; lra.
Qed.

(** X8. In HFT_2 an iteration adds a row to order_data.csv exactly when it
    submitted an order and the terminal answered with return code 10009
    (done); a missing answer or any other return code adds nothing, and the
    iteration ends with its pause all the same.  The row holds the ticket,
    the iteration number, the time, the symbol, the side, the lot, the entry
    price of the request, the profit (0.0 when the answer has none), and a
    comment with the slope and with the distance the request was built
    with. *)
Theorem order_log_2 (mt5 : terminal) (order_num : Z) (s : HFT_2.state) :
  let w := HFT_2.tick_buffer (HFT_2.fetch_and_update mt5 s) in
  let slope := Np.linregress_slope (Np.range 30) w in
  let s' := fst (HFT_2.iteration mt5 order_num s) in
  rows (HFT_2.files s') "order_data.csv"
  = (rows (HFT_2.files s) "order_data.csv"
     ++ match sent (snd (HFT_2.iteration mt5 order_num s)) with
        | [r] =>
            match order_send mt5 r with
            | Some result =>
                if (retcode result =? 10009)%Z then
                  [[Int (order result); Int order_num;
                    Strftime "%Y-%m-%d %H:%M:%S" (now mt5 1);
                    Lit "BTCUSD"; Lit (side_name (type r)); Float 0.01;
                    Fixed 5 (price r);
                    Fixed 2 (default 0.0 (profit result));
                    Cat (Lit "Signal=")
                      (Cat (Lit (side_name (type r)))
                         (Cat (Lit ", Slope=")
                            (Cat (Fixed 4 slope)
                               (Cat (Lit ", VarUsed=")
                                  (Fixed 4
                                     (HFT_2.effective_variance
                                        (Np.var w)))))))]]
                else []
            | None => []
            end
        | _ => []
        end)%list.
Proof.
  cbv zeta.
  rewrite iteration_sent_2, attempt_order_sent_2.
  unfold HFT_2.iteration.
  destruct (fetch_and_update_rows_2 mt5 s) as [_ Hframe].
  rewrite <- (rows_frame _ _ "order_data.csv"
                (Hframe "order_data.csv"%string ltac:(discriminate))).
  generalize (HFT_2.fetch_and_update mt5 s).
  clear s Hframe. intros s.
  destruct (HFT_2.attempt_order mt5 order_num s) as [s' es] eqn:Hat.
  cbn [fst]. revert Hat.
  unfold HFT_2.attempt_order.
  destruct (_ =? _)%nat;
    [| intros [= <- <-]; rewrite app_nil_r; reflexivity].
  change HFT_2.TICK_BUFFER_SIZE with 30%nat.
  destruct (HFT_2.order_signal _) as [sig |] eqn:Hsig.
  - apply signal_cases_2 in Hsig.
    unfold HFT_2.place_market_order.
    assert (Hside : side_name
                      (type (HFT_2.request HFT_2.SYMBOL HFT_2.LOT_SIZE sig
                               (last_item (HFT_2.tick_buffer s))
                               (Np.var (HFT_2.tick_buffer s)))) = sig)
      by (destruct Hsig as [[-> _] | [-> _]]; reflexivity).
    assert (Hprice : price
                       (HFT_2.request HFT_2.SYMBOL HFT_2.LOT_SIZE sig
                          (last_item (HFT_2.tick_buffer s))
                          (Np.var (HFT_2.tick_buffer s)))
                     = last_item (HFT_2.tick_buffer s))
      by (destruct Hsig as [[-> _] | [-> _]]; reflexivity).
    rewrite Hside, Hprice, <- py_max_floor.
    change 10009%Z with TRADE_RETCODE_DONE.
    destruct (order_send _ _) as [res |];
      [destruct (_ =? _)%Z |]; intros [= <- <-]; cbn [HFT_2.files];
      unfold HFT_2.append_order_csv_row, HFT_2.append_tick_csv_row;
      rewrite !rows_open_a_writerow;
      repeat (first [rewrite decide_True by reflexivity
                    | rewrite decide_False by discriminate]);
      rewrite ?app_nil_r; reflexivity.
  - intros [= <- <-]. cbn [HFT_2.files]. unfold HFT_2.append_tick_csv_row.
    rewrite !rows_open_a_writerow, decide_False by discriminate.
    reflexivity.
Qed.

Lemma fetch_and_update_frame_1 (mt5 : terminal) (s : HFT_1.state) (f : string) :
  f <> HFT_1.TICK_CSV_FILE ->
  HFT_1.files (HFT_1.fetch_and_update mt5 s) !! f = HFT_1.files s !! f.
Proof.
  intros Hne. unfold HFT_1.fetch_and_update.
  destruct (HFT_1.fetch_new_ticks _ _ _) as [[| t ts] |]; try reflexivity.
  generalize (t :: ts). intros ticks. revert s.
  induction ticks as [| t' ticks IH]; intros s; [reflexivity |].
  cbn [fold_left]. rewrite IH, for_tick_unfold_1. cbn [HFT_1.files].
  apply lookup_open_a_writerow_ne. congruence.
Qed.

(** X9. In HFT_1 an iteration adds a row to order_data.csv exactly when it
    submitted an order, the terminal answered with return code 10009 (done)
    and the answer has a [profit]; the row holds the ticket, the iteration
    number, the time, the symbol, the side, the lot, the entry price, the
    profit, and the slope and stop distance.  A missing answer or another
    return code adds nothing and the iteration ends normally.  When the
    answer is done but has no [profit], the order was submitted, nothing is
    logged, the iteration raises AttributeError without pausing, and the
    loop ends there. *)
Theorem order_log_1
    (symbol_info : SymbolInfo) (mt5 : terminal) (order_num : Z)
    (s : HFT_1.state) :
  let w := HFT_1.tick_buffer (HFT_1.fetch_and_update mt5 s) in
  let slope := Np.linregress_slope (Np.range 30) w in
  let stop := HFT_1.effective_stop symbol_info w in
  let result := HFT_1.iteration symbol_info mt5 order_num s in
  let before := rows (HFT_1.files s) "order_data.csv" in
  let after := rows (HFT_1.files (fst (fst result))) "order_data.csv" in
  match sent (snd (fst result)) with
  | [r] =>
      match order_send mt5 r with
      | Some answer =>
          if (retcode answer =? 10009)%Z then
            match profit answer with
            | Some p =>
                snd result = Normal
                /\ after
                   = (before
                      ++ [[Int (order answer); Int order_num;
                           Strftime "%Y-%m-%d %H:%M:%S" (now mt5 0);
                           Lit "BTCUSD"; Lit (side_name (type r)); Float 0.01;
                           Fixed 5 (price r); Fixed 2 p;
                           Cat (Lit "Slope=")
                             (Cat (Fixed 4 slope)
                                (Cat (Lit ", stop=") (Fixed 4 stop)))]])%list
            | None =>
                snd result = Raised AttributeError
                /\ after = before
                /\ snd (fst result) = [OrderSend r]
                /\ forall (mt5s : nat -> terminal) (k : nat) (rest : list nat),
                     mt5s k = mt5 -> Z.of_nat k = order_num ->
                     HFT_1.loop symbol_info mt5s (k :: rest) s = result
            end
          else snd result = Normal /\ after = before
      | None => snd result = Normal /\ after = before
      end
  | _ => snd result = Normal /\ after = before
  end.
Proof.
  cbv zeta.
  assert (Hloop : forall (mt5s : nat -> terminal) (k : nat) (rest : list nat),
             mt5s k = mt5 -> Z.of_nat k = order_num ->
             snd (HFT_1.iteration symbol_info mt5 order_num s)
             = Raised AttributeError ->
             HFT_1.loop symbol_info mt5s (k :: rest) s
             = HFT_1.iteration symbol_info mt5 order_num s).
  { intros mt5s k rest Hk Hn Hr. cbn [HFT_1.loop]. rewrite Hk, Hn.
    destruct (HFT_1.iteration _ _ _ s) as [[s' es] o]. cbn [snd] in Hr.
    subst o. reflexivity. }
  revert Hloop.
  rewrite iteration_sent_1, attempt_order_sent_1.
  unfold HFT_1.iteration.
  rewrite <- (rows_frame _ _ "order_data.csv"
                (fetch_and_update_frame_1 mt5 s "order_data.csv"
                   ltac:(discriminate))).
  generalize (HFT_1.fetch_and_update mt5 s). intros s1.
  destruct (HFT_1.attempt_order symbol_info mt5 order_num s1)
    as [[s' es] o] eqn:Hat.
  revert Hat. unfold HFT_1.attempt_order.
  change HFT_1.TICK_BUFFER_SIZE with 30%nat.
  destruct (_ =? _)%nat;
    [| intros [= <- <- <-] _; split; reflexivity].
  destruct (HFT_1.order_signal _) as [sig |] eqn:Hsig;
    [| intros [= <- <- <-] _; split; reflexivity].
  apply signal_cases_1 in Hsig.
  unfold HFT_1.place_market_order.
  assert (Hside : side_name
                    (type (HFT_1.request HFT_1.SYMBOL HFT_1.LOT_SIZE sig
                             (last_item (HFT_1.tick_buffer s1))
                             (HFT_1.effective_stop symbol_info
                                (HFT_1.tick_buffer s1)))) = sig)
    by (destruct Hsig as [[-> _] | [-> _]]; reflexivity).
  assert (Hprice : price
                     (HFT_1.request HFT_1.SYMBOL HFT_1.LOT_SIZE sig
                        (last_item (HFT_1.tick_buffer s1))
                        (HFT_1.effective_stop symbol_info
                           (HFT_1.tick_buffer s1)))
                   = last_item (HFT_1.tick_buffer s1))
    by (destruct Hsig as [[-> _] | [-> _]]; reflexivity).
  rewrite Hside, Hprice.
  change 10009%Z with TRADE_RETCODE_DONE.
  destruct (order_send _ _) as [res |];
    [destruct (_ =? _)%Z; [destruct (profit res) |] |];
    intros [= <- <- <-] Hloop; cbn [fst snd HFT_1.files].
  - split; [reflexivity |].
    unfold HFT_1.append_order_csv_row.
    rewrite rows_open_a_writerow, decide_True by reflexivity. reflexivity.
  - split; [reflexivity |]. split; [reflexivity |]. split; [reflexivity |].
    intros mt5s k rest Hk Hn. apply Hloop; [exact Hk | exact Hn | reflexivity].
  - split; reflexivity.
  - split; reflexivity.
Qed.

Lemma order_log_1_witness :
  snd (HFT_1.iteration no_stops_level profitless_terminal 1 rising_state_1)
  = Raised AttributeError
  /\ HFT_1.loop no_stops_level (fun _ => profitless_terminal) [1%nat; 2%nat]
       rising_state_1
     = HFT_1.iteration no_stops_level profitless_terminal 1 rising_state_1.
Proof.
  pose proof (order_log_1 no_stops_level profitless_terminal 1 rising_state_1)
    as H.
  cbv zeta in H.
  assert (E : sent (snd (fst (HFT_1.iteration no_stops_level
                                profitless_terminal 1 rising_state_1)))
              = sent (snd (fst (HFT_1.iteration no_stops_level
                                  quiet_terminal 1 rising_state_1)))).
  { rewrite !iteration_sent_1, !attempt_order_sent_1. reflexivity. }
  rewrite E, rising_sends_1 in H. cbn [order_send profitless_terminal] in H.
  change (retcode _ =? 10009)%Z with true in H. cbn [profit] in H.
  destruct H as (Hr & _ & _ & Hl).
  split; [exact Hr |].
  exact (Hl (fun _ => profitless_terminal) 1%nat [2%nat] eq_refl eq_refl).
Defined.

(** ** Whole runs and the directory *)

Lemma kept_grew (d d' : fs) : kept d d' -> grew d d'.
Proof.
  intros K f rows0 H. exists []. rewrite app_nil_r. apply K, H.
Qed.

Lemma loop_grew_1 info (mt5 : nat -> terminal) (order_nums : list nat) :
  forall s : HFT_1.state,
  grew (HFT_1.files s)
    (HFT_1.files (fst (fst (HFT_1.loop info mt5 order_nums s)))).
Proof.
  induction order_nums as [| n rest IH]; intros s; [apply grew_refl |].
  cbn [HFT_1.loop].
  pose proof (iteration_grew_1 info (mt5 n) (Z.of_nat n) s) as H1.
  destruct (HFT_1.iteration _ _ _ s) as [[s1 es1] [| e]]; cbn [fst] in H1.
  - specialize (IH s1). destruct (HFT_1.loop info mt5 rest s1) as [[s2 es2] o2].
    cbn [fst] in IH |- *. eapply grew_trans; eassumption.
  - exact H1.
Qed.

Lemma loop_grew_2 (mt5 : nat -> terminal) (order_nums : list nat) :
  forall s : HFT_2.state,
  grew (HFT_2.files s) (HFT_2.files (fst (HFT_2.loop mt5 order_nums s))).
Proof.
  induction order_nums as [| n rest IH]; intros s; [apply grew_refl |].
  cbn [HFT_2.loop].
  pose proof (iteration_grew_2 (mt5 n) (Z.of_nat n) s) as H1.
  destruct (HFT_2.iteration _ _ s) as [s1 es1]; cbn [fst] in H1.
  specialize (IH s1). destruct (HFT_2.loop mt5 rest s1) as [s2 es2].
  cbn [fst] in IH |- *. eapply grew_trans; eassumption.
Qed.

Lemma loop_grew_3 (mt5 : nat -> terminal) (order_nums : list nat) :
  forall s : remove30_use_RawCalculatedVar.state,
  grew (remove30_use_RawCalculatedVar.files s)
    (remove30_use_RawCalculatedVar.files
       (fst (remove30_use_RawCalculatedVar.loop mt5 order_nums s))).
Proof.
  induction order_nums as [| n rest IH]; intros s; [apply grew_refl |].
  cbn [remove30_use_RawCalculatedVar.loop].
  pose proof (iteration_grew_3 (mt5 n) (Z.of_nat n) s) as H1.
  destruct (remove30_use_RawCalculatedVar.iteration _ _ s) as [s1 es1];
    cbn [fst] in H1.
  specialize (IH s1).
  destruct (remove30_use_RawCalculatedVar.loop mt5 rest s1) as [s2 es2].
  cbn [fst] in IH |- *. eapply grew_trans; eassumption.
Qed.

(** Files an iteration does not name stay as they are. *)
Lemma iteration_frame_1 info mt5 n (s : HFT_1.state) (f : string) :
  ~ In f [HFT_1.TICK_CSV_FILE; HFT_1.ORDER_CSV_FILE] ->
  HFT_1.files (fst (fst (HFT_1.iteration info mt5 n s))) !! f
  = HFT_1.files s !! f.
Proof.
  intros Hf.
  assert (H1 : f <> HFT_1.TICK_CSV_FILE) by (intros ->; apply Hf; simpl; auto).
  assert (H2 : f <> HFT_1.ORDER_CSV_FILE) by (intros ->; apply Hf; simpl; auto).
  rewrite <- (fetch_and_update_frame_1 mt5 s f H1).
  unfold HFT_1.iteration. generalize (HFT_1.fetch_and_update mt5 s). intros s1.
  assert (Hat : HFT_1.files (fst (fst (HFT_1.attempt_order info mt5 n s1))) !! f
                = HFT_1.files s1 !! f).
  { unfold HFT_1.attempt_order.
    destruct (_ =? _)%nat; [| reflexivity].
    destruct (HFT_1.order_signal _); [| reflexivity].
    unfold HFT_1.place_market_order.
    destruct (order_send _ _) as [res |]; [| reflexivity].
    destruct (_ =? _)%Z; [| reflexivity].
    destruct (profit res); [| reflexivity].
    cbn [fst HFT_1.files]. apply lookup_open_a_writerow_ne. congruence. }
  destruct (HFT_1.attempt_order _ _ _ _) as [[a e] [| x]]; exact Hat.
Qed.

Lemma iteration_frame_2 mt5 n (s : HFT_2.state) (f : string) :
  ~ In f [HFT_2.RAW_TICK_CSV; HFT_2.TICK_CSV; HFT_2.ORDER_CSV] ->
  HFT_2.files (fst (HFT_2.iteration mt5 n s)) !! f = HFT_2.files s !! f.
Proof.
  intros Hf.
  assert (H1 : f <> HFT_2.RAW_TICK_CSV) by (intros ->; apply Hf; simpl; auto).
  assert (H2 : f <> HFT_2.TICK_CSV) by (intros ->; apply Hf; simpl; auto).
  assert (H3 : f <> HFT_2.ORDER_CSV) by (intros ->; apply Hf; simpl; auto).
  rewrite <- (proj2 (fetch_and_update_rows_2 mt5 s) f H1).
  unfold HFT_2.iteration. generalize (HFT_2.fetch_and_update mt5 s). intros s1.
  assert (Hat : HFT_2.files (fst (HFT_2.attempt_order mt5 n s1)) !! f
                = HFT_2.files s1 !! f).
  { unfold HFT_2.attempt_order.
    destruct (_ =? _)%nat; [| reflexivity].
    destruct (HFT_2.order_signal _);
      [unfold HFT_2.place_market_order;
       destruct (order_send _ _) as [res |]; [destruct (_ =? _)%Z |] |];
      cbn [fst HFT_2.files];
      unfold HFT_2.append_order_csv_row, HFT_2.append_tick_csv_row;
      rewrite !lookup_open_a_writerow_ne by congruence; reflexivity. }
  destruct (HFT_2.attempt_order _ _ _) as [a e]; exact Hat.
Qed.

Lemma iteration_frame_3 mt5 n (s : remove30_use_RawCalculatedVar.state)
    (f : string) :
  ~ In f [remove30_use_RawCalculatedVar.RAW_TICK_CSV;
          remove30_use_RawCalculatedVar.TICK_CSV;
          remove30_use_RawCalculatedVar.ORDER_CSV] ->
  remove30_use_RawCalculatedVar.files
    (fst (remove30_use_RawCalculatedVar.iteration mt5 n s)) !! f
  = remove30_use_RawCalculatedVar.files s !! f.
Proof.
  intros Hf.
  assert (H1 : f <> remove30_use_RawCalculatedVar.RAW_TICK_CSV)
    by (intros ->; apply Hf; simpl; auto).
  assert (H2 : f <> remove30_use_RawCalculatedVar.TICK_CSV)
    by (intros ->; apply Hf; simpl; auto).
  assert (H3 : f <> remove30_use_RawCalculatedVar.ORDER_CSV)
    by (intros ->; apply Hf; simpl; auto).
  rewrite <- (proj2 (fetch_and_update_rows_3 mt5 s) f H1).
  unfold remove30_use_RawCalculatedVar.iteration.
  generalize (remove30_use_RawCalculatedVar.fetch_and_update mt5 s).
  intros s1.
  assert (Hat : remove30_use_RawCalculatedVar.files
                  (fst (remove30_use_RawCalculatedVar.attempt_order mt5 n s1))
                  !! f
                = remove30_use_RawCalculatedVar.files s1 !! f).
  { unfold remove30_use_RawCalculatedVar.attempt_order.
    destruct (_ =? _)%nat; [| reflexivity].
    destruct (remove30_use_RawCalculatedVar.decide_trend _) as [tr [sig |]];
      [unfold remove30_use_RawCalculatedVar.place_market_order;
       destruct (order_send _ _) as [res |]; [destruct (_ =? _)%Z |] |];
      cbn [fst remove30_use_RawCalculatedVar.files];
      rewrite !lookup_open_a_writerow_ne by congruence; reflexivity. }
  destruct (remove30_use_RawCalculatedVar.attempt_order _ _ _) as [a e];
    exact Hat.
Qed.

Lemma loop_frame_1 info (mt5 : nat -> terminal) (order_nums : list nat)
    (f : string) :
  ~ In f [HFT_1.TICK_CSV_FILE; HFT_1.ORDER_CSV_FILE] ->
  forall s : HFT_1.state,
  HFT_1.files (fst (fst (HFT_1.loop info mt5 order_nums s))) !! f
  = HFT_1.files s !! f.
Proof.
  intros Hf. induction order_nums as [| n rest IH]; intros s; [reflexivity |].
  cbn [HFT_1.loop].
  pose proof (iteration_frame_1 info (mt5 n) (Z.of_nat n) s f Hf) as H1.
  destruct (HFT_1.iteration _ _ _ s) as [[s1 es1] [| e]]; cbn [fst] in H1.
  - specialize (IH s1). destruct (HFT_1.loop info mt5 rest s1) as [[s2 es2] o2].
    cbn [fst] in IH |- *. congruence.
  - exact H1.
Qed.

Lemma loop_frame_2 (mt5 : nat -> terminal) (order_nums : list nat)
    (f : string) :
  ~ In f [HFT_2.RAW_TICK_CSV; HFT_2.TICK_CSV; HFT_2.ORDER_CSV] ->
  forall s : HFT_2.state,
  HFT_2.files (fst (HFT_2.loop mt5 order_nums s)) !! f = HFT_2.files s !! f.
Proof.
  intros Hf. induction order_nums as [| n rest IH]; intros s; [reflexivity |].
  cbn [HFT_2.loop].
  pose proof (iteration_frame_2 (mt5 n) (Z.of_nat n) s f Hf) as H1.
  destruct (HFT_2.iteration _ _ s) as [s1 es1]; cbn [fst] in H1.
  specialize (IH s1). destruct (HFT_2.loop mt5 rest s1) as [s2 es2].
  cbn [fst] in IH |- *. congruence.
Qed.

Lemma loop_frame_3 (mt5 : nat -> terminal) (order_nums : list nat)
    (f : string) :
  ~ In f [remove30_use_RawCalculatedVar.RAW_TICK_CSV;
          remove30_use_RawCalculatedVar.TICK_CSV;
          remove30_use_RawCalculatedVar.ORDER_CSV] ->
  forall s : remove30_use_RawCalculatedVar.state,
  remove30_use_RawCalculatedVar.files
    (fst (remove30_use_RawCalculatedVar.loop mt5 order_nums s)) !! f
  = remove30_use_RawCalculatedVar.files s !! f.
Proof.
  intros Hf. induction order_nums as [| n rest IH]; intros s; [reflexivity |].
  cbn [remove30_use_RawCalculatedVar.loop].
  pose proof (iteration_frame_3 (mt5 n) (Z.of_nat n) s f Hf) as H1.
  destruct (remove30_use_RawCalculatedVar.iteration _ _ s) as [s1 es1];
    cbn [fst] in H1.
  specialize (IH s1).
  destruct (remove30_use_RawCalculatedVar.loop mt5 rest s1) as [s2 es2].
  cbn [fst] in IH |- *. congruence.
Qed.

Lemma grew_is_Some (d d' : fs) (f : string) :
  grew d d' -> is_Some (d !! f) -> is_Some (d' !! f).
Proof. intros G [rows0 H]. destruct (G f rows0 H) as [more ->]. eauto. Qed.

Lemma prepared_2 (d : fs) :
  kept d (HFT_2.initialize_csvs d)
  /\ (forall f, In f [HFT_2.RAW_TICK_CSV; HFT_2.TICK_CSV; HFT_2.ORDER_CSV] ->
      is_Some (HFT_2.initialize_csvs d !! f))
  /\ (forall f, ~ In f [HFT_2.RAW_TICK_CSV; HFT_2.TICK_CSV; HFT_2.ORDER_CSV] ->
      HFT_2.initialize_csvs d !! f = d !! f).
Proof.
  destruct (three_guarded_prepares HFT_2.RAW_TICK_CSV HFT_2.TICK_CSV
              HFT_2.ORDER_CSV HFT_2.raw_tick_csv_header HFT_2.tick_csv_header
              HFT_2.order_csv_header d) as (K0 & N0 & O); try discriminate.
  assert (K : kept d (HFT_2.initialize_csvs d)) by exact K0.
  assert (N : forall f h,
             In (f, h) [(HFT_2.RAW_TICK_CSV, HFT_2.raw_tick_csv_header);
                        (HFT_2.TICK_CSV, HFT_2.tick_csv_header);
                        (HFT_2.ORDER_CSV, HFT_2.order_csv_header)] ->
             d !! f = None -> HFT_2.initialize_csvs d !! f = Some [h])
    by exact N0.
  clear K0 N0.
  split; [exact K |]. split; [| exact O].
  intros f Hf.
  destruct (d !! f) as [rows0 |] eqn:E; [rewrite (K f rows0 E); eauto |].
  destruct Hf as [<- | [<- | [<- | []]]];
    (erewrite N; [eauto | | exact E]); simpl; auto.
Qed.

Lemma prepared_3 (d : fs) :
  kept d (remove30_use_RawCalculatedVar.initialize_csvs d)
  /\ (forall f,
      In f [remove30_use_RawCalculatedVar.RAW_TICK_CSV;
            remove30_use_RawCalculatedVar.TICK_CSV;
            remove30_use_RawCalculatedVar.ORDER_CSV] ->
      is_Some (remove30_use_RawCalculatedVar.initialize_csvs d !! f))
  /\ (forall f,
      ~ In f [remove30_use_RawCalculatedVar.RAW_TICK_CSV;
              remove30_use_RawCalculatedVar.TICK_CSV;
              remove30_use_RawCalculatedVar.ORDER_CSV] ->
      remove30_use_RawCalculatedVar.initialize_csvs d !! f = d !! f).
Proof.
  destruct (three_guarded_prepares remove30_use_RawCalculatedVar.RAW_TICK_CSV
              remove30_use_RawCalculatedVar.TICK_CSV
              remove30_use_RawCalculatedVar.ORDER_CSV
              remove30_use_RawCalculatedVar.raw_tick_csv_header
              remove30_use_RawCalculatedVar.tick_csv_header
              remove30_use_RawCalculatedVar.order_csv_header d)
    as (K0 & N0 & O); try discriminate.
  assert (K : kept d (remove30_use_RawCalculatedVar.initialize_csvs d))
    by exact K0.
  assert (N : forall f h,
             In (f, h)
               [(remove30_use_RawCalculatedVar.RAW_TICK_CSV,
                 remove30_use_RawCalculatedVar.raw_tick_csv_header);
                (remove30_use_RawCalculatedVar.TICK_CSV,
                 remove30_use_RawCalculatedVar.tick_csv_header);
                (remove30_use_RawCalculatedVar.ORDER_CSV,
                 remove30_use_RawCalculatedVar.order_csv_header)] ->
             d !! f = None ->
             remove30_use_RawCalculatedVar.initialize_csvs d !! f = Some [h])
    by exact N0.
  clear K0 N0.
  split; [exact K |]. split; [| exact O].
  intros f Hf.
  destruct (d !! f) as [rows0 |] eqn:E; [rewrite (K f rows0 E); eauto |].
  destruct Hf as [<- | [<- | [<- | []]]];
    (erewrite N; [eauto | | exact E]); simpl; auto.
Qed.

Lemma prepared_1 (d : fs) :
  HFT_1.initialize_csvs d !! HFT_1.TICK_CSV_FILE = Some [HFT_1.tick_csv_header]
  /\ HFT_1.initialize_csvs d !! HFT_1.ORDER_CSV_FILE
     = Some [HFT_1.order_csv_header]
  /\ (forall f, ~ In f [HFT_1.TICK_CSV_FILE; HFT_1.ORDER_CSV_FILE] ->
      HFT_1.initialize_csvs d !! f = d !! f).
Proof.
  unfold HFT_1.initialize_csvs, HFT_1.prepare_order_csv,
    HFT_1.prepare_tick_csv, open_w_writerow.
  split; [| split].
  - rewrite lookup_insert_ne by discriminate. apply lookup_insert_eq.
  - apply lookup_insert_eq.
  - intros f Hf. rewrite !lookup_insert_ne; [reflexivity | |];
      intros <-; apply Hf; simpl; auto.
Qed.

Lemma run_files_2 (b : boot) (mt5 : nat -> terminal) (d : fs) :
  run_files (run_HFT_2 b mt5 d) = HFT_2.initialize_csvs d
  \/ exists start,
       run_files (run_HFT_2 b mt5 d)
       = HFT_2.files (fst (HFT_2.loop mt5 (seq 1 HFT_2.LOOP_ITERATIONS)
                             (initial_2 start (HFT_2.initialize_csvs d)))).
Proof.
  unfold run_HFT_2.
  destruct (initialize b); [| left; reflexivity].
  destruct (symbol_select b HFT_2.SYMBOL); [| left; reflexivity].
  right. exists (started_at b - timedelta_minutes HFT_2.LOOKBACK_MINUTES)%Z.
  cbn [negb]. unfold HFT_2.main.
  destruct (HFT_2.loop _ _ _) as [s es]. reflexivity.
Qed.

Lemma run_files_3 (b : boot) (mt5 : nat -> terminal) (d : fs) :
  run_files (run_remove30 b mt5 d)
  = remove30_use_RawCalculatedVar.initialize_csvs d
  \/ exists start,
       run_files (run_remove30 b mt5 d)
       = remove30_use_RawCalculatedVar.files
           (fst (remove30_use_RawCalculatedVar.loop mt5
                   (seq 1 remove30_use_RawCalculatedVar.LOOP_ITERATIONS)
                   (initial_3 start
                      (remove30_use_RawCalculatedVar.initialize_csvs d)))).
Proof.
  unfold run_remove30.
  destruct (initialize b); [| left; reflexivity].
  destruct (symbol_select b remove30_use_RawCalculatedVar.SYMBOL);
    [| left; reflexivity].
  right.
  exists (started_at b
          - timedelta_minutes remove30_use_RawCalculatedVar.LOOKBACK_MINUTES)%Z.
  cbn [negb]. unfold remove30_use_RawCalculatedVar.main.
  destruct (remove30_use_RawCalculatedVar.loop _ _ _) as [s es]. reflexivity.
Qed.

Lemma run_files_1 (b : boot) (mt5 : nat -> terminal) (d : fs) :
  run_files (run_HFT_1 b mt5 d) = HFT_1.initialize_csvs d
  \/ exists info start,
       run_files (run_HFT_1 b mt5 d)
       = HFT_1.files
           (fst (fst (HFT_1.loop info mt5 (seq 1 HFT_1.LOOP_ITERATIONS)
                        (initial_1 start (HFT_1.initialize_csvs d))))).
Proof.
  unfold run_HFT_1.
  destruct (initialize b); [| left; reflexivity].
  destruct (symbol_select b HFT_1.SYMBOL); [| left; reflexivity].
  destruct (symbol_info b HFT_1.SYMBOL) as [info |]; [| left; reflexivity].
  right. exists info.
  exists (started_at b - timedelta_minutes HFT_1.LOOKBACK_MINUTES)%Z.
  cbn [negb]. unfold HFT_1.main.
  destruct (HFT_1.loop _ _ _ _) as [[s es] o]. reflexivity.
Qed.

(** X10. A whole run of HFT_2 or of remove30_use_RawCalculatedVar, whatever
    the terminal answers at start-up and in the loop, leaves every row that
    was in any file of the directory in place and only adds rows after
    them; its three CSV files exist afterwards; no other file is changed.
    A whole run of HFT_1 changes no file but tick_data.csv and
    order_data.csv, and leaves each of these two starting with its header
    row. *)
Theorem run_and_directory (b : boot) (mt5 : nat -> terminal) (d : fs) :
  (grew d (run_files (run_HFT_2 b mt5 d))
   /\ (forall f,
       In f ["raw_tick_data.csv"; "tick_data.csv"; "order_data.csv"]%string ->
       is_Some (run_files (run_HFT_2 b mt5 d) !! f))
   /\ (forall f,
       ~ In f ["raw_tick_data.csv"; "tick_data.csv"; "order_data.csv"]%string ->
       run_files (run_HFT_2 b mt5 d) !! f = d !! f))
  /\ (grew d (run_files (run_remove30 b mt5 d))
      /\ (forall f,
          In f ["raw_tick_data.csv"; "tick_data.csv";
                "order_data.csv"]%string ->
          is_Some (run_files (run_remove30 b mt5 d) !! f))
      /\ (forall f,
          ~ In f ["raw_tick_data.csv"; "tick_data.csv";
                  "order_data.csv"]%string ->
          run_files (run_remove30 b mt5 d) !! f = d !! f))
  /\ ((exists more,
         run_files (run_HFT_1 b mt5 d) !! "tick_data.csv"
         = Some (HFT_1.tick_csv_header :: more))
      /\ (exists more,
            run_files (run_HFT_1 b mt5 d) !! "order_data.csv"
            = Some (HFT_1.order_csv_header :: more))
      /\ (forall f, ~ In f ["tick_data.csv"; "order_data.csv"]%string ->
          run_files (run_HFT_1 b mt5 d) !! f = d !! f)).
Proof.
  split; [| split].
  - destruct (prepared_2 d) as (K & E & O).
    destruct (run_files_2 b mt5 d) as [-> | [start ->]].
    + split; [apply kept_grew, K | split; [exact E | exact O]].
    + pose proof (loop_grew_2 mt5 (seq 1 HFT_2.LOOP_ITERATIONS)
                    (initial_2 start (HFT_2.initialize_csvs d))) as G.
      cbn [initial_2 HFT_2.files] in G.
      split; [eapply grew_trans; [apply kept_grew, K | exact G] |].
      split.
      * intros f Hf. eapply grew_is_Some; [exact G | apply E, Hf].
      * intros f Hf. rewrite loop_frame_2 by exact Hf. apply O, Hf.
  - destruct (prepared_3 d) as (K & E & O).
    destruct (run_files_3 b mt5 d) as [-> | [start ->]].
    + split; [apply kept_grew, K | split; [exact E | exact O]].
    + pose proof (loop_grew_3 mt5
                    (seq 1 remove30_use_RawCalculatedVar.LOOP_ITERATIONS)
                    (initial_3 start
                       (remove30_use_RawCalculatedVar.initialize_csvs d)))
        as G.
      cbn [initial_3 remove30_use_RawCalculatedVar.files] in G.
      split; [eapply grew_trans; [apply kept_grew, K | exact G] |].
      split.
      * intros f Hf. eapply grew_is_Some; [exact G | apply E, Hf].
      * intros f Hf. rewrite loop_frame_3 by exact Hf. apply O, Hf.
  - destruct (prepared_1 d) as (T & Or & O).
    destruct (run_files_1 b mt5 d) as [-> | (info & start & ->)].
    + split; [exists []; exact T | split; [exists []; exact Or | exact O]].
    + pose proof (loop_grew_1 info mt5 (seq 1 HFT_1.LOOP_ITERATIONS)
                    (initial_1 start (HFT_1.initialize_csvs d))) as G.
      cbn [initial_1 HFT_1.files] in G.
      split; [exact (G _ _ T) | split; [exact (G _ _ Or) |]].
      intros f Hf. rewrite loop_frame_1 by exact Hf. apply O, Hf.
Qed.

Lemma run_and_directory_witness :
  exists more,
    run_files (run_HFT_2 good_boot (fun _ => quiet_terminal) old_tick_log)
      !! "tick_data.csv"
    = Some (default [] (old_tick_log !! "tick_data.csv") ++ more)%list.
Proof.
  destruct (run_and_directory good_boot (fun _ => quiet_terminal)
              old_tick_log) as ((G & _) & _).
  exact (G "tick_data.csv"%string _ eq_refl).
Defined.

(** ** Start-up and shutdown *)

(** X11. Each script prepares its CSV files before it talks to the
    terminal.  It quits at start-up exactly when [mt5.initialize] or
    [mt5.symbol_select] fails (in HFT_1 also when [mt5.symbol_info] gives
    nothing); it then has submitted no order and made no pause, and the
    directory is as the preparation left it.  [mt5.shutdown] is called once
    on every path on which [mt5.initialize] succeeded, the one where [main]
    of HFT_1 ends by an exception included, and never otherwise. *)
Theorem start_and_shutdown (b : boot) (mt5 : nat -> terminal) (d : fs) :
  (let r := run_HFT_1 b mt5 d in
   run_shutdowns r = (if initialize b then 1 else 0)%nat
   /\ (run_ending r = SystemExit <->
       initialize b = false \/ symbol_select b "BTCUSD" = false
       \/ symbol_info b "BTCUSD" = None)
   /\ (run_ending r = SystemExit ->
       run_effects r = [] /\ run_files r = HFT_1.initialize_csvs d))
  /\ (let r := run_HFT_2 b mt5 d in
      run_shutdowns r = (if initialize b then 1 else 0)%nat
      /\ (run_ending r = SystemExit <->
          initialize b = false \/ symbol_select b "BTCUSD" = false)
      /\ (run_ending r = SystemExit ->
          run_effects r = [] /\ run_files r = HFT_2.initialize_csvs d)
      /\ (run_ending r = SystemExit \/ run_ending r = Completed))
  /\ (let r := run_remove30 b mt5 d in
      run_shutdowns r = (if initialize b then 1 else 0)%nat
      /\ (run_ending r = SystemExit <->
          initialize b = false \/ symbol_select b "XAUUSD.sml" = false)
      /\ (run_ending r = SystemExit ->
          run_effects r = []
          /\ run_files r = remove30_use_RawCalculatedVar.initialize_csvs d)
      /\ (run_ending r = SystemExit \/ run_ending r = Completed)).
Proof.
  split; [| split]; cbv zeta.
  - unfold run_HFT_1. change HFT_1.SYMBOL with "BTCUSD"%string.
    destruct (initialize b); cbn [negb];
      [| repeat split; auto; intros; auto].
    destruct (symbol_select b "BTCUSD"); cbn [negb];
      [| repeat split; auto; intros; auto].
    destruct (symbol_info b "BTCUSD") as [info |];
      [| repeat split; auto; intros; auto].
    destruct (HFT_1.main _ _ _) as [[s es] o]. cbn [run_shutdowns run_ending].
    split; [reflexivity |].
    split; [split; [destruct o; discriminate
                   | intros [H | [H | H]]; discriminate] |].
    destruct o; discriminate.
  - unfold run_HFT_2. change HFT_2.SYMBOL with "BTCUSD"%string.
    destruct (initialize b); cbn [negb];
      [| repeat split; auto; intros; auto].
    destruct (symbol_select b "BTCUSD"); cbn [negb];
      [| repeat split; auto; intros; auto].
    destruct (HFT_2.main _ _) as [s es]. cbn [run_shutdowns run_ending].
    split; [reflexivity |].
    split; [split; [discriminate | intros [H | H]; discriminate] |].
    split; [discriminate | right; reflexivity].
  - unfold run_remove30.
    change remove30_use_RawCalculatedVar.SYMBOL with "XAUUSD.sml"%string.
    destruct (initialize b); cbn [negb];
      [| repeat split; auto; intros; auto].
    destruct (symbol_select b "XAUUSD.sml"); cbn [negb];
      [| repeat split; auto; intros; auto].
    destruct (remove30_use_RawCalculatedVar.main _ _) as [s es].
    cbn [run_shutdowns run_ending].
    split; [reflexivity |].
    split; [split; [discriminate | intros [H | H]; discriminate] |].
    split; [discriminate | right; reflexivity].
Qed.

Lemma start_and_shutdown_witness :
  run_shutdowns (run_HFT_1 dead_boot (fun _ => quiet_terminal) old_tick_log)
  = 0%nat
  /\ run_effects (run_HFT_1 dead_boot (fun _ => quiet_terminal) old_tick_log)
     = []
  /\ run_files (run_HFT_1 dead_boot (fun _ => quiet_terminal) old_tick_log)
     = HFT_1.initialize_csvs old_tick_log.
Proof.
  destruct (start_and_shutdown dead_boot (fun _ => quiet_terminal)
              old_tick_log) as ((Hs & Hq & He) & _).
  split; [exact Hs |].
  apply He, Hq. left. reflexivity.
Defined.

(** ** Preparing twice *)

Lemma guarded_prepare_id (file : string) (header : row) (d : fs) :
  is_Some (d !! file) ->
  (if negb (path_exists file d) then open_w_writerow file header d else d) = d.
Proof.
  intros H. unfold path_exists. rewrite bool_decide_eq_true_2 by exact H.
  reflexivity.
Qed.

(** X12. Preparing the CSV files twice is the same as preparing them once,
    in each script; in HFT_2 and in remove30_use_RawCalculatedVar preparing
    changes nothing at all once the three files exist. *)
Theorem prepare_twice (d : fs) :
  HFT_1.initialize_csvs (HFT_1.initialize_csvs d) = HFT_1.initialize_csvs d
  /\ HFT_2.initialize_csvs (HFT_2.initialize_csvs d) = HFT_2.initialize_csvs d
  /\ remove30_use_RawCalculatedVar.initialize_csvs
       (remove30_use_RawCalculatedVar.initialize_csvs d)
     = remove30_use_RawCalculatedVar.initialize_csvs d
  /\ ((forall f,
       In f ["raw_tick_data.csv"; "tick_data.csv"; "order_data.csv"]%string ->
       is_Some (d !! f)) ->
      HFT_2.initialize_csvs d = d
      /\ remove30_use_RawCalculatedVar.initialize_csvs d = d).
Proof.
  assert (H2 : forall d0 : fs,
             (forall f, In f [HFT_2.RAW_TICK_CSV; HFT_2.TICK_CSV;
                              HFT_2.ORDER_CSV] -> is_Some (d0 !! f)) ->
             HFT_2.initialize_csvs d0 = d0).
  { intros d0 H. unfold HFT_2.initialize_csvs, HFT_2.prepare_order_csv,
      HFT_2.prepare_tick_csv, HFT_2.prepare_raw_tick_csv.
    rewrite (guarded_prepare_id HFT_2.RAW_TICK_CSV) by (apply H; simpl; auto).
    rewrite (guarded_prepare_id HFT_2.TICK_CSV) by (apply H; simpl; auto).
    apply guarded_prepare_id, H; simpl; auto. }
  assert (H3 : forall d0 : fs,
             (forall f, In f [remove30_use_RawCalculatedVar.RAW_TICK_CSV;
                              remove30_use_RawCalculatedVar.TICK_CSV;
                              remove30_use_RawCalculatedVar.ORDER_CSV] ->
                        is_Some (d0 !! f)) ->
             remove30_use_RawCalculatedVar.initialize_csvs d0 = d0).
  { intros d0 H. unfold remove30_use_RawCalculatedVar.initialize_csvs,
      remove30_use_RawCalculatedVar.prepare_order_csv,
      remove30_use_RawCalculatedVar.prepare_tick_csv,
      remove30_use_RawCalculatedVar.prepare_raw_tick_csv.
    rewrite (guarded_prepare_id remove30_use_RawCalculatedVar.RAW_TICK_CSV)
      by (apply H; simpl; auto).
    rewrite (guarded_prepare_id remove30_use_RawCalculatedVar.TICK_CSV)
      by (apply H; simpl; auto).
    apply guarded_prepare_id, H; simpl; auto. }
  split; [| split; [| split; [| split]]].
  - unfold HFT_1.initialize_csvs, HFT_1.prepare_order_csv,
      HFT_1.prepare_tick_csv, open_w_writerow.
    apply map_eq. intros f.
    destruct (decide (HFT_1.ORDER_CSV_FILE = f)) as [<- | Ho].
    + rewrite !lookup_insert_eq. reflexivity.
    + destruct (decide (HFT_1.TICK_CSV_FILE = f)) as [<- | Ht].
      * rewrite !(lookup_insert_ne _ HFT_1.ORDER_CSV_FILE) by exact Ho.
        rewrite !lookup_insert_eq. reflexivity.
      * repeat first [rewrite lookup_insert_ne by exact Ho
                     | rewrite lookup_insert_ne by exact Ht].
        reflexivity.
  - apply H2, prepared_2.
  - apply H3, prepared_3.
  - apply H2, H.
  - apply H3, H.
Qed.

Lemma prepare_twice_witness :
  HFT_2.initialize_csvs (HFT_2.initialize_csvs old_tick_log)
  = HFT_2.initialize_csvs old_tick_log.
Proof.
  destruct (prepare_twice (HFT_2.initialize_csvs old_tick_log))
    as (_ & _ & _ & H).
  apply H. intros f Hf.
  destruct Hf as [<- | [<- | [<- | []]]]; vm_compute; eauto.
Defined.

(** ** The previous slope, written *)

Lemma for_tick_previous_1 (ticks : list tick) :
  forall s : HFT_1.state,
  HFT_1.previous_slope (fold_left HFT_1.for_tick ticks s)
  = HFT_1.previous_slope s.
Proof.
  induction ticks as [| t ticks IH]; intros s; [reflexivity |].
  cbn [fold_left]. rewrite IH, for_tick_unfold_1. reflexivity.
Qed.

Lemma iteration_previous_1 info mt5 n (s : HFT_1.state) :
  HFT_1.previous_slope (fst (fst (HFT_1.iteration info mt5 n s)))
  = HFT_1.previous_slope s.
Proof.
  assert (Hup : HFT_1.previous_slope (HFT_1.fetch_and_update mt5 s)
                = HFT_1.previous_slope s).
  { unfold HFT_1.fetch_and_update.
    destruct (HFT_1.fetch_new_ticks _ _ _) as [[| t ts] |]; try reflexivity.
    apply for_tick_previous_1. }
  rewrite <- Hup. unfold HFT_1.iteration.
  generalize (HFT_1.fetch_and_update mt5 s). intros s1.
  assert (Hat : HFT_1.previous_slope
                  (fst (fst (HFT_1.attempt_order info mt5 n s1)))
                = HFT_1.previous_slope s1).
  { unfold HFT_1.attempt_order.
    destruct (_ =? _)%nat; [| reflexivity].
    destruct (HFT_1.order_signal _); [| reflexivity].
    unfold HFT_1.place_market_order.
    destruct (order_send _ _) as [res |]; [| reflexivity].
    destruct (_ =? _)%Z; [| reflexivity].
    destruct (profit res); reflexivity. }
  destruct (HFT_1.attempt_order _ _ _ _) as [[a e] [| x]]; exact Hat.
Qed.

Lemma for_tick_previous_2 (ticks : list tick) :
  forall s : HFT_2.state,
  HFT_2.previous_slope (fold_left HFT_2.for_tick ticks s)
  = HFT_2.previous_slope s.
Proof.
  induction ticks as [| t ticks IH]; intros s; [reflexivity |].
  cbn [fold_left]. rewrite IH. reflexivity.
Qed.

(** X13. HFT_1 never writes [previous_slope]: after any number of
    iterations it holds what it held before, so 0.0 throughout a run.  An
    iteration of HFT_2 stores in it the slope of the window it evaluated when
    the window is full, and leaves it as it is when the window is not
    full. *)
Theorem previous_slope_written
    (symbol_info : SymbolInfo) (mt5s : nat -> terminal)
    (order_nums : list nat) (s1 : HFT_1.state)
    (mt5 : terminal) (order_num : Z) (s2 : HFT_2.state) :
  HFT_1.previous_slope
    (fst (fst (HFT_1.loop symbol_info mt5s order_nums s1)))
  = HFT_1.previous_slope s1
  /\ (let w := HFT_2.tick_buffer (HFT_2.fetch_and_update mt5 s2) in
      HFT_2.previous_slope (fst (HFT_2.iteration mt5 order_num s2))
      = if (length w =? 30)%nat
        then Np.linregress_slope (Np.range 30) w
        else HFT_2.previous_slope s2).
Proof.
  split.
  - revert s1. induction order_nums as [| n rest IH]; intros s1;
      [reflexivity |].
    cbn [HFT_1.loop].
    pose proof (iteration_previous_1 symbol_info (mt5s n) (Z.of_nat n) s1)
      as H1.
    destruct (HFT_1.iteration _ _ _ s1) as [[a e] [| x]]; cbn [fst] in H1.
    + specialize (IH a).
      destruct (HFT_1.loop symbol_info mt5s rest a) as [[a2 e2] o2].
      cbn [fst] in IH |- *. congruence.
    + exact H1.
  - cbv zeta.
    assert (Hup : HFT_2.previous_slope (HFT_2.fetch_and_update mt5 s2)
                  = HFT_2.previous_slope s2).
    { unfold HFT_2.fetch_and_update.
      destruct (HFT_2.fetch_new_ticks _ _ _) as [[| t ts] |]; try reflexivity.
      apply for_tick_previous_2. }
    rewrite <- Hup. unfold HFT_2.iteration.
    generalize (HFT_2.fetch_and_update mt5 s2). intros s.
    destruct (HFT_2.attempt_order mt5 order_num s) as [s' es] eqn:Hat.
    cbn [fst]. revert Hat. unfold HFT_2.attempt_order.
    change HFT_2.TICK_BUFFER_SIZE with 30%nat.
    destruct (_ =? _)%nat; [| intros [= <- <-]; reflexivity].
    destruct (HFT_2.order_signal _); [| intros [= <- <-]; reflexivity].
    unfold HFT_2.place_market_order.
    destruct (order_send _ _) as [res |];
      [destruct (_ =? _)%Z |]; intros [= <- <-]; reflexivity.
Qed.

(** ** Before the window is full *)

Lemma iteration_skips_1 info mt5 n (s : HFT_1.state) :
  length (HFT_1.tick_buffer (HFT_1.fetch_and_update mt5 s))
  <> HFT_1.TICK_BUFFER_SIZE ->
  HFT_1.iteration info mt5 n s
  = (HFT_1.fetch_and_update mt5 s, [Sleep 30], Normal).
Proof.
  intros H. apply Nat.eqb_neq in H.
  unfold HFT_1.iteration, HFT_1.attempt_order. rewrite H. reflexivity.
Qed.

Lemma iteration_skips_2 mt5 n (s : HFT_2.state) :
  length (HFT_2.tick_buffer (HFT_2.fetch_and_update mt5 s))
  <> HFT_2.TICK_BUFFER_SIZE ->
  HFT_2.iteration mt5 n s = (HFT_2.fetch_and_update mt5 s, [Sleep 30]).
Proof.
  intros H. apply Nat.eqb_neq in H.
  unfold HFT_2.iteration, HFT_2.attempt_order. rewrite H. reflexivity.
Qed.

Lemma iteration_skips_3 mt5 n (s : remove30_use_RawCalculatedVar.state) :
  length (remove30_use_RawCalculatedVar.tick_buffer
            (remove30_use_RawCalculatedVar.fetch_and_update mt5 s))
  <> remove30_use_RawCalculatedVar.TICK_BUFFER_SIZE ->
  remove30_use_RawCalculatedVar.iteration mt5 n s
  = (remove30_use_RawCalculatedVar.fetch_and_update mt5 s, [Sleep 30]).
Proof.
  intros H. apply Nat.eqb_neq in H.
  unfold remove30_use_RawCalculatedVar.iteration,
    remove30_use_RawCalculatedVar.attempt_order.
  rewrite H. reflexivity.
Qed.

Lemma update_length_3 (mt5 : terminal)
    (s : remove30_use_RawCalculatedVar.state) (k : nat) :
  respects_count mt5 ->
  (length (remove30_use_RawCalculatedVar.tick_buffer s) <= k)%nat ->
  (k + 200 < 500)%nat ->
  (length (remove30_use_RawCalculatedVar.tick_buffer
             (remove30_use_RawCalculatedVar.fetch_and_update mt5 s))
   <= k + 200)%nat.
Proof.
  intros Hc Hk Hlt.
  rewrite fetch_and_update_buffer_3, extend_length, length_map
    by (change remove30_use_RawCalculatedVar.TICK_BUFFER_SIZE with 500%nat;
        lia).
  pose proof (Hc remove30_use_RawCalculatedVar.SYMBOL
                (remove30_use_RawCalculatedVar.latest_tick_time s)
                remove30_use_RawCalculatedVar.TICKS_PER_CALL) as H.
  unfold remove30_use_RawCalculatedVar.fetch_new_ticks.
  change remove30_use_RawCalculatedVar.TICKS_PER_CALL with 200%nat in H |- *.
  change remove30_use_RawCalculatedVar.TICK_BUFFER_SIZE with 500%nat.
  lia.
Qed.

(** X16. While the window is not full after the update step, an iteration
    only pauses: no statistics, no order, no row in the aggregated or order
    log.  That is the case whenever the prices held plus the ticks fetched
    are fewer than the window size.  In remove30_use_RawCalculatedVar, whose
    window holds 500 prices and which asks for 200 ticks per call, a terminal
    that never hands out more ticks than asked for makes [main] begin with
    two pauses and no order. *)
Theorem before_the_window_is_full
    (symbol_info : SymbolInfo) (mt5 : terminal) (order_num : Z)
    (s1 : HFT_1.state) (s2 : HFT_2.state)
    (s3 : remove30_use_RawCalculatedVar.state)
    (mt5s : nat -> terminal) (start : datetime) (d : fs) :
  ((length (HFT_1.tick_buffer s1)
    + length (fetched (HFT_1.fetch_new_ticks mt5 HFT_1.SYMBOL
                         (HFT_1.latest_tick_time s1))) < 30)%nat ->
   HFT_1.iteration symbol_info mt5 order_num s1
   = (HFT_1.fetch_and_update mt5 s1, [Sleep 30], Normal))
  /\ ((length (HFT_2.tick_buffer s2)
       + length (fetched (HFT_2.fetch_new_ticks mt5 HFT_2.SYMBOL
                            (HFT_2.latest_tick_time s2))) < 30)%nat ->
      HFT_2.iteration mt5 order_num s2
      = (HFT_2.fetch_and_update mt5 s2, [Sleep 30]))
  /\ ((length (remove30_use_RawCalculatedVar.tick_buffer s3)
       + length (fetched
                   (remove30_use_RawCalculatedVar.fetch_new_ticks mt5
                      remove30_use_RawCalculatedVar.SYMBOL
                      (remove30_use_RawCalculatedVar.latest_tick_time s3)))
       < 500)%nat ->
      remove30_use_RawCalculatedVar.iteration mt5 order_num s3
      = (remove30_use_RawCalculatedVar.fetch_and_update mt5 s3, [Sleep 30]))
  /\ ((forall k, respects_count (mt5s k)) ->
      exists rest,
        snd (remove30_use_RawCalculatedVar.main mt5s (initial_3 start d))
        = Sleep 30 :: Sleep 30 :: rest).
Proof.
  split; [| split; [| split]].
  - intros H. apply iteration_skips_1.
    rewrite fetch_and_update_buffer_1, extend_length, length_map
      by (change HFT_1.TICK_BUFFER_SIZE with 30%nat; lia).
    change HFT_1.TICK_BUFFER_SIZE with 30%nat. lia.
  - intros H. apply iteration_skips_2.
    rewrite fetch_and_update_buffer_2, extend_length, length_map
      by (change HFT_2.TICK_BUFFER_SIZE with 30%nat; lia).
    change HFT_2.TICK_BUFFER_SIZE with 30%nat. lia.
  - intros H. apply iteration_skips_3.
    rewrite fetch_and_update_buffer_3, extend_length, length_map
      by (change remove30_use_RawCalculatedVar.TICK_BUFFER_SIZE with 500%nat;
          lia).
    change remove30_use_RawCalculatedVar.TICK_BUFFER_SIZE with 500%nat. lia.
  - intros Hc. unfold remove30_use_RawCalculatedVar.main.
    change (seq 1 remove30_use_RawCalculatedVar.LOOP_ITERATIONS)
      with (1%nat :: 2%nat :: seq 3 98).
    cbn [remove30_use_RawCalculatedVar.loop].
    pose proof (update_length_3 (mt5s 1%nat) (initial_3 start d) 0 (Hc 1%nat)
                  ltac:(simpl; lia) ltac:(lia)) as L1.
    rewrite iteration_skips_3
      by (change remove30_use_RawCalculatedVar.TICK_BUFFER_SIZE with 500%nat;
          lia).
    pose proof (update_length_3 (mt5s 2%nat)
                  (remove30_use_RawCalculatedVar.fetch_and_update (mt5s 1%nat)
                     (initial_3 start d)) 200 (Hc 2%nat) L1 ltac:(lia)) as L2.
    rewrite iteration_skips_3
      by (change remove30_use_RawCalculatedVar.TICK_BUFFER_SIZE with 500%nat;
          lia).
    destruct (remove30_use_RawCalculatedVar.loop mt5s (seq 3 98) _)
      as [s' es]. exists es. reflexivity.
Qed.

Lemma before_the_window_is_full_witness :
  HFT_2.iteration (feeding_terminal two_ticks) 1 (initial_2 0 ∅)
  = (HFT_2.fetch_and_update (feeding_terminal two_ticks) (initial_2 0 ∅),
     [Sleep 30])
  /\ exists rest,
       snd (remove30_use_RawCalculatedVar.main
              (fun _ => quiet_terminal) (initial_3 0 ∅))
       = Sleep 30 :: Sleep 30 :: rest.
Proof.
  destruct (before_the_window_is_full no_stops_level
              (feeding_terminal two_ticks) 1 (initial_1 0 ∅) (initial_2 0 ∅)
              (initial_3 0 ∅) (fun _ => quiet_terminal) 0 ∅)
    as (_ & H2 & _ & H4).
  split.
  - apply H2. simpl. lia.
  - apply H4. intros k sym from count. simpl. lia.
Defined.
